(** * Website analysis service: SSRF guard, bounded fetcher, page discovery
      and analysis orchestrator

    A shallow embedding of [server/websiteAnalysisService.ts] and of the
    storage methods it calls, followed by the properties of the design
    document that were checked against it. *)

From Stdlib Require Import String Ascii ZArith Lia Bool List DecimalString.
From stdpp Require Import gmap strings list fin_maps sorting.
Import ListNotations.

Local Open Scope string_scope.
Local Open Scope Z_scope.

(** ** JavaScript string primitives

    A JavaScript string is modelled as a Rocq [string]: a sequence of code
    units below 256, which covers every literal of the service.  The case
    mappings are those of JavaScript on this alphabet, except that the
    upper-case forms of the three letters whose capital lies outside it
    (code units 181, 223 and 255) are left as they are. *)

Module JS.

Definition is_digit (c : ascii) : bool :=
  let n := nat_of_ascii c in (48 <=? n)%nat && (n <=? 57)%nat.

Definition digit_val (c : ascii) : Z := Z.of_nat (nat_of_ascii c) - 48.

(** [Number(s)] on a string of decimal digits (leading zeros allowed). *)
Fixpoint Number_from (acc : Z) (s : string) : Z :=
  match s with
  | EmptyString => acc
  | String c s' => Number_from (acc * 10 + digit_val c) s'
  end.

Definition Number (s : string) : Z := Number_from 0 s.

Definition lower_char (c : ascii) : ascii :=
  let n := nat_of_ascii c in
  if ((65 <=? n)%nat && (n <=? 90)%nat)
     || ((192 <=? n)%nat && (n <=? 222)%nat && negb (n =? 215)%nat)
  then ascii_of_nat (n + 32) else c.

Definition upper_char (c : ascii) : ascii :=
  let n := nat_of_ascii c in
  if ((97 <=? n)%nat && (n <=? 122)%nat)
     || ((224 <=? n)%nat && (n <=? 254)%nat && negb (n =? 247)%nat)
  then ascii_of_nat (n - 32) else c.

Fixpoint toLowerCase (s : string) : string :=
  match s with
  | EmptyString => EmptyString
  | String c s' => String (lower_char c) (toLowerCase s')
  end.

Fixpoint toUpperCase (s : string) : string :=
  match s with
  | EmptyString => EmptyString
  | String c s' => String (upper_char c) (toUpperCase s')
  end.

(** [s.startsWith(p)] *)
Definition startsWith (s p : string) : bool := String.prefix p s.

(** [s.includes(p)] *)
Fixpoint includes (s p : string) : bool :=
  String.prefix p s ||
  match s with
  | EmptyString => false
  | String _ s' => includes s' p
  end.

Fixpoint rev_onto (acc s : string) : string :=
  match s with
  | EmptyString => acc
  | String c s' => rev_onto (String c acc) s'
  end.

Definition rev (s : string) : string := rev_onto EmptyString s.

(** [s.substring(0, n)] *)
Fixpoint take (n : N) (s : string) : string :=
  match s with
  | EmptyString => EmptyString
  | String c s' =>
      if (n =? 0)%N then EmptyString else String c (take (N.pred n) s')
  end.

(** [s.split(sep)] for a one-character separator; [cur] is the current
    piece, reversed. *)
Fixpoint split_on (sep : ascii) (cur : string) (s : string) : list string :=
  match s with
  | EmptyString => [rev cur]
  | String c s' =>
      if Ascii.eqb c sep then rev cur :: split_on sep EmptyString s'
      else split_on sep (String c cur) s'
  end.

Definition split (s : string) (sep : ascii) : list string := split_on sep EmptyString s.

(** A line feed. *)
Definition LF : string := String "010" EmptyString.

(** White space of [String.prototype.trim] and of the regular
    expression class [\s], below code unit 256. *)
Definition is_space (c : ascii) : bool :=
  let n := nat_of_ascii c in
  ((9 <=? n)%nat && (n <=? 13)%nat) || (n =? 32)%nat || (n =? 160)%nat.

Fixpoint trimStart (s : string) : string :=
  match s with
  | String c s' => if is_space c then trimStart s' else s
  | EmptyString => EmptyString
  end.

Definition trim (s : string) : string := rev (trimStart (rev (trimStart s))).

(** [s.replace(/\s+/g, ' ')] *)
Fixpoint collapse_spaces (in_run : bool) (s : string) : string :=
  match s with
  | EmptyString => EmptyString
  | String c s' =>
      if is_space c
      then if in_run then collapse_spaces true s'
           else String " " (collapse_spaces true s')
      else String c (collapse_spaces false s')
  end.

(** [s.replace(/\/$/, '')]: drops one trailing slash. *)
Fixpoint dropTrailingSlash (s : string) : string :=
  match s with
  | EmptyString => EmptyString
  | String c EmptyString => if Ascii.eqb c "/" then EmptyString else s
  | String c s' => String c (dropTrailingSlash s')
  end.

(** [s.replace(/^\[|\]$/g, '')]: drops a leading [[] and a trailing []]. *)
Fixpoint dropTrailingBracket (s : string) : string :=
  match s with
  | EmptyString => EmptyString
  | String c EmptyString => if Ascii.eqb c "]" then EmptyString else s
  | String c s' => String c (dropTrailingBracket s')
  end.

Definition stripBrackets (s : string) : string :=
  match s with
  | String "[" s' => dropTrailingBracket s'
  | _ => dropTrailingBracket s
  end.

Definition hex_val (c : ascii) : option Z :=
  let n := nat_of_ascii c in
  if is_digit c then Some (Z.of_nat n - 48)
  else if (97 <=? n)%nat && (n <=? 102)%nat then Some (Z.of_nat n - 87)
  else if (65 <=? n)%nat && (n <=? 70)%nat then Some (Z.of_nat n - 55)
  else None.

Fixpoint parse_radix (radix : Z) (acc : option Z) (s : string) : option Z :=
  match s with
  | EmptyString => acc
  | String c s' =>
      match hex_val c with
      | Some v =>
          if v <? radix
          then parse_radix radix (Some (match acc with Some a => a | None => 0 end * radix + v)) s'
          else acc
      | None => acc
      end
  end.

(** [parseInt(s)] without a radix; [None] stands for [NaN]. *)
Definition parseInt (s : string) : option Z :=
  let s := trimStart s in
  let '(neg, s) :=
    match s with
    | String "-" s' => (true, s')
    | String "+" s' => (false, s')
    | _ => (false, s)
    end in
  let r :=
    match s with
    | String "0" (String "x" s') => parse_radix 16 None s'
    | String "0" (String "X" s') => parse_radix 16 None s'
    | _ => parse_radix 10 None s
    end in
  if neg then option_map Z.opp r else r.

(** [String(n)] for an integer. *)
Definition toString (n : Z) : string := NilZero.string_of_int (Z.to_int n).

End JS.

(** ** HostPolicy: [isPrivateIP] *)

Module HostPolicy.
Import JS.

(** Greedy [\d{1,n}]: the digits taken and the rest of the input. *)
Fixpoint take_digits (n : nat) (s : string) : string * string :=
  match n, s with
  | S n', String c s' =>
      if is_digit c
      then let '(d, r) := take_digits n' s' in (String c d, r)
      else (EmptyString, s)
  | _, _ => (EmptyString, s)
  end.

(** One capture group [(\d{1,3})]. *)
Definition octet_group (s : string) : option (string * string) :=
  match take_digits 3 s with
  | (EmptyString, _) => None
  | (d, r) => Some (d, r)
  end.

Definition literal_dot (s : string) : option string :=
  match s with
  | String "." r => Some r
  | _ => None
  end.

(** [ip.match(/^(\d{1,3})\.(\d{1,3})\.(\d{1,3})\.(\d{1,3})$/)], the four
    captures already mapped through [Number]. *)
Definition ipv4Match (ip : string) : option (Z * Z * Z * Z) :=
  match octet_group ip with
  | None => None
  | Some (a, r1) =>
  match literal_dot r1 with
  | None => None
  | Some r1 =>
  match octet_group r1 with
  | None => None
  | Some (b, r2) =>
  match literal_dot r2 with
  | None => None
  | Some r2 =>
  match octet_group r2 with
  | None => None
  | Some (c, r3) =>
  match literal_dot r3 with
  | None => None
  | Some r3 =>
  match octet_group r3 with
  | None => None
  | Some (d, EmptyString) => Some (Number a, Number b, Number c, Number d)
  | Some (_, String _ _) => None
  end end end end end end end.

Definition ipv4_private (a b c d : Z) : bool :=
  (a =? 0) || (a =? 10) || (a =? 127)
  || ((a =? 172) && (16 <=? b) && (b <=? 31))
  || ((a =? 192) && (b =? 168))
  || ((a =? 169) && (b =? 254))
  || ((a =? 192) && (b =? 0) && (c =? 2))
  || ((a =? 198) && (b =? 51) && (c =? 100))
  || ((a =? 203) && (b =? 0) && (c =? 113))
  || (224 <=? a).

Definition ipv6_special (ip : string) : bool :=
  let ipLower := toLowerCase ip in
  String.eqb ipLower "::1"
  || startsWith ipLower "::ffff:"
  || startsWith ipLower "fe80:"
  || startsWith ipLower "fc"
  || startsWith ipLower "fd"
  || startsWith ipLower "ff"
  || String.eqb ipLower "::".

Definition isPrivateIP (ip : string) : bool :=
  match ipv4Match ip with
  | Some (a, b, c, d) =>
      if (255 <? a) || (255 <? b) || (255 <? c) || (255 <? d) then true
      else if ipv4_private a b c d then true
      else ipv6_special ip
  | None => ipv6_special ip
  end.

(** *** The blocked IPv4 ranges as the design document lists them

    An address is the 32-bit number of its four octets; a range is a base
    address with a prefix length. *)

Definition ipv4_addr (a b c d : Z) : Z := a * 2 ^ 24 + b * 2 ^ 16 + c * 2 ^ 8 + d.

Definition in_cidr (base len x : Z) : bool :=
  Z.shiftr x (32 - len) =? Z.shiftr base (32 - len).

Definition blocked_cidrs : list (Z * Z) :=
  [ (ipv4_addr 0 0 0 0, 8);
    (ipv4_addr 10 0 0 0, 8);
    (ipv4_addr 127 0 0 0, 8);
    (ipv4_addr 172 16 0 0, 12);
    (ipv4_addr 192 168 0 0, 16);
    (ipv4_addr 169 254 0 0, 16);
    (ipv4_addr 192 0 2 0, 24);
    (ipv4_addr 198 51 100 0, 24);
    (ipv4_addr 203 0 113 0, 24) ].

Definition in_blocked_range (x : Z) : bool :=
  existsb (fun r => in_cidr (fst r) (snd r) x) blocked_cidrs
  || (ipv4_addr 224 0 0 0 <=? x).

(** A dotted quad: four groups of one to three decimal digits joined by
    dots, the strings the pattern of [isPrivateIP] accepts. *)

Fixpoint all_digits (s : string) : bool :=
  match s with
  | EmptyString => true
  | String c s' => is_digit c && all_digits s'
  end.

Definition octet_text (s : string) : bool :=
  all_digits s && (1 <=? String.length s)%nat && (String.length s <=? 3)%nat.

Definition dotted (a b c d : string) : string :=
  a ++ "." ++ b ++ "." ++ c ++ "." ++ d.

Definition dotted_quad (ip : string) : Prop :=
  exists sa sb sc sd,
    octet_text sa = true /\ octet_text sb = true /\
    octet_text sc = true /\ octet_text sd = true /\
    ip = dotted sa sb sc sd.

(** The IPv6 special forms, compared on the lower-cased text. *)
Definition ipv6_form (ip : string) : Prop :=
  let l := toLowerCase ip in
  l = "::1" \/ l = "::"
  \/ startsWith l "::ffff:" = true \/ startsWith l "fe80:" = true
  \/ startsWith l "fc" = true \/ startsWith l "fd" = true
  \/ startsWith l "ff" = true.

(** The rest of the input after a group does not continue with a digit. *)
Definition stops_digits (r : string) : Prop :=
  match r with
  | EmptyString => True
  | String c _ => is_digit c = false
  end.

(** Four numbers that are octets. *)
Definition octets (a b c d : Z) : Prop :=
  0 <= a <= 255 /\ 0 <= b <= 255 /\ 0 <= c <= 255 /\ 0 <= d <= 255.

End HostPolicy.

(** ** Errors, results and the platform

    A JavaScript exception carries a [name] and a [message]; every
    function that can throw returns a [result]. *)

Record JsError := mkError { ename : string; emessage : string }.

Definition Error (msg : string) : JsError := mkError "Error" msg.
Definition TypeError (msg : string) : JsError := mkError "TypeError" msg.
Definition AbortError : JsError := mkError "AbortError" "This operation was aborted".

Inductive result (A : Type) : Type :=
| Ok (a : A)
| Throw (e : JsError).
Arguments Ok {A} a.
Arguments Throw {A} e.

(** The fields of a parsed [URL] object that the service reads. *)
Record URL := mkURL {
  href : string;
  protocol : string;
  hostname : string;
  origin : string;
  pathname : string
}.

Module Http.

(** A [Uint8Array]: its length and its bytes by index. *)
Record Uint8Array := mkBytes {
  byteLength : N;
  byteAt : N -> ascii
}.

(** What a [fetch] resolves to: status line, the three headers the service
    (or a redirect-following transport) looks at, and the body as the
    sequence of chunks its reader yields ([None]: no body). *)
Record Response := mkResponse {
  status : Z;
  content_type : option string;
  content_length : option string;
  location : option string;
  body : option (list Uint8Array)
}.

(** The answer of the network to one GET: how long the response headers
    take to arrive, and the response or the network error. *)
Record Exchange := mkExchange {
  latency_ms : Z;
  answer : result Response
}.

End Http.
Export Http (Uint8Array, Response, Exchange).

(** Everything outside the service: the URL parser of the runtime, the
    resolver, the network, the HTML library and the language model.
    [Profile] is the parsed JSON object of an analysis. *)
Record Platform (Profile : Type) := mkPlatform {
  (** [new URL(s)]; [None] when it throws *)
  URL_parse : string -> option URL;
  (** [new URL(href, base)] *)
  URL_resolve : string -> string -> option URL;
  (** [dns.resolve4(host)]; [None] when the promise rejects *)
  dns_resolve4 : string -> option (list string);
  dns_resolve6 : string -> option (list string);
  (** one GET, redirects not followed *)
  http_get : string -> Exchange;
  (** [new TextDecoder('utf-8').decode(bytes)] *)
  utf8_decode : list Uint8Array -> string;
  (** the [href] attributes of [$('a[href]')], in document order *)
  cheerio_hrefs : string -> list string;
  (** the sectioned text [fullContent] built from the parsed page *)
  cheerio_fullContent : string -> string;
  (** [analyzeWithOpenAI(content, apiKey)] *)
  analyzeWithOpenAI : string -> string -> result Profile;
  (** [mergeAnalysisData(existingData, newContent, apiKey)] *)
  mergeAnalysisData : Profile -> string -> string -> result Profile;
  JSON_stringify : Profile -> string;
  (** [JSON.parse(s)]; [None] when it throws *)
  JSON_parse : string -> option Profile;
  (** [storage.createAnalyzedPage({businessAccountId, pageUrl})]: the
      error with which the store rejects the insert of this row, if it
      does; the other statements of the store are taken to succeed *)
  page_insert_error : string -> string -> option JsError
}.

Arguments URL_parse {Profile} _ _.
Arguments URL_resolve {Profile} _ _ _.
Arguments dns_resolve4 {Profile} _ _.
Arguments dns_resolve6 {Profile} _ _.
Arguments http_get {Profile} _ _.
Arguments utf8_decode {Profile} _ _.
Arguments cheerio_hrefs {Profile} _ _.
Arguments cheerio_fullContent {Profile} _ _.
Arguments analyzeWithOpenAI {Profile} _ _ _.
Arguments mergeAnalysisData {Profile} _ _ _ _.
Arguments JSON_stringify {Profile} _ _.
Arguments JSON_parse {Profile} _ _.
Arguments page_insert_error {Profile} _ _ _.

(** ** A URL parser for the examples

    The general results below hold for whatever [URL_parse] and
    [URL_resolve] the runtime provides.  The worked examples need one
    parser to run; this one follows the URL Standard on a fragment of its
    inputs: [http] and [https] URLs whose host is a plain DNS name (letters,
    digits, [-], [.] and [_], not ending in a number), with an optional
    port, a path, query and fragment of unreserved and sub-delimiter
    characters; and, for links, URLs of a non-special scheme such as
    [mailto:].  On a host with a forbidden code point (a space, say), on a
    missing scheme and on an empty host it fails as the Standard does; other
    inputs outside the fragment are also answered [None] and are not used
    below. *)

Module WhatwgLite.
Import JS.

Definition is_alpha (c : ascii) : bool :=
  let n := nat_of_ascii c in
  ((65 <=? n)%nat && (n <=? 90)%nat) || ((97 <=? n)%nat && (n <=? 122)%nat).

Definition is_alnum (c : ascii) : bool := is_alpha c || is_digit c.

Definition one_of (set : string) (c : ascii) : bool :=
  existsb (Ascii.eqb c) (list_ascii_of_string set).

Definition scheme_char (c : ascii) : bool := is_alnum c || one_of "+-." c.
Definition host_char (c : ascii) : bool := is_alnum c || one_of "-._" c.
Definition url_char (c : ascii) : bool := is_alnum c || one_of "-._~!$&'()*+,;=:@/%" c.

Fixpoint all_chars (p : ascii -> bool) (s : string) : bool :=
  match s with
  | EmptyString => true
  | String c s' => p c && all_chars p s'
  end.

(** The longest prefix outside [stop], and what follows it. *)
Fixpoint break (stop : ascii -> bool) (s : string) : string * string :=
  match s with
  | EmptyString => (EmptyString, EmptyString)
  | String c s' =>
      if stop c then (EmptyString, s)
      else let '(a, b) := break stop s' in (String c a, b)
  end.

Fixpoint drop_while (p : ascii -> bool) (s : string) : string :=
  match s with
  | String c s' => if p c then drop_while p s' else s
  | EmptyString => EmptyString
  end.

Fixpoint remove_chars (p : ascii -> bool) (s : string) : string :=
  match s with
  | EmptyString => EmptyString
  | String c s' => if p c then remove_chars p s' else String c (remove_chars p s')
  end.

Definition c0_or_space (c : ascii) : bool := (nat_of_ascii c <=? 32)%nat.
Definition tab_or_newline (c : ascii) : bool :=
  let n := nat_of_ascii c in (n =? 9)%nat || (n =? 10)%nat || (n =? 13)%nat.

Fixpoint strip_trailing (p : ascii -> bool) (s : string) : string :=
  match s with
  | EmptyString => EmptyString
  | String c s' =>
      match strip_trailing p s' with
      | EmptyString => if p c then EmptyString else String c EmptyString
      | t => String c t
      end
  end.

(** Leading and trailing C0 controls and spaces are dropped, then every
    tab and newline. *)
Definition preprocess (s : string) : string :=
  remove_chars tab_or_newline
    (strip_trailing c0_or_space (drop_while c0_or_space s)).

(** [scheme ":" rest], the scheme lower-cased. *)
Definition parse_scheme (s : string) : option (string * string) :=
  match s with
  | String c _ =>
      if is_alpha c then
        match break (fun c => negb (scheme_char c)) s with
        | (scheme, String ":" rest) => Some (toLowerCase scheme, rest)
        | _ => None
        end
      else None
  | EmptyString => None
  end.

Record Parts := mkParts {
  scheme : string;
  host : string;
  port : option string;
  segments : list string;
  query : option string;
  fragment : option string
}.

Definition is_slash (c : ascii) : bool := one_of "/\" c.

Fixpoint join_path (segs : list string) : string :=
  match segs with
  | [] => EmptyString
  | seg :: rest => "/" ++ seg ++ join_path rest
  end.

(** Dot segments: [stack] holds the path so far, last segment first. *)
Fixpoint shorten (stack : list string) (segs : list string) : list string :=
  match segs with
  | [] => List.rev stack
  | seg :: rest =>
      let is_last := match rest with [] => true | _ => false end in
      if String.eqb seg ".." then
        shorten (if is_last then EmptyString :: tl stack else tl stack) rest
      else if String.eqb seg "." then
        shorten (if is_last then EmptyString :: stack else stack) rest
      else shorten (seg :: stack) rest
  end.

Fixpoint backslash_to_slash (s : string) : string :=
  match s with
  | EmptyString => EmptyString
  | String c s' =>
      String (if Ascii.eqb c "\" then "/"%char else c) (backslash_to_slash s')
  end.

(** The tail of a URL: path, [?query], [#fragment]; the path is given
    relative to the segments [dir]. *)
Definition parse_tail (dir : list string) (tail : string)
  : option (list string * option string * option string) :=
  let '(p, after_path) := break (one_of "?#") tail in
  let '(q, after_query) :=
    match after_path with
    | String "?" r => let '(q, r') := break (one_of "#") r in (Some q, r')
    | _ => (None, after_path)
    end in
  let f :=
    match after_query with
    | String "#" r => Some r
    | _ => None
    end in
  if all_chars url_char (backslash_to_slash p)
     && all_chars url_char (default EmptyString q)
     && all_chars url_char (default EmptyString f)
  then
    let segs :=
      match backslash_to_slash p with
      | String "/" p' => shorten [] (split p' "/")
      | EmptyString => dir
      | p' => shorten (List.rev (removelast dir)) (split p' "/")
      end in
    Some (match segs with [] => [EmptyString] | _ => segs end, q, f)
  else None.

Definition default_port (scheme : string) : string :=
  if String.eqb scheme "http" then "80" else "443".

Fixpoint drop_zeros (s : string) : string :=
  match s with
  | String c s' =>
      if Ascii.eqb c "0" && negb (String.eqb s' EmptyString) then drop_zeros s' else s
  | EmptyString => EmptyString
  end.

Definition parse_port (scheme port_text : string) : option (option string) :=
  if String.eqb port_text EmptyString then Some None
  else if HostPolicy.all_digits port_text && (Number port_text <=? 65535)
  then let p := drop_zeros port_text in
       Some (if String.eqb p (default_port scheme) then None else Some p)
  else None.

(** The last label of the host is a number: the Standard then reads the
    host as an IPv4 address, which is outside this fragment. *)
Definition ends_in_number (host : string) : bool :=
  match last (filter (fun l => l <> EmptyString) (split host ".")) with
  | Some label =>
      HostPolicy.all_digits label
      || startsWith (toLowerCase label) "0x"
  | None => false
  end.

Definition parse_host (text : string) : option string :=
  if String.eqb text EmptyString then None
  else if all_chars host_char text && negb (ends_in_number text)
  then Some (toLowerCase text)
  else None.

(** After [http:] or [https:]: slashes, authority, tail. *)
Definition parse_special (scheme rest : string) : option Parts :=
  let rest := drop_while is_slash rest in
  let '(authority, tail) := break (one_of "/\?#") rest in
  let '(host_text, port_part) := break (one_of ":") authority in
  let port_text := match port_part with String _ p => p | EmptyString => EmptyString end in
  match parse_host host_text, parse_port scheme port_text, parse_tail [] tail with
  | Some h, Some p, Some (segs, q, f) => Some (mkParts scheme h p segs q f)
  | _, _, _ => None
  end.

Definition is_special (scheme : string) : bool :=
  String.eqb scheme "http" || String.eqb scheme "https".

Definition unsupported_scheme (scheme : string) : bool :=
  existsb (String.eqb scheme) ["ftp"; "file"; "ws"; "wss"].

Definition with_prefix (mark : string) (x : option string) : string :=
  match x with
  | Some t => mark ++ t
  | None => EmptyString
  end.

Definition serialize_origin (u : Parts) : string :=
  scheme u ++ "://" ++ host u ++ with_prefix ":" (port u).

Definition to_URL (u : Parts) : URL :=
  let path := join_path (segments u) in
  mkURL (serialize_origin u ++ path ++ with_prefix "?" (query u) ++ with_prefix "#" (fragment u))
        (scheme u ++ ":")
        (host u)
        (serialize_origin u)
        path.

(** A URL of a non-special scheme: opaque origin, no host. *)
Definition opaque_URL (scheme rest : string) : option URL :=
  let '(p, _) := break (one_of "?#") rest in
  if all_chars url_char (remove_chars (one_of "?#") rest)
     && negb (startsWith rest "/")
  then Some (mkURL (scheme ++ ":" ++ rest) (scheme ++ ":") EmptyString "null" p)
  else None.

Definition parse_absolute (input : string) : option (Parts + URL) :=
  match parse_scheme input with
  | Some (scheme, rest) =>
      if is_special scheme then inl <$> parse_special scheme rest
      else if unsupported_scheme scheme then None
      else inr <$> opaque_URL scheme rest
  | None => None
  end.

Definition as_URL (r : Parts + URL) : URL :=
  match r with
  | inl u => to_URL u
  | inr u => u
  end.

(** [new URL(input)] *)
Definition parse (input : string) : option URL :=
  as_URL <$> parse_absolute (preprocess input).

(** [new URL(input, base)] *)
Definition resolve (input base : string) : option URL :=
  let input := preprocess input in
  match parse_scheme input with
  | Some (scheme, rest) =>
      if is_special scheme then
        if startsWith rest "//" then to_URL <$> parse_special scheme rest else None
      else as_URL <$> parse_absolute input
  | None =>
      match parse_absolute (preprocess base) with
      | Some (inl b) =>
          match input with
          | EmptyString =>
              Some (to_URL (mkParts (scheme b) (host b) (port b) (segments b) (query b) None))
          | String c1 rest1 =>
              if is_slash c1 && match rest1 with String c2 _ => is_slash c2 | _ => false end
              then to_URL <$> parse_special (scheme b) rest1
              else if Ascii.eqb c1 "#" then
                if all_chars url_char rest1
                then Some (to_URL (mkParts (scheme b) (host b) (port b) (segments b)
                                     (query b) (Some rest1)))
                else None
              else
                match parse_tail (segments b) input with
                | Some (segs, q, f) =>
                    Some (to_URL (mkParts (scheme b) (host b) (port b) segs q f))
                | None => None
                end
          end
      | _ => None
      end
  end.

End WhatwgLite.

(** ** UrlGuard: [validateUrl] *)

Module UrlGuard.
Import JS HostPolicy.

Definition InvalidUrl : JsError := Error "Invalid URL format".
Definition DisallowedProtocol : JsError :=
  Error "Only HTTP and HTTPS protocols are allowed".
Definition BlockedLocalhost : JsError := Error "Access to localhost is not allowed".
Definition BlockedMetadata : JsError :=
  Error "Access to metadata endpoints is not allowed".
Definition BlockedPrivateIP : JsError :=
  Error "Access to private IP addresses is not allowed".
Definition UnresolvableHost : JsError := Error "Unable to resolve hostname".
Definition DnsRebindingBlocked : JsError :=
  Error "Domain resolves to a private IP address".
Definition ResolutionFailed : JsError :=
  Error "Unable to resolve hostname. Please check the URL.".

(** The three error names of the design document that map to the
    [BlockedHost] kind. *)
Definition BlockedHost (e : JsError) : Prop :=
  e = BlockedLocalhost \/ e = BlockedMetadata \/ e = BlockedPrivateIP.

(** [for (const addr of allAddresses) if (isPrivateIP(addr)) throw ...] *)
Fixpoint check_addresses (allAddresses : list string) : result unit :=
  match allAddresses with
  | [] => Ok tt
  | addr :: rest =>
      if isPrivateIP addr then Throw DnsRebindingBlocked
      else check_addresses rest
  end.

Definition or_empty (r : option (list string)) : list string :=
  match r with Some l => l | None => [] end.

(** The [try] block around the DNS lookups. *)
Definition resolve_and_check {Profile} (P : Platform Profile) (hostname : string)
  : result unit :=
  let addresses := or_empty (dns_resolve4 P hostname) in
  let addresses6 := or_empty (dns_resolve6 P hostname) in
  let allAddresses := (addresses ++ addresses6)%list in
  if (Z.of_nat (length allAddresses) =? 0) then Throw UnresolvableHost
  else check_addresses allAddresses.

(** Its [catch]: the guard's own errors are re-thrown, others replaced. *)
Definition dns_catch (error : JsError) : JsError :=
  if includes (emessage error) "not allowed"
     || includes (emessage error) "private IP"
     || includes (emessage error) "Unable to resolve"
  then error
  else ResolutionFailed.

Definition with_scheme (url : string) : string :=
  if negb (startsWith url "http://") && negb (startsWith url "https://")
  then "https://" ++ url
  else url.

Definition validateUrl {Profile} (P : Platform Profile) (url : string) : result URL :=
  let url := with_scheme url in
  match URL_parse P url with
  | None => Throw InvalidUrl
  | Some parsedUrl =>
      if negb (String.eqb (protocol parsedUrl) "http:")
         && negb (String.eqb (protocol parsedUrl) "https:")
      then Throw DisallowedProtocol
      else
        let hostname := toLowerCase (hostname parsedUrl) in
        if String.eqb hostname "localhost" then Throw BlockedLocalhost
        else if includes hostname "metadata" then Throw BlockedMetadata
        else if (isPrivateIP hostname || includes hostname ":")
                && isPrivateIP (stripBrackets hostname)
        then Throw BlockedPrivateIP
        else
          match resolve_and_check P hostname with
          | Throw error => Throw (dns_catch error)
          | Ok _ => Ok parsedUrl
          end
  end.

End UrlGuard.

(** ** BoundedFetcher: [fetchPageHtml] and [scrapeWebsite] *)

Module Fetcher.
Import JS Http UrlGuard.

Inductive RedirectMode := follow | manual.

Definition is_redirect (response : Response) : bool :=
  (300 <=? status response) && (status response <? 400).

(** [response.ok] *)
Definition ok (response : Response) : bool :=
  (200 <=? status response) && (status response <=? 299).

(** The transport in [redirect: 'follow'] mode: up to [hops] redirects
    are followed through the [Location] header. *)
Fixpoint follow_redirects {Profile} (P : Platform Profile) (hops : nat) (url : string)
  : result Response :=
  match answer (http_get P url) with
  | Throw e => Throw e
  | Ok response =>
      if is_redirect response then
        match location response, hops with
        | Some loc, S hops' =>
            match URL_resolve P loc url with
            | Some target => follow_redirects P hops' (href target)
            | None => Throw (TypeError "fetch failed")
            end
        | Some _, O => Throw (TypeError "fetch failed")
        | None, _ => Ok response
        end
      else Ok response
  end.

(** [fetch(url, { signal, redirect })] under a timer of [timeoutMs] that
    aborts the request; the timer is cleared once the response is there. *)
Definition fetch {Profile} (P : Platform Profile) (url : string)
    (redirect : RedirectMode) (timeoutMs : Z) : result Response :=
  if timeoutMs <=? latency_ms (http_get P url) then Throw AbortError
  else
    match redirect with
    | manual => answer (http_get P url)
    | follow => follow_redirects P 20 url
    end.

Definition truthy (s : option string) : bool :=
  match s with
  | Some (String _ _) => true
  | _ => false
  end.

(** [contentLength && parseInt(contentLength) > limit] *)
Definition declared_over (contentLength : option string) (limit : Z) : bool :=
  match contentLength with
  | Some (String c s) =>
      match parseInt (String c s) with
      | Some n => limit <? n
      | None => false
      end
  | _ => false
  end.

(** [response.text()] *)
Definition text {Profile} (P : Platform Profile) (response : Response) : string :=
  match body response with
  | Some chunks => utf8_decode P chunks
  | None => EmptyString
  end.

Definition RedirectsNotSupported : JsError := Error "Redirects not supported".
Definition ContentTooLarge : JsError := Error "Content too large".

Definition fetchPageHtml {Profile} (P : Platform Profile) (url : string) : result string :=
  match validateUrl P url with
  | Throw e => Throw e
  | Ok validatedUrl =>
      match fetch P (href validatedUrl) manual 10000 with
      | Throw e => Throw e
      | Ok response =>
          if is_redirect response then Throw RedirectsNotSupported
          else if negb (ok response)
          then Throw (Error ("HTTP " ++ toString (status response)))
          else if declared_over (content_length response) (5 * 1024 * 1024)
          then Throw ContentTooLarge
          else Ok (take 500000 (text P response))
      end
  end.

Definition MAX_SIZE : Z := 5 * 1024 * 1024.

Definition SizeLimitExceeded : JsError :=
  Error "Website content exceeded size limit during download".
Definition RedirectRejected : JsError :=
  Error "Website redirects are not supported. Please provide the final URL.".
Definition NotHtml : JsError := Error "Website did not return HTML content".
Definition DeclaredTooLarge : JsError := Error "Website content is too large".
Definition NoBody : JsError := Error "Response body is not available".
Definition TimedOut : JsError := Error "Website request timed out".
Definition Unreachable : JsError :=
  Error "Unable to access the website. Please check the URL and try again.".

(** The state of the read loop when it is left: the number of
    [reader.read()] calls that delivered a chunk, the chunks pushed so
    far, the running [totalSize], and the error thrown, if any. *)
Record ReadState := mkRead {
  reads : nat;
  chunks : list Uint8Array;
  totalSize : Z;
  thrown : option JsError
}.

(** [while (true) { const { done, value } = await reader.read(); ... }] *)
Fixpoint read_loop (stream : list Uint8Array) (st : ReadState) : ReadState :=
  match stream with
  | [] => st
  | value :: rest =>
      let totalSize' := totalSize st + Z.of_N (byteLength value) in
      if MAX_SIZE <? totalSize'
      then mkRead (S (reads st)) (chunks st) totalSize' (Some SizeLimitExceeded)
      else read_loop rest
             (mkRead (S (reads st)) (chunks st ++ [value])%list totalSize' None)
  end.

Definition read_all (stream : list Uint8Array) : ReadState :=
  read_loop stream (mkRead 0 [] 0 None).


(** The number of bytes a sequence of chunks carries. *)
Definition stream_bytes (stream : list Uint8Array) : Z :=
  fold_right (fun value n => Z.of_N (byteLength value) + n) 0 stream.

(** The outer [catch] of [scrapeWebsite]. *)
Definition scrape_catch (error : JsError) : JsError :=
  if String.eqb (ename error) "AbortError" then TimedOut
  else if includes (emessage error) "not allowed"
          || includes (emessage error) "Invalid URL"
  then error
  else Unreachable.

(** The body of the [try] of [scrapeWebsite], before its [catch]. *)
Definition scrape_attempt {Profile} (P : Platform Profile) (validatedUrl : URL)
  : result string :=
  match fetch P (href validatedUrl) manual 15000 with
  | Throw e => Throw e
  | Ok response =>
      if is_redirect response then Throw RedirectRejected
      else if negb (ok response)
      then Throw (Error ("Failed to fetch website: HTTP " ++ toString (status response)))
      else if negb (truthy (content_type response))
              || negb (includes (default EmptyString (content_type response)) "text/html")
      then Throw NotHtml
      else if declared_over (content_length response) MAX_SIZE
      then Throw DeclaredTooLarge
      else
        match body response with
        | None => Throw NoBody
        | Some stream =>
            let st := read_all stream in
            match thrown st with
            | Some e => Throw e
            | None =>
                let html := utf8_decode P (chunks st) in
                let fullContent := cheerio_fullContent P html in
                Ok (take 25000 (trim (collapse_spaces false fullContent)))
            end
        end
  end.

Definition scrapeWebsite {Profile} (P : Platform Profile) (url : string) : result string :=
  match validateUrl P url with
  | Throw e => Throw e
  | Ok validatedUrl =>
      match scrape_attempt P validatedUrl with
      | Ok cleanedContent => Ok cleanedContent
      | Throw error => Throw (scrape_catch error)
      end
  end.

End Fetcher.

(** ** PageDiscovery: [findImportantPages] *)

Module Discovery.
Import JS.

Definition pageKeywords : list string :=
  [ "about"; "about-us"; "who-we-are"; "our-story"; "company";
    "contact"; "contact-us"; "get-in-touch"; "reach-us";
    "faq"; "faqs"; "help"; "support";
    "services"; "what-we-do";
    "products"; "shop"; "store" ].

(** A [Set<string>] as the list of its members in insertion order. *)
Definition set_add (x : string) (s : list string) : list string :=
  if bool_decide (x ∈ s) then s else (s ++ [x])%list.

(** [Array.from(new Set(l))] *)
Definition set_from (l : list string) : list string := fold_left (fun s x => set_add x s) l [].

Definition hasKeyword (path : string) : bool :=
  existsb (fun keyword => includes path keyword) pageKeywords.

(** The callback of [$('a[href]').each]. *)
Definition visit_link {Profile} (P : Platform Profile) (baseUrl baseOrigin : string)
    (importantPages : list string) (href_attr : string) : list string :=
  if String.eqb href_attr "" then importantPages
  else
    match URL_resolve P href_attr baseUrl with
    | None => importantPages
    | Some resolved =>
        let absoluteUrl := href resolved in
        match URL_parse P absoluteUrl with
        | None => importantPages
        | Some parsedUrl =>
            if negb (String.eqb (origin parsedUrl) baseOrigin) then importantPages
            else
              let path := toLowerCase (pathname parsedUrl) in
              if hasKeyword path && (length importantPages <? 10)%nat
              then set_add absoluteUrl importantPages
              else importantPages
        end
    end.

Definition findImportantPages {Profile} (P : Platform Profile)
    (baseUrl homepageHtml : string) : result (list string) :=
  match URL_parse P baseUrl with
  | None => Throw (TypeError "Invalid URL")
  | Some parsedBase =>
      let baseOrigin := origin parsedBase in
      let importantPages :=
        fold_left (visit_link P baseUrl baseOrigin) (cheerio_hrefs P homepageHtml) [] in
      Ok (firstn 5 importantPages)
  end.

(** What holds of every URL the loop puts in the set: it is the
    resolution of an anchor of the page, it parses, its origin is the one
    of the base, and its lower-cased path contains a keyword. *)
Definition selected {Profile} (P : Platform Profile)
    (baseUrl baseOrigin homepageHtml u : string) : Prop :=
  (exists h resolved,
      h ∈ cheerio_hrefs P homepageHtml
      /\ URL_resolve P h baseUrl = Some resolved /\ href resolved = u)
  /\ exists parsedUrl,
      URL_parse P u = Some parsedUrl
      /\ origin parsedUrl = baseOrigin
      /\ exists keyword,
          keyword ∈ pageKeywords
          /\ includes (toLowerCase (pathname parsedUrl)) keyword = true.

End Discovery.

(** ** Storage: the two tables the service writes

    [website_analysis] has a unique row per business account and is a finite
    map; [analyzed_pages] has no uniqueness constraint and is the list of
    its rows in insertion order.  The database is taken to be available:
    every call returns.  [now] is a logical clock read by [new Date()] and
    advanced by every write. *)

Module Storage.

Inductive Status := pending | analyzing | completed | failed.

Record WebsiteAnalysis := mkAnalysis {
  websiteUrl : string;
  status : Status;
  analyzedContent : option string;
  errorMessage : option string;
  lastAnalyzedAt : option nat;
  updatedAt : nat
}.

Record AnalyzedPage := mkPage {
  businessAccountId : string;
  pageUrl : string;
  analyzedAt : nat
}.

Record Db := mkDb {
  website_analysis : gmap string WebsiteAnalysis;
  analyzed_pages : list AnalyzedPage;
  now : nat
}.

(** [Partial<InsertWebsiteAnalysis>] as the callers fill it. *)
Record AnalysisPatch := mkPatch {
  patch_websiteUrl : option string;
  patch_status : option Status;
  patch_analyzedContent : option string
}.

Definition getWebsiteAnalysis (id : string) (db : Db) : option WebsiteAnalysis :=
  website_analysis db !! id.

(** [x || d] on a nullable string. *)
Definition or_default (x : option string) (d : string) : string :=
  match x with
  | Some (String c s) => String c s
  | _ => d
  end.

(** [x || null] *)
Definition or_null (x : option string) : option string :=
  match x with
  | Some (String c s) => Some (String c s)
  | _ => None
  end.

Definition upsertWebsiteAnalysis (id : string) (analysisData : AnalysisPatch) (db : Db) : Db :=
  let row :=
    match getWebsiteAnalysis id db with
    | Some existing =>
        mkAnalysis
          (default (websiteUrl existing) (patch_websiteUrl analysisData))
          (default (status existing) (patch_status analysisData))
          (match patch_analyzedContent analysisData with
           | Some c => Some c
           | None => analyzedContent existing
           end)
          (errorMessage existing)
          (lastAnalyzedAt existing)
          (now db)
    | None =>
        mkAnalysis
          (or_default (patch_websiteUrl analysisData) "")
          (default pending (patch_status analysisData))
          (patch_analyzedContent analysisData)
          None None (now db)
    end in
  mkDb (<[id := row]> (website_analysis db)) (analyzed_pages db) (S (now db)).

(** An [UPDATE ... WHERE business_account_id = id]: no row, no effect. *)
Definition updateWebsiteAnalysisStatus (id : string) (st : Status)
    (message : option string) (db : Db) : Db :=
  let set (row : WebsiteAnalysis) :=
    mkAnalysis (websiteUrl row) st (analyzedContent row) (or_null message)
      (match st with completed => Some (now db) | _ => None end)
      (now db) in
  mkDb (alter set id (website_analysis db)) (analyzed_pages db) (S (now db)).

Definition createAnalyzedPage (id url : string) (db : Db) : Db :=
  mkDb (website_analysis db)
       (analyzed_pages db ++ [mkPage id url (now db)])%list
       (S (now db)).

(** The page URLs logged for one business account, oldest first. *)
Definition pages_of (id : string) (db : Db) : list string :=
  pageUrl <$> filter (fun row => businessAccountId row = id) (analyzed_pages db).

End Storage.

(** ** AnalysisOrchestrator: [analyzeWebsite] and [analyzeWebsitePages]

    An [async] method of the service is a computation over the database
    that ends normally or by throwing. *)

Module Orchestrator.
Import JS Storage.

Definition M (A : Type) : Type := Db -> Db * result A.

Definition ret {A} (a : A) : M A := fun db => (db, Ok a).

Definition throw {A} (e : JsError) : M A := fun db => (db, Throw e).

Definition bind {A B} (m : M A) (k : A -> M B) : M B :=
  fun db =>
    match m db with
    | (db', Ok a) => k a db'
    | (db', Throw e) => (db', Throw e)
    end.

(** [try { m } catch (error) { handler(error) }] *)
Definition try_catch {A} (m : M A) (handler : JsError -> M A) : M A :=
  fun db =>
    match m db with
    | (db', Ok a) => (db', Ok a)
    | (db', Throw e) => handler e db'
    end.

(** A call that does not touch the database. *)
Definition await {A} (r : result A) : M A := fun db => (db, r).

(** A storage write. *)
Definition write (f : Db -> Db) : M unit := fun db => (f db, Ok tt).

(** A storage read. *)
Definition read {A} (f : Db -> A) : M A := fun db => (db, Ok (f db)).

#[export] Instance M_ret : MRet M := @ret.
#[export] Instance M_bind : MBind M := fun A B k m => bind m k.

(** [for (const x of l) { await f(x) }] *)
Fixpoint for_each {A} (l : list A) (f : A -> M unit) : M unit :=
  match l with
  | [] => ret tt
  | x :: rest => f x ;; for_each rest f
  end.

(** [pathname.split('/').filter(p => p).pop() || 'page'] *)
Definition pageName (pathname : string) : string :=
  match last (filter (fun p => p <> EmptyString) (split pathname "/")) with
  | Some (String c p) => String c p
  | _ => "page"
  end.

(** [url.toLowerCase().replace(/\/$/, '')] *)
Definition normalize (url : string) : string := dropTrailingSlash (toLowerCase url).

(** [Array.from(new Set(urls.map(normalize)))] *)
Definition uniquePages (urls : list string) : list string :=
  Discovery.set_from (normalize <$> urls).

(** An element of [pageUrls] at run time.  The signature of
    [analyzeWebsitePages] says [string[]], but the HTTP layer hands over
    the array of the request body unchecked, so an element can be a value
    that is not a string (a nested array passes the checks of the route).
    Of such a value the run sees its text [String(v)] -- in [new URL(v)]
    and in a template string -- and the text the driver writes for it to a
    text column; a string method called on it is not a function. *)
Inductive PageItem :=
| Text (s : string)
| NonText (text column : string).
(* [NonText] stands for a value that is neither a string nor null: null
   does not pass [new URL] in the route, and a method call on it fails with
   another message. *)

(** [String(v)] *)
Definition as_text (item : PageItem) : string :=
  match item with
  | Text s => s
  | NonText text _ => text
  end.

(** What is written when the value is bound to a text column. *)
Definition as_column (item : PageItem) : string :=
  match item with
  | Text s => s
  | NonText _ column => column
  end.

(** [url.method(...)] on a value without that method. *)
Definition NotAFunction (method : string) : JsError :=
  TypeError ("url." ++ method ++ " is not a function").

(** [this.scrapeWebsite(pageUrl)]: the first thing [validateUrl] does with
    its argument is [url.startsWith('http://')]. *)
Definition scrape_item {Profile} (P : Platform Profile) (pageUrl : PageItem) : result string :=
  match pageUrl with
  | Text s => Fetcher.scrapeWebsite P s
  | NonText _ _ => Throw (NotAFunction "startsWith")
  end.

(** The strings of [pageUrls.map(url => url.toLowerCase()...)]: the
    callback throws on the first element that is not a string. *)
Fixpoint page_texts (pageUrls : list PageItem) : result (list string) :=
  match pageUrls with
  | [] => Ok []
  | Text s :: rest =>
      match page_texts rest with
      | Ok texts => Ok (s :: texts)
      | Throw e => Throw e
      end
  | NonText _ _ :: _ => Throw (NotAFunction "toLowerCase")
  end.

(** The body of the [for] loop of [analyzeWebsite] with its own
    [try]/[catch]: a page that cannot be scraped adds nothing. *)
Definition add_site_page {Profile} (P : Platform Profile)
    (combinedContent pageUrl : string) : string :=
  match Fetcher.scrapeWebsite P pageUrl with
  | Throw _ => combinedContent
  | Ok pageContent =>
      match URL_parse P pageUrl with
      | None => combinedContent
      | Some u =>
          combinedContent ++ LF ++ LF ++ toUpperCase (pageName (pathname u))
            ++ " PAGE CONTENT:" ++ LF ++ pageContent ++ LF
      end
  end.

(** What [catch (error)] of either entry point does. *)
Definition record_failure {A} (id : string) (error : JsError) : M A :=
  write (updateWebsiteAnalysisStatus id failed (Some (emessage error))) ;;
  throw error.

(** [await storage.createAnalyzedPage({businessAccountId, pageUrl})] *)
Definition insert_page {Profile} (P : Platform Profile) (id pageUrl : string) : M unit :=
  match page_insert_error P id pageUrl with
  | Some e => throw e
  | None => write (createAnalyzedPage id pageUrl)
  end.

(** Step 5 from [uniquePages] on: every insert in a [try]/[catch] of its
    own. *)
Definition save_pages {Profile} (P : Platform Profile) (id : string) (urls : list string)
  : M unit :=
  for_each (uniquePages urls)
    (fun pageUrl => try_catch (insert_page P id pageUrl) (fun _ => ret tt)).

Definition analyzeWebsite {Profile} (P : Platform Profile)
    (websiteUrl businessAccountId openaiApiKey : string) : M unit :=
  try_catch
    (write (updateWebsiteAnalysisStatus businessAccountId analyzing None) ;;
     homepageContent ← await (Fetcher.scrapeWebsite P websiteUrl);
     homepageHtml ← await (Fetcher.fetchPageHtml P websiteUrl);
     additionalPages ← await (Discovery.findImportantPages P websiteUrl homepageHtml);
     let combinedContent :=
       fold_left (add_site_page P) additionalPages
         ("HOMEPAGE CONTENT:" ++ LF ++ homepageContent ++ LF ++ LF) in
     analyzedContent ← await (analyzeWithOpenAI P combinedContent openaiApiKey);
     write (upsertWebsiteAnalysis businessAccountId
              (mkPatch (Some websiteUrl) (Some completed)
                       (Some (JSON_stringify P analyzedContent)))) ;;
     save_pages P businessAccountId (websiteUrl :: additionalPages) ;;
     write (updateWebsiteAnalysisStatus businessAccountId completed None))
    (record_failure businessAccountId).

(** The body of the [for] loop of [analyzeWebsitePages]. *)
Definition add_listed_page {Profile} (P : Platform Profile)
    (combinedContent : string) (pageUrl : PageItem) : string :=
  match scrape_item P pageUrl with
  | Throw _ => combinedContent
  | Ok pageContent =>
      match URL_parse P (as_text pageUrl) with
      | None => combinedContent
      | Some u =>
          combinedContent ++ toUpperCase (pageName (pathname u))
            ++ " PAGE (" ++ as_text pageUrl ++ "):" ++ LF ++ pageContent ++ LF ++ LF
      end
  end.

Definition ScrapeFailed : JsError := Error "Failed to scrape any pages".

(** Step 2 of [analyzeWebsitePages]: the stored profile, in append mode. *)
Definition existing_profile {Profile} (P : Platform Profile)
    (id : string) (appendMode : bool) (db : Db) : option Profile :=
  if appendMode then
    match getWebsiteAnalysis id db with
    | Some analysis =>
        match analyzedContent analysis with
        | Some (String c s) => JSON_parse P (String c s)
        | _ => None
        end
    | None => None
    end
  else None.

(** Step 3 of [analyzeWebsitePages]: merge into the stored profile, or
    analyze the new text alone. *)
Definition synthesize {Profile} (P : Platform Profile) (existingData : option Profile)
    (appendMode : bool) (combinedContent openaiApiKey : string) : result Profile :=
  match existingData with
  | Some existing =>
      if appendMode
      then mergeAnalysisData P existing combinedContent openaiApiKey
      else analyzeWithOpenAI P combinedContent openaiApiKey
  | None => analyzeWithOpenAI P combinedContent openaiApiKey
  end.

Definition analyzeWebsitePages {Profile} (P : Platform Profile)
    (pageUrls : list PageItem) (businessAccountId openaiApiKey : string)
    (appendMode : bool) : M unit :=
  try_catch
    (write (updateWebsiteAnalysisStatus businessAccountId analyzing None) ;;
     let combinedContent := fold_left (add_listed_page P) pageUrls EmptyString in
     (if String.eqb (trim combinedContent) EmptyString
      then throw ScrapeFailed else ret tt) ;;
     existingData ← read (existing_profile P businessAccountId appendMode);
     analyzedContent ←
       await (synthesize P existingData appendMode combinedContent openaiApiKey);
     write (upsertWebsiteAnalysis businessAccountId
              (mkPatch (as_column <$> head pageUrls) (Some completed)
                       (Some (JSON_stringify P analyzedContent)))) ;;
     texts ← await (page_texts pageUrls);
     save_pages P businessAccountId texts ;;
     write (updateWebsiteAnalysisStatus businessAccountId completed None))
    (record_failure businessAccountId).

(** Unfolds the plumbing of [M]. *)
Ltac run :=
  unfold try_catch, record_failure, mbind, M_bind, bind, await, write, read, ret, throw.

(** A computation under which the row of the account, if there, stays. *)
Definition keeps_row {A} (id : string) (m : M A) : Prop :=
  forall db, is_Some (getWebsiteAnalysis id db) ->
             is_Some (getWebsiteAnalysis id (fst (m db))).

(** A computation that, when it ends normally, leaves the row completed. *)
Definition ends_completed {A} (id : string) (m : M A) : Prop :=
  forall db, (exists a, snd (m db) = Ok a) ->
             exists row, getWebsiteAnalysis id (fst (m db)) = Some row
                         /\ status row = completed.

(** How a run may leave the row of the account: completed after a normal
    end; failed, with the message of the error, after a throw; never
    analyzing; and a row that was there is still there. *)
Definition settled (id : string) (before : Db) (out : Db * result unit) : Prop :=
  match snd out with
  | Ok _ =>
      exists row, getWebsiteAnalysis id (fst out) = Some row /\ status row = completed
  | Throw e =>
      forall row, getWebsiteAnalysis id (fst out) = Some row ->
        status row = failed /\ errorMessage row = or_null (Some (emessage e))
  end
  /\ (forall row, getWebsiteAnalysis id (fst out) = Some row -> status row <> analyzing)
  /\ (is_Some (getWebsiteAnalysis id before) -> is_Some (getWebsiteAnalysis id (fst out))).

End Orchestrator.

(** ** Worlds for the worked examples

    A world is a DNS table and a table of exchanges by URL, on top of the
    example URL parser.  Pages are ASCII; anchors are written
    [<a href='...'>]; the text handed to the model is the page itself; a
    profile is its JSON text. *)

Module Worlds.
Import JS Http.

Fixpoint assoc {A} (table : list (string * A)) (key : string) : option A :=
  match table with
  | [] => None
  | (k, v) :: rest => if String.eqb k key then Some v else assoc rest key
  end.

Definition bytes_of (s : string) : Uint8Array :=
  mkBytes (N.of_nat (String.length s))
          (fun i => default "000"%char (String.get (N.to_nat i) s)).

(** [n] bytes, all the letter a. *)
Definition filler (n : N) : Uint8Array := mkBytes n (fun _ => "a"%char).

Definition string_of_bytes (a : Uint8Array) : string :=
  string_of_list_ascii
    ((fun i => byteAt a (N.of_nat i)) <$> seq 0 (N.to_nat (byteLength a))).

Definition ascii_decode (chunks : list Uint8Array) : string :=
  String.concat EmptyString (string_of_bytes <$> chunks).

Fixpoint scan_hrefs (html : string) : list string :=
  match html with
  | EmptyString => []
  | String _ rest =>
      let here :=
        if startsWith html "<a href='"
        then [fst (WhatwgLite.break (WhatwgLite.one_of "'") (String.substring 9 (String.length html) html))]
        else [] in
      (here ++ scan_hrefs rest)%list
  end.

Definition html_page (html : string) : Response :=
  mkResponse 200 (Some "text/html; charset=utf-8") None None (Some [bytes_of html]).

Definition no_route : Exchange := mkExchange 0 (Throw (TypeError "fetch failed")).

Definition world (dns4 dns6 : string -> option (list string))
    (net : string -> Exchange) : Platform string :=
  mkPlatform string
    WhatwgLite.parse WhatwgLite.resolve
    dns4 dns6 net
    ascii_decode scan_hrefs (fun html => html)
    (fun content _ => Ok ("profile of " ++ content))
    (fun existing content _ => Ok (existing ++ " merged with " ++ content))
    (fun profile => profile)
    Some
    (fun _ _ => None).

Definition table_world (dns4 : list (string * list string))
    (net : list (string * Exchange)) : Platform string :=
  world (assoc dns4) (fun _ => None)
        (fun url => default no_route (assoc net url)).

(** A public name that resolves to the loop-back address. *)
Definition rebinding_world : Platform string :=
  table_world
    [("fd.io", ["127.0.0.1"]);
     ("localhost", ["127.0.0.1"]);
     ("rebind.example", ["93.184.216.34"; "127.0.0.1"])] [].



(** A home page with links to other sites, links without a keyword and
    seven same-site links with one, one of them twice. *)
Definition busy_home : string :=
  "<a href='https://ads.example/about'>ad</a>"
  ++ "<a href='/about'>About</a>"
  ++ "<a href='http://shop.example/contact'>other scheme</a>"
  ++ "<a href='/blog/post-1'>Blog</a>"
  ++ "<a href='/Contact-Us'>Contact</a>"
  ++ "<a href='mailto:help@shop.example'>Mail</a>"
  ++ "<a href='/about'>About again</a>"
  ++ "<a href='faq'>FAQ</a>"
  ++ "<a href='/help/'>Help</a>"
  ++ "<a href='//cdn.example/store'>CDN</a>"
  ++ "<a href='/services'>Services</a>"
  ++ "<a href='/products'>Products</a>"
  ++ "<a href='/store'>Store</a>".

(** A shop whose home page answers, whose About page is too slow and whose
    Contact page is gone. *)
Definition shop_home : string :=
  "<a href='/about'>About</a> <a href='/contact'>Contact</a>".

Definition shop_world : Platform string :=
  table_world [("shop.example", ["93.184.216.34"])]
    [("https://shop.example/", mkExchange 150 (Ok (html_page shop_home)));
     ("https://shop.example/about", mkExchange 20000 (Ok (html_page "About us")));
     ("https://shop.example/contact",
      mkExchange 90 (Ok (mkResponse 404 (Some "text/html") None None (Some []))))].

Definition empty_db : Storage.Db := Storage.mkDb ∅ [] 0.

(** The database after the HTTP layer has saved the initial record. *)
Definition pending_db (id url : string) : Storage.Db :=
  Storage.upsertWebsiteAnalysis id
    (Storage.mkPatch (Some url) (Some Storage.pending) None) empty_db.

(** A page that has moved: 301 to a page that answers 200. *)
Definition moved_world : Platform string :=
  table_world [("old.example", ["93.184.216.34"]); ("new.example", ["93.184.216.34"])]
    [("https://old.example/",
      mkExchange 80
        (Ok (mkResponse 301 (Some "text/html") None (Some "https://new.example/") (Some []))));
     ("https://new.example/", mkExchange 80 (Ok (html_page "<html>moved here</html>")))].

End Worlds.

(** ** The rest of the storage methods on the two tables *)

Module StorageMore.
Import Storage.

Definition deleteWebsiteAnalysis (id : string) (db : Db) : Db :=
  mkDb (delete id (website_analysis db)) (analyzed_pages db) (S (now db)).

Definition deleteAnalyzedPages (id : string) (db : Db) : Db :=
  mkDb (website_analysis db)
       (filter (fun row => businessAccountId row <> id) (analyzed_pages db))
       (S (now db)).

(** [desc(analyzedPages.analyzedAt)]: [a] may come before [b]. *)
Definition newer (a b : AnalyzedPage) : Prop := (analyzedAt b <= analyzedAt a)%nat.

#[export] Instance newer_dec : RelDecision newer :=
  fun a b => decide (analyzedAt b <= analyzedAt a)%nat.

(** [SELECT ... WHERE business_account_id = id ORDER BY analyzed_at DESC] *)
Definition getAnalyzedPages (id : string) (db : Db) : list AnalyzedPage :=
  merge_sort newer (filter (fun row => businessAccountId row = id) (analyzed_pages db)).

End StorageMore.

(** ** The reader of the service: [getAnalyzedContent] *)

Module Service.
Import Storage.

(** What [JSON.parse] throws; the text of its message is the engine's. *)
Definition SyntaxError : JsError := mkError "SyntaxError" "Unexpected token in JSON".

Definition getAnalyzedContent {Profile} (P : Platform Profile) (id : string) (db : Db)
  : result (option Profile) :=
  match getWebsiteAnalysis id db with
  | None => Ok None
  | Some analysis =>
      match analyzedContent analysis with
      | Some (String c s) =>
          match JSON_parse P (String c s) with
          | Some profile => Ok (Some profile)
          | None => Throw SyntaxError
          end
      | _ => Ok None
      end
  end.

End Service.

(** ** The HTTP layer over the service: the website-analysis routes

    A field of the request body is absent (or null), a string, an array
    of values, strings or not, or any other value, of which only a numeric
    [length] property matters.  The session gives the business
    account; [keys] gives the OpenAI key stored for an account.  The run
    that the POST route starts is not awaited by the route; the data base
    the model returns is the one after that run has ended. *)

Module Routes.
Import JS Storage StorageMore Orchestrator.

Inductive BodyValue :=
| Absent
| Str (s : string)
| Arr (items : list PageItem)
| Obj (length_field : option Z).

Record AnalysisRequest := mkRequest {
  session_account : option string;
  websiteUrl_field : BodyValue;
  additionalPages_field : BodyValue;
  analyzeOnlyAdditional : bool
}.

Inductive Reply :=
| BadRequest (error : string)
| Pending (message : string).

(** What the route passes to [analyzeWebsitePages]. *)
Record Plan := mkPlan {
  plan_account : string;
  plan_websiteUrl : string;
  plan_pages : list PageItem;
  plan_key : string;
  plan_append : bool
}.

(** [additionalPages?.length > 0] *)
Definition has_length (v : BodyValue) : bool :=
  match v with
  | Absent => false
  | Str s => (0 <? Z.of_nat (String.length s))
  | Arr items => (0 <? Z.of_nat (length items))
  | Obj (Some n) => 0 <? n
  | Obj None => false
  end.

Inductive DomainCheck := SameDomain | OtherDomain | InvalidUrlFormat.

(** [for (const page of pagesToAnalyze) { new URL(page) ... }] *)
Fixpoint check_pages {Profile} (P : Platform Profile) (baseHost : string)
    (pages : list PageItem) : DomainCheck :=
  match pages with
  | [] => SameDomain
  | page :: rest =>
      match URL_parse P (as_text page) with
      | None => InvalidUrlFormat
      | Some pageUrl =>
          if negb (String.eqb (hostname pageUrl) baseHost) then OtherDomain
          else check_pages P baseHost rest
      end
  end.

Definition check_domain {Profile} (P : Platform Profile) (websiteUrl : string)
    (pages : list PageItem) : DomainCheck :=
  match URL_parse P websiteUrl with
  | None => InvalidUrlFormat
  | Some baseUrl => check_pages P (hostname baseUrl) pages
  end.

Definition started_message (onlyAdditional : bool) (n : nat) : string :=
  if onlyAdditional then
    "Analyzing " ++ toString (Z.of_nat n) ++ " additional "
      ++ (if Nat.eqb n 1 then "page" else "pages")
      ++ ". Data will be merged with existing analysis..."
  else if (1 <? n)%nat then
    "Website analysis started for " ++ toString (Z.of_nat n)
      ++ " pages. This may take a few minutes..."
  else "Website analysis started. This may take a minute...".

(** The checks of the POST route, up to the point where it writes. *)
Definition plan_analysis {Profile} (P : Platform Profile) (keys : string -> option string)
    (req : AnalysisRequest) : Reply + Plan :=
  match or_null (session_account req) with
  | None => inl (BadRequest "Business account not found")
  | Some id =>
      match websiteUrl_field req with
      | Str (String c s) =>
          let websiteUrl := String c s in
          let pages : option (list PageItem) :=
            if analyzeOnlyAdditional req then
              match additionalPages_field req with
              | Arr (page :: rest) => Some (page :: rest)
              | _ => None
              end
            else
              match additionalPages_field req with
              | Arr items => Some (Text websiteUrl :: items)
              | _ => Some [Text websiteUrl]
              end in
          match pages with
          | None => inl (BadRequest "No additional pages provided")
          | Some pagesToAnalyze =>
              match check_domain P websiteUrl pagesToAnalyze with
              | OtherDomain =>
                  inl (BadRequest
                         "All pages must be from the same domain as the configured website")
              | InvalidUrlFormat => inl (BadRequest "Invalid URL format")
              | SameDomain =>
                  match or_null (keys id) with
                  | None =>
                      inl (BadRequest
                             "OpenAI API key not configured. Please set it in Settings first.")
                  | Some key =>
                      inr (mkPlan id websiteUrl pagesToAnalyze key
                             (analyzeOnlyAdditional req
                              || has_length (additionalPages_field req)))
                  end
              end
          end
      | _ => inl (BadRequest "Website URL is required")
      end
  end.

(** [app.post("/api/website-analysis", ...)] *)
Definition post_website_analysis {Profile} (P : Platform Profile)
    (keys : string -> option string) (req : AnalysisRequest) : M Reply :=
  match plan_analysis P keys req with
  | inl reply => ret reply
  | inr plan =>
      write (upsertWebsiteAnalysis (plan_account plan)
               (mkPatch (Some (plan_websiteUrl plan)) (Some pending) None)) ;;
      try_catch
        (analyzeWebsitePages P (plan_pages plan) (plan_account plan) (plan_key plan)
           (plan_append plan))
        (fun _ => ret tt) ;;
      ret (Pending (started_message (analyzeOnlyAdditional req) (length (plan_pages plan))))
  end.

(** [app.delete("/api/website-analysis", ...)] for a signed-in account. *)
Definition delete_website_analysis (id : string) : M unit :=
  write (deleteWebsiteAnalysis id) ;;
  write (deleteAnalyzedPages id).

(** The [status] that [app.get("/api/website-analysis", ...)] reports. *)
Inductive ReportedStatus := not_started | stored (st : Status).

Definition reported_status (id : string) (db : Db) : ReportedStatus :=
  match getWebsiteAnalysis id db with
  | None => not_started
  | Some analysis => stored (status analysis)
  end.

End Routes.

(** ** Properties stated on the definitions above *)

Module Shapes.
Import JS Storage Orchestrator Routes.

(** A text in which white space occurs only as single blanks;
    [after_blank] tells whether the character before was one (at the start:
    whether a blank is unwelcome there). *)
Fixpoint single_spaced (after_blank : bool) (s : string) : bool :=
  match s with
  | EmptyString => true
  | String c s' =>
      if is_space c
      then Ascii.eqb c " " && negb after_blank && single_spaced true s'
      else single_spaced false s'
  end.

(** The link [h] as the loop of [findImportantPages] would add it: its
    absolute form, when it resolves, is on the site and has a keyword. *)
Definition candidate {Profile} (P : Platform Profile) (baseUrl baseOrigin h : string)
  : option string :=
  if String.eqb h "" then None
  else
    match URL_resolve P h baseUrl with
    | None => None
    | Some resolved =>
        match URL_parse P (href resolved) with
        | None => None
        | Some parsedUrl =>
            if String.eqb (origin parsedUrl) baseOrigin
               && Discovery.hasKeyword (toLowerCase (pathname parsedUrl))
            then Some (href resolved)
            else None
        end
    end.

(** The qualifying links of a page, in document order. *)
Definition candidates {Profile} (P : Platform Profile) (baseUrl baseOrigin : string)
    (hrefs : list string) : list string :=
  omap (candidate P baseUrl baseOrigin) hrefs.

(** A computation that leaves the row and the page log of the account
    [other] as they were. *)
Definition leaves_alone {A} (other : string) (m : M A) : Prop :=
  forall db,
    getWebsiteAnalysis other (fst (m db)) = getWebsiteAnalysis other db
    /\ pages_of other (fst (m db)) = pages_of other db.

(** The errors [validateUrl] can end with. *)
Definition guard_errors : list JsError :=
  [ UrlGuard.InvalidUrl; UrlGuard.DisallowedProtocol; UrlGuard.BlockedLocalhost;
    UrlGuard.BlockedMetadata; UrlGuard.BlockedPrivateIP; UrlGuard.UnresolvableHost;
    UrlGuard.DnsRebindingBlocked ].

(** The addresses [validateUrl] looks up for a host. *)
Definition resolved {Profile} (P : Platform Profile) (host : string) : list string :=
  (UrlGuard.or_empty (dns_resolve4 P host) ++ UrlGuard.or_empty (dns_resolve6 P host))%list.

(** What a failed run leaves of the account: the row it found, if any,
    marked failed with the message of the error and no analysis date, its
    URL and its profile kept; and the page log as it was. *)
Definition marked_failed (id : string) (e : JsError) (before after : Db) : Prop :=
  getWebsiteAnalysis id after
  = (fun row => mkAnalysis (websiteUrl row) failed (analyzedContent row)
                  (or_null (Some (emessage e))) None (S (now before)))
    <$> getWebsiteAnalysis id before
  /\ analyzed_pages after = analyzed_pages before.

(** The row a run leaves when it ends normally, for an account whose row
    before the run was [old]: completed, no error message, analysed just
    now; the URL is the one the run was given, if it was given one. *)
Definition completed_row (old : option WebsiteAnalysis) (url : option string)
    (content : string) (t : nat) : WebsiteAnalysis :=
  mkAnalysis
    (match old with
     | Some row => default (websiteUrl row) url
     | None => or_default url ""
     end)
    completed (Some content) None (Some t) t.

(** The pages of a list that Step 5 gets into the log: the distinct
    normalized URLs whose insert the store does not reject. *)
Definition logged {Profile} (P : Platform Profile) (id : string) (urls : list string)
  : list string :=
  filter (fun pageUrl => page_insert_error P id pageUrl = None) (uniquePages urls).

(** What a run leaves that throws after Step 4 has saved the profile: the
    row holds the new profile and the URL of the run, and is marked failed
    with the message of the error; the page log is as it was. *)
Definition saved_then_failed (id : string) (e : JsError) (url : option string)
    (content : string) (before after : Db) : Prop :=
  getWebsiteAnalysis id after
  = Some (mkAnalysis
            (match getWebsiteAnalysis id before with
             | Some row => default (websiteUrl row) url
             | None => or_default url ""
             end)
            failed (Some content) (or_null (Some (emessage e))) None (S (S (now before))))
  /\ analyzed_pages after = analyzed_pages before.

(** The elements of a field of the request body, when it is an array. *)
Definition items_of (v : BodyValue) : list PageItem :=
  match v with
  | Arr items => items
  | _ => []
  end.

(** The text scraped by [analyzeWebsite] and by [analyzeWebsitePages]. *)
Definition site_text {Profile} (P : Platform Profile) (homepageContent : string)
    (additionalPages : list string) : string :=
  fold_left (add_site_page P) additionalPages
    ("HOMEPAGE CONTENT:" ++ LF ++ homepageContent ++ LF ++ LF).

Definition pages_text {Profile} (P : Platform Profile) (pageUrls : list PageItem) : string :=
  fold_left (add_listed_page P) pageUrls EmptyString.

End Shapes.

(** ** More worlds for the worked examples *)

Module MoreWorlds.
Import Http Worlds.

(** A page of exactly 5 MiB, in 80 chunks of 64 KiB. *)
Definition full_stream : list Uint8Array := repeat (filler 65536) 80.

Definition full_world : Platform string :=
  table_world [("full.example", ["93.184.216.34"])]
    [("https://full.example/",
      mkExchange 120
        (Ok (mkResponse 200 (Some "text/html") None None (Some full_stream))))].

(** The shop, with an account that has a key, and a foreign site. *)
Definition shop_keys (id : string) : option string :=
  if String.eqb id "acct-1" then Some "sk-test" else None.

(** Two accounts: the first about to be analysed, the second with a
    completed analysis and a logged page. *)
Definition two_accounts_db : Storage.Db :=
  Storage.upsertWebsiteAnalysis "acct-1"
    (Storage.mkPatch (Some "https://shop.example") (Some Storage.pending) None)
    (Storage.createAnalyzedPage "acct-2" "https://other.example"
       (Storage.upsertWebsiteAnalysis "acct-2"
          (Storage.mkPatch (Some "https://other.example") (Some Storage.completed)
             (Some "profile of the other site"))
          empty_db)).

(** The first account with a profile from an earlier run. *)
Definition analysed_db : Storage.Db :=
  Storage.updateWebsiteAnalysisStatus "acct-1" Storage.completed None
    (Storage.upsertWebsiteAnalysis "acct-1"
       (Storage.mkPatch (Some "https://shop.example") (Some Storage.completed)
          (Some "earlier profile"))
       empty_db).

(** The shop with a page of questions and answers. *)
Definition faq_world : Platform string :=
  table_world [("shop.example", ["93.184.216.34"])]
    [("https://shop.example/", mkExchange 150 (Ok (html_page shop_home)));
     ("https://shop.example/faq",
      mkExchange 120 (Ok (html_page "Questions and answers")))].

(** A request to analyse one more page of the shop. *)
Definition faq_request : Routes.AnalysisRequest :=
  Routes.mkRequest (Some "acct-1") (Routes.Str "https://shop.example")
    (Routes.Arr [Orchestrator.Text "https://shop.example/faq"]) true.

(** A world whose profiles are texts written between braces. *)
Fixpoint close_brace (p : string) : string :=
  match p with
  | EmptyString => "}"
  | String c rest => String c (close_brace rest)
  end.

Fixpoint open_brace (s : string) : option string :=
  match s with
  | EmptyString => None
  | String c EmptyString => if Ascii.eqb c "}" then Some EmptyString else None
  | String c rest => String c <$> open_brace rest
  end.

Definition with_braces (P : Platform string) : Platform string :=
  mkPlatform string
    (URL_parse P) (URL_resolve P) (dns_resolve4 P) (dns_resolve6 P) (http_get P)
    (utf8_decode P) (cheerio_hrefs P) (cheerio_fullContent P)
    (analyzeWithOpenAI P) (mergeAnalysisData P)
    (fun profile => String "{" (close_brace profile))
    (fun s => match s with
              | String c rest => if Ascii.eqb c "{" then open_brace rest else None
              | EmptyString => None
              end)
    (page_insert_error P).

Definition braces_world : Platform string := with_braces faq_world.

(** A name whose only address is in the link-local range fe80::/10. *)
Definition link_local_world : Platform string :=
  world (fun _ => None) (assoc [("printer.example", ["febf::1"])]) (fun _ => no_route).

(** A home page with a link to a mail address at another host. *)
Definition mail_home : string :=
  "<a href='/about'>About</a>"
  ++ "<a href='mailto:contact@other.example'>Mail</a>".

(** A request for a full analysis whose additional pages hold a nested
    array: [{"websiteUrl": "https://shop.example/", "additionalPages":
    [["https://shop.example/faq"]]}]. *)
Definition nested_request : Routes.AnalysisRequest :=
  Routes.mkRequest (Some "acct-1") (Routes.Str "https://shop.example/")
    (Routes.Arr [Orchestrator.NonText "https://shop.example/faq"
                   "{https://shop.example/faq}"]) false.

(** The shop when the store rejects the log row of one page. *)
Definition full_log_world : Platform string :=
  mkPlatform string
    (URL_parse shop_world) (URL_resolve shop_world) (dns_resolve4 shop_world)
    (dns_resolve6 shop_world) (http_get shop_world) (utf8_decode shop_world)
    (cheerio_hrefs shop_world) (cheerio_fullContent shop_world)
    (analyzeWithOpenAI shop_world) (mergeAnalysisData shop_world)
    (JSON_stringify shop_world) (JSON_parse shop_world)
    (fun _ pageUrl =>
       if String.eqb pageUrl "https://shop.example/about"
       then Some (Error "value too long") else None).

End MoreWorlds.

(** * Verified properties *)

(** ** HostPolicy *)

Module HostPolicyProps.
Import JS HostPolicy.

Lemma append_nil_l (r : string) : "" ++ r = r.
Proof. reflexivity. Qed.

Lemma append_cons c (s r : string) : String c s ++ r = String c (s ++ r).
Proof. reflexivity. Qed.

Lemma append_nil_r (s : string) : s ++ "" = s.
Proof. induction s as [|c s IH]; [reflexivity|]. now rewrite append_cons, IH. Qed.

Lemma take_digits_app n d r :
  all_digits d = true -> (String.length d <= n)%nat -> stops_digits r ->
  take_digits n (d ++ r) = (d, r).
Proof.
  revert n. induction d as [|c d IH]; intros n Hd Hn Hr.
  - rewrite append_nil_l. destruct n, r; simpl in *; try reflexivity. now rewrite Hr.
  - simpl in Hd. apply andb_prop in Hd as [Hc Hd].
    destruct n as [|n]; simpl in Hn; [lia|].
    rewrite append_cons. simpl. rewrite Hc, IH; auto with arith.
Qed.

Lemma take_digits_sound n s d r :
  take_digits n s = (d, r) ->
  s = d ++ r /\ all_digits d = true /\ (String.length d <= n)%nat.
Proof.
  revert s d r. induction n as [|n IH]; intros s d r H.
  - destruct s; inversion H; subst; simpl; auto.
  - destruct s as [|c s]; simpl in H.
    + inversion H; subst; simpl; auto with arith.
    + destruct (is_digit c) eqn:Hc.
      * destruct (take_digits n s) as [d' r'] eqn:Ht.
        inversion H; subst. destruct (IH _ _ _ Ht) as (-> & Hd & Hl).
        simpl. rewrite Hc, Hd. auto with arith.
      * inversion H; subst; simpl; auto with arith.
Qed.

Lemma octet_text_inv s :
  octet_text s = true ->
  all_digits s = true /\ (1 <= String.length s <= 3)%nat.
Proof.
  unfold octet_text. intros H.
  apply andb_prop in H as [H H3]. apply andb_prop in H as [H H1].
  apply Nat.leb_le in H1, H3. auto.
Qed.

Lemma octet_group_app d r :
  octet_text d = true -> stops_digits r -> octet_group (d ++ r) = Some (d, r).
Proof.
  intros Hd Hr. apply octet_text_inv in Hd as (Hd & H1 & H3).
  unfold octet_group. rewrite take_digits_app by assumption.
  destruct d; [simpl in H1; lia | reflexivity].
Qed.

Lemma octet_group_sound s d r :
  octet_group s = Some (d, r) -> s = d ++ r /\ octet_text d = true.
Proof.
  unfold octet_group. destruct (take_digits 3 s) as [d' r'] eqn:Ht.
  destruct (take_digits_sound _ _ _ _ Ht) as (Hs & Hd & Hl).
  destruct d' as [|c d']; [discriminate|].
  intros H; inversion H; subst. split; [reflexivity|].
  unfold octet_text. rewrite Hd.
  apply Nat.leb_le in Hl. rewrite Hl. reflexivity.
Qed.

Lemma literal_dot_sound s r : literal_dot s = Some r -> s = String "." r.
Proof.
  destruct s as [|c s]; [discriminate|]. simpl.
  destruct c as [[] [] [] [] [] [] [] []]; try discriminate.
  intros H; inversion H; reflexivity.
Qed.

Lemma literal_dot_app r : literal_dot ("." ++ r) = Some r.
Proof. reflexivity. Qed.

Lemma ipv4Match_dotted sa sb sc sd :
  octet_text sa = true -> octet_text sb = true ->
  octet_text sc = true -> octet_text sd = true ->
  ipv4Match (dotted sa sb sc sd) = Some (Number sa, Number sb, Number sc, Number sd).
Proof.
  intros Ha Hb Hc Hd. unfold ipv4Match, dotted.
  rewrite (octet_group_app sa), literal_dot_app by (auto; reflexivity).
  rewrite (octet_group_app sb), literal_dot_app by (auto; reflexivity).
  rewrite (octet_group_app sc), literal_dot_app by (auto; reflexivity).
  rewrite <- (append_nil_r sd) at 1.
  rewrite (octet_group_app sd) by (auto; exact I). reflexivity.
Qed.

(** Completeness of the matcher: whatever it accepts is a dotted quad. *)
Lemma ipv4Match_sound ip q : ipv4Match ip = Some q -> dotted_quad ip.
Proof.
  unfold ipv4Match.
  destruct (octet_group ip) as [[a r1]|] eqn:E1; [|discriminate].
  destruct (literal_dot r1) as [r1'|] eqn:D1; [|discriminate].
  destruct (octet_group r1') as [[b r2]|] eqn:E2; [|discriminate].
  destruct (literal_dot r2) as [r2'|] eqn:D2; [|discriminate].
  destruct (octet_group r2') as [[c r3]|] eqn:E3; [|discriminate].
  destruct (literal_dot r3) as [r3'|] eqn:D3; [|discriminate].
  destruct (octet_group r3') as [[d r4]|] eqn:E4; [|discriminate].
  destruct r4; [|discriminate]. intros _.
  apply octet_group_sound in E1 as [-> Ha], E2 as [-> Hb], E3 as [-> Hc], E4 as [-> Hd].
  apply literal_dot_sound in D1 as ->, D2 as ->, D3 as ->.
  exists a, b, c, d. repeat split; auto.
  unfold dotted. now rewrite append_nil_r.
Qed.

Lemma digit_val_range c : is_digit c = true -> 0 <= digit_val c <= 9.
Proof.
  unfold is_digit, digit_val. intros H. apply andb_prop in H as [H1 H2].
  apply Nat.leb_le in H1, H2. lia.
Qed.

Lemma Number_from_nonneg s acc :
  all_digits s = true -> 0 <= acc -> 0 <= Number_from acc s.
Proof.
  revert acc. induction s as [|c s IH]; intros acc Hs Hacc; simpl; [exact Hacc|].
  simpl in Hs. apply andb_prop in Hs as [Hc Hs].
  apply IH; [exact Hs|]. pose proof (digit_val_range c Hc). lia.
Qed.

Lemma Number_nonneg s : octet_text s = true -> 0 <= Number s.
Proof.
  intros H. apply octet_text_inv in H as [H _].
  apply Number_from_nonneg; [exact H | lia].
Qed.

Lemma digit_not_special c :
  is_digit c = true ->
  lower_char c = c /\ c <> ":"%char /\ c <> "f"%char.
Proof.
  destruct c as [[] [] [] [] [] [] [] []]; try discriminate;
    intros _; repeat split; discriminate.
Qed.

(** A string that begins with a digit is none of the IPv6 special forms. *)
Lemma ipv6_special_digit c s : is_digit c = true -> ipv6_special (String c s) = false.
Proof.
  intros Hc. destruct (digit_not_special c Hc) as (Hl & Hcolon & Hf).
  unfold ipv6_special, startsWith. cbn [toLowerCase]. rewrite Hl.
  cbn [String.eqb String.prefix].
  destruct (Ascii.eqb_spec c ":") as [->|_]; [congruence|].
  destruct (ascii_dec ":" c) as [<-|_]; [congruence|].
  destruct (ascii_dec "f" c) as [<-|_]; [congruence|].
  reflexivity.
Qed.

Lemma ipv6_special_dotted sa sb sc sd :
  octet_text sa = true -> ipv6_special (dotted sa sb sc sd) = false.
Proof.
  intros Ha. apply octet_text_inv in Ha as (Hd & H1 & _).
  destruct sa as [|c sa]; [simpl in H1; lia|].
  simpl in Hd. apply andb_prop in Hd as [Hc _].
  unfold dotted. rewrite append_cons. now apply ipv6_special_digit.
Qed.

Lemma addr_div24 a b c d : octets a b c d -> ipv4_addr a b c d / 2 ^ 24 = a.
Proof.
  intros (Ha & Hb & Hc & Hd). unfold ipv4_addr. symmetry.
  apply (Z.div_unique _ _ _ (b * 2 ^ 16 + c * 2 ^ 8 + d)); lia.
Qed.

Lemma addr_div16 a b c d : octets a b c d -> ipv4_addr a b c d / 2 ^ 16 = a * 256 + b.
Proof.
  intros (Ha & Hb & Hc & Hd). unfold ipv4_addr. symmetry.
  apply (Z.div_unique _ _ _ (c * 2 ^ 8 + d)); lia.
Qed.

Lemma addr_div8 a b c d :
  octets a b c d -> ipv4_addr a b c d / 2 ^ 8 = a * 65536 + b * 256 + c.
Proof.
  intros (Ha & Hb & Hc & Hd). unfold ipv4_addr. symmetry.
  apply (Z.div_unique _ _ _ d); lia.
Qed.

Lemma addr_div20 a b c d :
  octets a b c d -> ipv4_addr a b c d / 2 ^ 20 = a * 16 + b / 16.
Proof.
  intros (Ha & Hb & Hc & Hd). unfold ipv4_addr.
  pose proof (Z.div_mod b 16 ltac:(lia)) as Hb16.
  pose proof (Z.mod_pos_bound b 16 ltac:(lia)) as Hm.
  symmetry. apply (Z.div_unique _ _ _ ((b mod 16) * 2 ^ 16 + c * 2 ^ 8 + d)); lia.
Qed.

Lemma in_cidr_8 a0 a b c d :
  0 <= a0 <= 255 -> octets a b c d ->
  in_cidr (ipv4_addr a0 0 0 0) 8 (ipv4_addr a b c d) = (a =? a0).
Proof.
  intros H0 H. unfold in_cidr. rewrite !Z.shiftr_div_pow2 by lia.
  change (32 - 8) with 24.
  rewrite (addr_div24 a b c d H), (addr_div24 a0 0 0 0) by (unfold octets; lia).
  reflexivity.
Qed.

Lemma in_cidr_16 a0 b0 a b c d :
  0 <= a0 <= 255 -> 0 <= b0 <= 255 -> octets a b c d ->
  in_cidr (ipv4_addr a0 b0 0 0) 16 (ipv4_addr a b c d) = (a =? a0) && (b =? b0).
Proof.
  intros Ha0 Hb0 H. unfold in_cidr. rewrite !Z.shiftr_div_pow2 by lia.
  change (32 - 16) with 16.
  rewrite (addr_div16 a b c d H), (addr_div16 a0 b0 0 0) by (unfold octets; lia).
  destruct H as (Ha & Hb & _).
  apply Bool.eq_iff_eq_true. rewrite andb_true_iff, !Z.eqb_eq. lia.
Qed.

Lemma in_cidr_24 a0 b0 c0 a b c d :
  0 <= a0 <= 255 -> 0 <= b0 <= 255 -> 0 <= c0 <= 255 -> octets a b c d ->
  in_cidr (ipv4_addr a0 b0 c0 0) 24 (ipv4_addr a b c d)
  = (a =? a0) && (b =? b0) && (c =? c0).
Proof.
  intros Ha0 Hb0 Hc0 H. unfold in_cidr. rewrite !Z.shiftr_div_pow2 by lia.
  change (32 - 24) with 8.
  rewrite (addr_div8 a b c d H), (addr_div8 a0 b0 c0 0) by (unfold octets; lia).
  destruct H as (Ha & Hb & Hc & _).
  apply Bool.eq_iff_eq_true. rewrite !andb_true_iff, !Z.eqb_eq. lia.
Qed.

Lemma in_cidr_172 a b c d :
  octets a b c d ->
  in_cidr (ipv4_addr 172 16 0 0) 12 (ipv4_addr a b c d)
  = (a =? 172) && (16 <=? b) && (b <=? 31).
Proof.
  intros H. unfold in_cidr. rewrite !Z.shiftr_div_pow2 by lia.
  change (32 - 12) with 20.
  rewrite (addr_div20 a b c d H), (addr_div20 172 16 0 0) by (unfold octets; lia).
  destruct H as (Ha & Hb & _).
  change (172 * 16 + 16 / 16) with 2753.
  pose proof (Z.div_mod b 16 ltac:(lia)) as Hb16.
  pose proof (Z.mod_pos_bound b 16 ltac:(lia)) as Hm.
  apply Bool.eq_iff_eq_true. rewrite !andb_true_iff, !Z.eqb_eq, !Z.leb_le. lia.
Qed.

Lemma addr_ge_224 a b c d :
  octets a b c d -> (ipv4_addr 224 0 0 0 <=? ipv4_addr a b c d) = (224 <=? a).
Proof.
  intros (Ha & Hb & Hc & Hd). unfold ipv4_addr.
  apply Bool.eq_iff_eq_true. rewrite !Z.leb_le. lia.
Qed.

(** The octet tests of the code decide membership in the listed ranges. *)
Lemma ipv4_private_ranges a b c d :
  octets a b c d ->
  ipv4_private a b c d = in_blocked_range (ipv4_addr a b c d).
Proof.
  intros H.
  unfold in_blocked_range, blocked_cidrs, existsb, fst, snd.
  rewrite !in_cidr_8, !in_cidr_16, !in_cidr_24, in_cidr_172, addr_ge_224
    by (assumption || lia).
  unfold ipv4_private. rewrite orb_false_r, !orb_assoc. reflexivity.
Qed.

Lemma ipv4Match_none_not_quad ip : ipv4Match ip = None -> ~ dotted_quad ip.
Proof.
  intros Hn (sa & sb & sc & sd & Ha & Hb & Hc & Hd & ->).
  rewrite ipv4Match_dotted in Hn by assumption. discriminate.
Qed.

Lemma ipv6_special_false ip : ~ ipv6_form ip -> ipv6_special ip = false.
Proof.
  unfold ipv6_form, ipv6_special. cbv zeta. intros H.
  destruct (String.eqb_spec (toLowerCase ip) "::1") as [E|_]; [tauto|].
  destruct (String.eqb_spec (toLowerCase ip) "::") as [E|_]; [tauto|].
  repeat match goal with
  | |- context [startsWith ?l ?p] =>
      destruct (startsWith l p) eqn:?; [tauto|]
  end.
  reflexivity.
Qed.

(** C1, as the code has it.  [isPrivateIP] on a dotted quad of the
    pattern, four groups of one to three digits: it answers [true] whenever
    one octet exceeds 255; when all four octets are at most 255 it answers
    exactly whether the address lies in one of the blocked ranges
    0.0.0.0/8, 10.0.0.0/8, 127.0.0.0/8, 172.16.0.0/12, 192.168.0.0/16,
    169.254.0.0/16, 192.0.2.0/24, 198.51.100.0/24, 203.0.113.0/24 or is
    at least 224.0.0.0 -- [true] inside, [false] for every public address
    outside; 8.8.8.8 and 93.184.216.34 are classified as public. *)
Theorem isPrivateIP_ipv4_ranges sa sb sc sd :
  octet_text sa = true -> octet_text sb = true ->
  octet_text sc = true -> octet_text sd = true ->
  let a := Number sa in
  let b := Number sb in
  let c := Number sc in
  let d := Number sd in
  let ip := dotted sa sb sc sd in
  ((255 < a \/ 255 < b \/ 255 < c \/ 255 < d) -> isPrivateIP ip = true)
  /\ (a <= 255 -> b <= 255 -> c <= 255 -> d <= 255 ->
      isPrivateIP ip = in_blocked_range (ipv4_addr a b c d))
  /\ isPrivateIP "8.8.8.8" = false
  /\ isPrivateIP "93.184.216.34" = false.
Proof.
  intros Ha Hb Hc Hd a b c d ip.
  assert (Hm : ipv4Match ip = Some (a, b, c, d)) by now apply ipv4Match_dotted.
  assert (H6 : ipv6_special ip = false) by now apply ipv6_special_dotted.
  pose proof (Number_nonneg _ Ha). pose proof (Number_nonneg _ Hb).
  pose proof (Number_nonneg _ Hc). pose proof (Number_nonneg _ Hd).
  repeat split; try reflexivity.
  - intros Hbig. unfold isPrivateIP. rewrite Hm.
    assert ((255 <? a) || (255 <? b) || (255 <? c) || (255 <? d) = true) as ->;
      [|reflexivity].
    rewrite !orb_true_iff, !Z.ltb_lt. tauto.
  - intros La Lb Lc Ld. unfold isPrivateIP. rewrite Hm, H6.
    assert ((255 <? a) || (255 <? b) || (255 <? c) || (255 <? d) = false) as ->.
    { rewrite !orb_false_iff, !Z.ltb_ge. tauto. }
    rewrite <- ipv4_private_ranges by (unfold octets; fold a b c d; lia).
    now destruct (ipv4_private a b c d).
Qed.

Lemma isPrivateIP_ipv4_ranges_witness :
  octet_text "172" = true /\ octet_text "31" = true /\
  octet_text "255" = true /\ octet_text "7" = true /\
  isPrivateIP "172.31.255.7" = in_blocked_range (ipv4_addr 172 31 255 7).
Proof.
  do 4 (split; [reflexivity|]).
  apply (isPrivateIP_ipv4_ranges "172" "31" "255" "7");
    try reflexivity; vm_compute; discriminate.
Defined.

(** C1, counterexample.  A dotted quad whose last group, 4000, exceeds
    255.  The group has four digits, so the pattern of [isPrivateIP] --
    groups of one to three digits -- does not match, the text is not
    examined as an IPv4 address, and the answer is [false]. *)
Lemma isPrivateIP_long_group_not_blocked :
  all_digits "4000" = true
  /\ 255 < Number "4000"
  /\ octet_text "4000" = false
  /\ ipv4Match "1.2.3.4000" = None
  /\ isPrivateIP "1.2.3.4000" = false.
Proof. repeat split. Qed.

(** The edges of the pattern. *)
Example isPrivateIP_edges :
  isPrivateIP "1.1.1.256" = true
  /\ isPrivateIP "999.999.999.999" = true
  /\ isPrivateIP "169.254.169.254" = true
  /\ isPrivateIP "172.15.255.255" = false
  /\ isPrivateIP "172.32.0.0" = false
  /\ isPrivateIP "223.255.255.255" = false
  /\ isPrivateIP "010.0.0.1" = true
  /\ isPrivateIP "1.2.3.4000" = false.
Proof. repeat split. Qed.

(** C10. [isPrivateIP] is total: it answers [true] or [false] on every
    string.  It answers [false] on every string that is neither a dotted
    quad nor, once lower-cased, one of the IPv6 special forms; so
    "1.2.3", "1.2.3.4.5" and a host name such as "example.com" are
    classified as not blocked. *)
Theorem isPrivateIP_total_default_allow ip :
  (isPrivateIP ip = true \/ isPrivateIP ip = false)
  /\ (~ dotted_quad ip -> ~ ipv6_form ip -> isPrivateIP ip = false)
  /\ isPrivateIP "1.2.3" = false
  /\ isPrivateIP "1.2.3.4.5" = false
  /\ isPrivateIP "example.com" = false.
Proof.
  repeat split; try reflexivity.
  - destruct (isPrivateIP ip); auto.
  - intros Hq H6. unfold isPrivateIP.
    destruct (ipv4Match ip) as [[[[a b] c] d]|] eqn:Hm.
    + exfalso. apply Hq. eapply ipv4Match_sound; eauto.
    + now apply ipv6_special_false.
Qed.

Lemma isPrivateIP_total_default_allow_witness :
  ~ dotted_quad "intranet.corp" /\ ~ ipv6_form "intranet.corp" /\
  isPrivateIP "intranet.corp" = false.
Proof.
  assert (Hq : ~ dotted_quad "intranet.corp")
    by (apply ipv4Match_none_not_quad; reflexivity).
  assert (H6 : ~ ipv6_form "intranet.corp")
    by (unfold ipv6_form; vm_compute; intuition discriminate).
  split; [exact Hq|]. split; [exact H6|].
  exact (proj1 (proj2 (isPrivateIP_total_default_allow "intranet.corp")) Hq H6).
Defined.

End HostPolicyProps.

(** ** UrlGuard *)

Module UrlGuardProps.
Import JS HostPolicy UrlGuard.

Lemma check_addresses_blocked allAddresses :
  (exists addr, addr ∈ allAddresses /\ isPrivateIP addr = true) ->
  check_addresses allAddresses = Throw DnsRebindingBlocked.
Proof.
  intros (addr & Hin & Hp).
  induction allAddresses as [|a rest IH]; [inversion Hin|].
  simpl. destruct (isPrivateIP a) eqn:Ha; [reflexivity|].
  apply IH. apply elem_of_cons in Hin as [->|Hin]; [congruence | exact Hin].
Qed.

Lemma check_addresses_clear allAddresses :
  Forall (fun addr => isPrivateIP addr = false) allAddresses ->
  check_addresses allAddresses = Ok tt.
Proof.
  induction 1 as [|a rest Ha _ IH]; [reflexivity|]. simpl. now rewrite Ha.
Qed.

Lemma resolve_and_check_blocked {Profile} (P : Platform Profile) hostname :
  (exists addr,
      addr ∈ (or_empty (dns_resolve4 P hostname) ++ or_empty (dns_resolve6 P hostname))%list
      /\ isPrivateIP addr = true) ->
  resolve_and_check P hostname = Throw DnsRebindingBlocked.
Proof.
  intros H. unfold resolve_and_check.
  destruct (or_empty (dns_resolve4 P hostname) ++ or_empty (dns_resolve6 P hostname))%list
    as [|a rest] eqn:E.
  - destruct H as (addr & Hin & _). inversion Hin.
  - change (Z.of_nat (length (a :: rest)) =? 0) with false. cbv iota.
    now apply check_addresses_blocked.
Qed.

(** The check of the resolved addresses.  When the URL passes the earlier checks of
    [validateUrl] -- it parses, its scheme is http or https, its host name
    is not localhost, does not contain "metadata", and is not itself
    classified as blocked by [isPrivateIP] -- and the A and AAAA answers
    together contain at least one address that [isPrivateIP] blocks, at any
    position, then [validateUrl] fails with "Domain resolves to a private
    IP address" (DnsRebindingBlocked). *)
Theorem validateUrl_rebinding_blocked {Profile} (P : Platform Profile) url parsedUrl :
  URL_parse P (with_scheme url) = Some parsedUrl ->
  (protocol parsedUrl = "http:" \/ protocol parsedUrl = "https:") ->
  let host := toLowerCase (hostname parsedUrl) in
  host <> "localhost" ->
  includes host "metadata" = false ->
  isPrivateIP (stripBrackets host) = false ->
  (exists addr,
      addr ∈ (or_empty (dns_resolve4 P host) ++ or_empty (dns_resolve6 P host))%list
      /\ isPrivateIP addr = true) ->
  validateUrl P url = Throw DnsRebindingBlocked.
Proof.
  intros Hparse Hproto host Hlocal Hmeta Hip Hdns.
  unfold validateUrl. rewrite Hparse.
  assert (negb (String.eqb (protocol parsedUrl) "http:")
          && negb (String.eqb (protocol parsedUrl) "https:") = false) as ->.
  { destruct Hproto as [-> | ->]; reflexivity. }
  fold host.
  destruct (String.eqb_spec host "localhost") as [E|_]; [contradiction|].
  rewrite Hmeta, Hip, andb_false_r.
  now rewrite resolve_and_check_blocked.
Qed.

Lemma validateUrl_rebinding_blocked_witness :
  let P := Worlds.rebinding_world in
  let url := "https://rebind.example/login" in
  (exists parsedUrl,
      URL_parse P (with_scheme url) = Some parsedUrl
      /\ protocol parsedUrl = "https:"
      /\ toLowerCase (hostname parsedUrl) = "rebind.example")
  /\ isPrivateIP (stripBrackets "rebind.example") = false
  /\ isPrivateIP "93.184.216.34" = false
  /\ isPrivateIP "127.0.0.1" = true
  /\ validateUrl P url = Throw DnsRebindingBlocked.
Proof.
  intros P url.
  split; [eexists; repeat split; reflexivity|].
  do 3 (split; [reflexivity|]).
  eapply (validateUrl_rebinding_blocked P url).
  - reflexivity.
  - right; reflexivity.
  - discriminate.
  - reflexivity.
  - reflexivity.
  - exists "127.0.0.1". split; [|reflexivity].
    vm_compute. apply list_elem_of_further, list_elem_of_here.
Defined.

(** Two host names that are not IP literals and resolve only to
    127.0.0.1, for which [validateUrl] does not answer
    DnsRebindingBlocked.  The name localhost is stopped by the check on
    that name.  The name fd.io begins with "fd": [isPrivateIP], which the
    method runs on the host name itself, takes it for a unique-local IPv6
    address, and the error is "Access to private IP addresses is not
    allowed". *)
Lemma validateUrl_not_always_rebinding :
  let P := Worlds.rebinding_world in
  (~ dotted_quad "fd.io" /\ includes "fd.io" ":" = false)
  /\ (~ dotted_quad "localhost" /\ includes "localhost" ":" = false)
  /\ dns_resolve4 P "fd.io" = Some ["127.0.0.1"]
  /\ dns_resolve4 P "localhost" = Some ["127.0.0.1"]
  /\ isPrivateIP "127.0.0.1" = true
  /\ validateUrl P "https://fd.io" = Throw BlockedPrivateIP
  /\ validateUrl P "https://fd.io" <> Throw DnsRebindingBlocked
  /\ validateUrl P "http://localhost" = Throw BlockedLocalhost
  /\ validateUrl P "http://localhost" <> Throw DnsRebindingBlocked.
Proof.
  intros P.
  split; [split; [apply HostPolicyProps.ipv4Match_none_not_quad|]; reflexivity|].
  split; [split; [apply HostPolicyProps.ipv4Match_none_not_quad|]; reflexivity|].
  repeat split; try reflexivity; discriminate.
Qed.

(** C2.  The name printer.example is no IP literal, and its only
    address, an AAAA answer, is febf::1.  That address lies in the
    link-local range fe80::/10, which [isPrivateIP] means to block (its
    comment says so, and fe80::1 is blocked); but the test is the text
    prefix "fe80:", so febf::1 is answered [false], every resolved address
    passes, and [validateUrl] returns the URL instead of failing with
    "Domain resolves to a private IP address". *)
Theorem validateUrl_accepts_link_local_answer :
  let P := MoreWorlds.link_local_world in
  let url := "http://printer.example/" in
  (~ dotted_quad "printer.example" /\ includes "printer.example" ":" = false)
  /\ dns_resolve4 P "printer.example" = None
  /\ dns_resolve6 P "printer.example" = Some ["febf::1"]
  /\ Z.land 0xfebf 0xffc0 = 0xfe80
  /\ isPrivateIP "fe80::1" = true
  /\ isPrivateIP "febf::1" = false
  /\ (exists parsedUrl,
         validateUrl P url = Ok parsedUrl /\ hostname parsedUrl = "printer.example")
  /\ validateUrl P url <> Throw DnsRebindingBlocked.
Proof.
  intros P url.
  split; [split; [apply HostPolicyProps.ipv4Match_none_not_quad|]; reflexivity|].
  do 5 (split; [reflexivity|]).
  split; [eexists; split; reflexivity | discriminate].
Qed.

Lemma prefix_split p s : String.prefix p s = true -> exists r, s = p ++ r.
Proof.
  revert s. induction p as [|c p IH]; intros s H.
  - exists s. reflexivity.
  - destruct s as [|d s]; [discriminate|]. simpl in H.
    destruct (ascii_dec c d) as [->|]; [|discriminate].
    destruct (IH _ H) as [r ->]. exists r. reflexivity.
Qed.

(** After the first step of [validateUrl] the text begins with a scheme. *)
Lemma with_scheme_prefix url :
  exists r, with_scheme url = "http://" ++ r \/ with_scheme url = "https://" ++ r.
Proof.
  unfold with_scheme, startsWith.
  destruct (String.prefix "http://" url) eqn:E1.
  - destruct (prefix_split _ _ E1) as [r ->]. exists r. now left.
  - destruct (String.prefix "https://" url) eqn:E2; cbn [negb andb].
    + destruct (prefix_split _ _ E2) as [r ->]. exists r. now right.
    + exists url. now right.
Qed.

Lemma dns_catch_not_protocol e : dns_catch e <> DisallowedProtocol.
Proof.
  unfold dns_catch.
  destruct (includes (emessage e) "not allowed" || includes (emessage e) "private IP"
            || includes (emessage e) "Unable to resolve") eqn:E;
    intros Habs; [subst; vm_compute in E|]; discriminate.
Qed.

(** With a parser that reads the scheme off the text, the scheme test of
    [validateUrl] cannot fail: its error is never thrown. *)
Lemma protocol_check_dead {Profile} (P : Platform Profile) :
  (forall r u, URL_parse P ("http://" ++ r) = Some u -> protocol u = "http:") ->
  (forall r u, URL_parse P ("https://" ++ r) = Some u -> protocol u = "https:") ->
  forall url, validateUrl P url <> Throw DisallowedProtocol.
Proof.
  intros Hhttp Hhttps url. unfold validateUrl.
  destruct (URL_parse P (with_scheme url)) as [u|] eqn:Hparse; [|discriminate].
  assert (Hproto : protocol u = "http:" \/ protocol u = "https:").
  { destruct (with_scheme_prefix url) as [r [Hr|Hr]]; rewrite Hr in Hparse; eauto. }
  assert (negb (String.eqb (protocol u) "http:")
          && negb (String.eqb (protocol u) "https:") = false) as ->
    by (destruct Hproto as [-> | ->]; reflexivity).
  destruct (String.eqb _ "localhost"); [discriminate|].
  destruct (includes _ "metadata"); [discriminate|].
  destruct (_ && _); [discriminate|].
  destruct (resolve_and_check P _) as [[]|e]; [discriminate|].
  intros Habs. inversion Habs as [He]. now apply (dns_catch_not_protocol e).
Qed.

Lemma strip_trailing_cons p c s :
  p c = false ->
  WhatwgLite.strip_trailing p (String c s) = String c (WhatwgLite.strip_trailing p s).
Proof.
  intros Hc. cbn [WhatwgLite.strip_trailing]. rewrite Hc.
  now destruct (WhatwgLite.strip_trailing p s).
Qed.

Lemma parse_special_scheme sch rest u :
  WhatwgLite.parse_special sch rest = Some u -> WhatwgLite.scheme u = sch.
Proof.
  unfold WhatwgLite.parse_special.
  destruct (WhatwgLite.break _ (WhatwgLite.drop_while _ rest)) as [authority tail].
  destruct (WhatwgLite.break _ authority) as [host_text port_part].
  destruct (WhatwgLite.parse_host host_text); [|discriminate].
  destruct (WhatwgLite.parse_port sch _); [|discriminate].
  destruct (WhatwgLite.parse_tail [] tail) as [[[segs q] f]|]; [|discriminate].
  intros H; inversion H; reflexivity.
Qed.

Lemma lite_parse_http r u :
  WhatwgLite.parse ("http://" ++ r) = Some u -> protocol u = "http:".
Proof.
  unfold WhatwgLite.parse, WhatwgLite.preprocess.
  change ("http://" ++ r)
    with (String "h" (String "t" (String "t" (String "p" (String ":" (String "/" (String "/" r))))))).
  change (WhatwgLite.drop_while _ (String "h" ?x)) with (String "h" x).
  rewrite !strip_trailing_cons by reflexivity.
  set (t := WhatwgLite.strip_trailing _ r).
  change (WhatwgLite.remove_chars WhatwgLite.tab_or_newline
            (String "h" (String "t" (String "t" (String "p" (String ":" (String "/" (String "/" t))))))))
    with (String "h" (String "t" (String "t" (String "p" (String ":" (String "/" (String "/"
            (WhatwgLite.remove_chars WhatwgLite.tab_or_newline t)))))))).
  set (t' := WhatwgLite.remove_chars _ t).
  change (WhatwgLite.parse_absolute _)
    with (inl <$> WhatwgLite.parse_special "http" (String "/" (String "/" t')) : option (WhatwgLite.Parts + URL)).
  destruct (WhatwgLite.parse_special "http" _) as [parts|] eqn:E; [|discriminate].
  intros H; inversion H; subst. cbn. now rewrite (parse_special_scheme _ _ _ E).
Qed.

Lemma lite_parse_https r u :
  WhatwgLite.parse ("https://" ++ r) = Some u -> protocol u = "https:".
Proof.
  unfold WhatwgLite.parse, WhatwgLite.preprocess.
  change ("https://" ++ r)
    with (String "h" (String "t" (String "t" (String "p" (String "s" (String ":" (String "/" (String "/" r)))))))).
  change (WhatwgLite.drop_while _ (String "h" ?x)) with (String "h" x).
  rewrite !strip_trailing_cons by reflexivity.
  set (t := WhatwgLite.strip_trailing _ r).
  change (WhatwgLite.remove_chars WhatwgLite.tab_or_newline
            (String "h" (String "t" (String "t" (String "p" (String "s" (String ":" (String "/" (String "/" t)))))))))
    with (String "h" (String "t" (String "t" (String "p" (String "s" (String ":" (String "/" (String "/"
            (WhatwgLite.remove_chars WhatwgLite.tab_or_newline t))))))))).
  set (t' := WhatwgLite.remove_chars _ t).
  change (WhatwgLite.parse_absolute _)
    with (inl <$> WhatwgLite.parse_special "https" (String "/" (String "/" t')) : option (WhatwgLite.Parts + URL)).
  destruct (WhatwgLite.parse_special "https" _) as [parts|] eqn:E; [|discriminate].
  intros H; inversion H; subst. cbn. now rewrite (parse_special_scheme _ _ _ E).
Qed.

(** C7.  With the URL parser of the runtime, and whatever the resolver
    and the network answer: "http://localhost/x" is rejected with "Access
    to localhost is not allowed" and "not a url" with "Invalid URL format",
    before any lookup.  "ftp://example.com" is not rejected with "Only HTTP
    and HTTPS protocols are allowed": it does not begin with http:// or
    https://, so "https://" is put in front of it, the text parses as an
    https URL of host "ftp", the scheme test passes, and the outcome is the
    one of the DNS lookup of "ftp".  No input at all is rejected with that
    error. *)
Theorem validateUrl_preflight_examples
    (dns4 dns6 : string -> option (list string)) (net : string -> Exchange) :
  let P := Worlds.world dns4 dns6 net in
  validateUrl P "http://localhost/x" = Throw BlockedLocalhost
  /\ validateUrl P "not a url" = Throw InvalidUrl
  /\ with_scheme "ftp://example.com" = "https://ftp://example.com"
  /\ (protocol <$> URL_parse P "https://ftp://example.com") = Some "https:"
  /\ (hostname <$> URL_parse P "https://ftp://example.com") = Some "ftp"
  /\ validateUrl P "ftp://example.com"
     = match resolve_and_check P "ftp" with
       | Throw error => Throw (dns_catch error)
       | Ok _ => Ok (mkURL "https://ftp//example.com" "https:" "ftp"
                           "https://ftp" "//example.com")
       end
  /\ validateUrl P "ftp://example.com" <> Throw DisallowedProtocol
  /\ forall url, validateUrl P url <> Throw DisallowedProtocol.
Proof.
  intros P.
  assert (Hdead : forall url, validateUrl P url <> Throw DisallowedProtocol).
  { apply protocol_check_dead; [apply lite_parse_http | apply lite_parse_https]. }
  do 6 (split; [reflexivity|]). split; [apply Hdead | exact Hdead].
Qed.

End UrlGuardProps.

(** ** BoundedFetcher *)

Module FetcherProps.
Import JS Http UrlGuard Fetcher.

Lemma stream_bytes_nonneg stream : 0 <= stream_bytes stream.
Proof. induction stream as [|v rest IH]; simpl; lia. Qed.


(** The loop on a stream within the cap: every chunk is read and kept. *)
Lemma read_loop_within stream : forall st,
  totalSize st + stream_bytes stream <= MAX_SIZE ->
  read_loop stream st
  = mkRead (reads st + length stream) (chunks st ++ stream)
           (totalSize st + stream_bytes stream)
           (match stream with [] => thrown st | _ => None end).
Proof.
  induction stream as [|value rest IH]; intros st Hle.
  - destruct st. cbn. rewrite app_nil_r, Nat.add_0_r, Z.add_0_r. reflexivity.
  - cbn [read_loop]. cbv zeta. pose proof (stream_bytes_nonneg rest). simpl in Hle.
    destruct (Z.ltb_spec MAX_SIZE (totalSize st + Z.of_N (byteLength value))); [lia|].
    rewrite IH by (cbn [totalSize]; lia).
    cbn [reads chunks totalSize thrown length stream_bytes fold_right].
    f_equal; try lia; try (now destruct rest); try (now rewrite <- app_assoc).
    fold (stream_bytes rest). lia.
Qed.

Lemma ok_not_redirect response : ok response = true -> is_redirect response = false.
Proof.
  unfold ok, is_redirect. intros H. apply andb_prop in H as [H1 H2].
  apply Z.leb_le in H1, H2. apply andb_false_iff. left. apply Z.leb_gt. lia.
Qed.

Lemma redirect_not_ok response : is_redirect response = true -> ok response = false.
Proof.
  intros H. destruct (ok response) eqn:E; [|reflexivity].
  apply ok_not_redirect in E. congruence.
Qed.



Lemma scrape_attempt_redirect {Profile} (P : Platform Profile) validatedUrl response :
  fetch P (href validatedUrl) manual 15000 = Ok response ->
  is_redirect response = true ->
  scrape_attempt P validatedUrl = Throw RedirectRejected.
Proof. intros Hf Hr. unfold scrape_attempt. now rewrite Hf, Hr. Qed.

Lemma scrapeWebsite_attempt_throws {Profile} (P : Platform Profile) url validatedUrl e :
  validateUrl P url = Ok validatedUrl ->
  scrape_attempt P validatedUrl = Throw e ->
  Fetcher.scrapeWebsite P url = Throw (scrape_catch e).
Proof. intros Hv Ha. unfold scrapeWebsite. now rewrite Hv, Ha. Qed.

Lemma fetchPageHtml_redirect {Profile} (P : Platform Profile) url validatedUrl response :
  validateUrl P url = Ok validatedUrl ->
  fetch P (href validatedUrl) manual 10000 = Ok response ->
  is_redirect response = true ->
  fetchPageHtml P url = Throw RedirectsNotSupported.
Proof. intros Hv Hf Hr. unfold fetchPageHtml. now rewrite Hv, Hf, Hr. Qed.




(** C4, as the code has it.  Both fetch paths ask the transport not to
    follow redirects and treat a 3xx answer as a failure: the scrape fetch
    throws "Website redirects are not supported. Please provide the final
    URL." (handed to its caller as "Unable to access the website..."), the
    link-discovery pre-fetch throws "Redirects not supported".  Neither
    path follows a redirect. *)
Theorem redirect_rejected_on_both_paths {Profile} (P : Platform Profile)
    url validatedUrl response :
  validateUrl P url = Ok validatedUrl ->
  is_redirect response = true ->
  (fetch P (href validatedUrl) manual 15000 = Ok response ->
   scrape_attempt P validatedUrl = Throw RedirectRejected
   /\ Fetcher.scrapeWebsite P url = Throw Unreachable)
  /\ (fetch P (href validatedUrl) manual 10000 = Ok response ->
      fetchPageHtml P url = Throw RedirectsNotSupported).
Proof.
  intros Hv Hr. split.
  - intros Hf.
    assert (Ha : scrape_attempt P validatedUrl = Throw RedirectRejected)
      by now apply (scrape_attempt_redirect P validatedUrl response).
    split; [exact Ha|].
    now rewrite (scrapeWebsite_attempt_throws P url validatedUrl _ Hv Ha).
  - intros Hf. now apply (fetchPageHtml_redirect P url validatedUrl response).
Qed.

Lemma redirect_rejected_on_both_paths_witness :
  let P := Worlds.moved_world in
  let url := "https://old.example/" in
  let validatedUrl :=
    mkURL "https://old.example/" "https:" "old.example" "https://old.example" "/" in
  let response :=
    mkResponse 301 (Some "text/html") None (Some "https://new.example/") (Some []) in
  validateUrl P url = Ok validatedUrl
  /\ is_redirect response = true
  /\ fetch P (href validatedUrl) manual 15000 = Ok response
  /\ fetch P (href validatedUrl) manual 10000 = Ok response
  /\ Fetcher.scrapeWebsite P url = Throw Unreachable
  /\ fetchPageHtml P url = Throw RedirectsNotSupported.
Proof.
  intros P url validatedUrl response.
  assert (H1 : validateUrl P url = Ok validatedUrl) by reflexivity.
  assert (H2 : is_redirect response = true) by reflexivity.
  assert (H3 : fetch P (href validatedUrl) manual 15000 = Ok response) by reflexivity.
  assert (H4 : fetch P (href validatedUrl) manual 10000 = Ok response) by reflexivity.
  destruct (redirect_rejected_on_both_paths P url validatedUrl response H1 H2)
    as (Hscrape & Hpre).
  exact (conj H1 (conj H2 (conj H3 (conj H4 (conj (proj2 (Hscrape H3)) (Hpre H4)))))).
Defined.

(** C4, counterexample.  A page answers 301 with a Location whose target
    answers 200 with HTML.  A transport that follows redirects would
    deliver that page; the primary page fetch [scrapeWebsite] does not
    follow: it throws the redirect error inside and fails. *)
Lemma scrapeWebsite_does_not_follow_redirect :
  let P := Worlds.moved_world in
  let url := "https://old.example/" in
  fetch P url follow 15000 = Ok (Worlds.html_page "<html>moved here</html>")
  /\ (exists validatedUrl,
        validateUrl P url = Ok validatedUrl
        /\ scrape_attempt P validatedUrl = Throw RedirectRejected)
  /\ Fetcher.scrapeWebsite P url = Throw Unreachable
  /\ Fetcher.scrapeWebsite P "https://new.example/" = Ok "<html>moved here</html>".
Proof.
  intros P url. split; [reflexivity|]. split.
  - eexists. split; reflexivity.
  - split; reflexivity.
Qed.

End FetcherProps.

(** ** PageDiscovery *)

Module DiscoveryProps.
Import JS Discovery.

Lemma set_add_elem x y (s : list string) : x ∈ set_add y s <-> x = y \/ x ∈ s.
Proof.
  unfold set_add. case_bool_decide as Hy.
  - split; [auto|]. intros [->|H]; assumption.
  - rewrite elem_of_app, list_elem_of_singleton. tauto.
Qed.

Lemma set_add_NoDup y (s : list string) : NoDup s -> NoDup (set_add y s).
Proof.
  intros Hs. unfold set_add. case_bool_decide as Hy; [exact Hs|].
  apply NoDup_app. split; [exact Hs|]. split.
  - intros x Hx Hx'. apply list_elem_of_singleton in Hx'. subst. contradiction.
  - apply NoDup_singleton.
Qed.

Lemma set_from_spec_aux (l : list string) : forall acc,
  NoDup acc ->
  NoDup (fold_left (fun s x => set_add x s) l acc)
  /\ forall x, x ∈ fold_left (fun s x => set_add x s) l acc <-> x ∈ acc \/ x ∈ l.
Proof.
  induction l as [|y l IH]; intros acc Hacc; simpl.
  - split; [exact Hacc|]. intros x. rewrite elem_of_nil. tauto.
  - destruct (IH (set_add y acc) (set_add_NoDup y acc Hacc)) as [Hnd Hel].
    split; [exact Hnd|]. intros x. rewrite Hel, set_add_elem, elem_of_cons. tauto.
Qed.

(** [Array.from(new Set(l))] has no duplicates and the members of [l]. *)
Lemma set_from_spec (l : list string) :
  NoDup (set_from l) /\ forall x, x ∈ set_from l <-> x ∈ l.
Proof.
  destruct (set_from_spec_aux l [] (NoDup_nil_2)) as [Hnd Hel].
  split; [exact Hnd|]. intros x. unfold set_from. rewrite Hel, elem_of_nil. tauto.
Qed.

Section Invariant.
Context {Profile : Type} (P : Platform Profile) (baseUrl baseOrigin homepageHtml : string).


Lemma hasKeyword_true path :
  hasKeyword path = true ->
  exists keyword, keyword ∈ pageKeywords /\ includes path keyword = true.
Proof.
  unfold hasKeyword. intros H. apply existsb_exists in H as (k & Hin & Hk).
  exists k. split; [now apply list_elem_of_In | exact Hk].
Qed.

Lemma visit_link_keeps importantPages h :
  h ∈ cheerio_hrefs P homepageHtml ->
  NoDup importantPages -> Forall (selected P baseUrl baseOrigin homepageHtml) importantPages ->
  NoDup (visit_link P baseUrl baseOrigin importantPages h)
  /\ Forall (selected P baseUrl baseOrigin homepageHtml) (visit_link P baseUrl baseOrigin importantPages h).
Proof.
  intros Hh Hnd Hall. unfold visit_link.
  destruct (String.eqb h ""); [auto|].
  destruct (URL_resolve P h baseUrl) as [resolved|] eqn:Hres; [|auto].
  destruct (URL_parse P (href resolved)) as [parsedUrl|] eqn:Hparse; [|auto].
  destruct (String.eqb_spec (origin parsedUrl) baseOrigin) as [Ho|_]; [|auto].
  cbn [negb].
  destruct (hasKeyword (toLowerCase (pathname parsedUrl))) eqn:Hk; [|auto].
  destruct (length importantPages <? 10)%nat; [|auto]. cbn [andb].
  split; [now apply set_add_NoDup|].
  apply Forall_forall. intros u Hu. apply set_add_elem in Hu as [->|Hu].
  - split; [exists h, resolved; auto|].
    exists parsedUrl. repeat split; auto. now apply hasKeyword_true.
  - rewrite Forall_forall in Hall. auto.
Qed.

Lemma visit_all_keeps (hs : list string) : forall importantPages,
  (forall h, h ∈ hs -> h ∈ cheerio_hrefs P homepageHtml) ->
  NoDup importantPages -> Forall (selected P baseUrl baseOrigin homepageHtml) importantPages ->
  NoDup (fold_left (visit_link P baseUrl baseOrigin) hs importantPages)
  /\ Forall (selected P baseUrl baseOrigin homepageHtml) (fold_left (visit_link P baseUrl baseOrigin) hs importantPages).
Proof.
  induction hs as [|h hs IH]; intros acc Hsub Hnd Hall; simpl; [auto|].
  destruct (visit_link_keeps acc h) as [Hnd' Hall']; auto.
  { apply Hsub. left. }
  apply IH; auto. intros h' Hh'. apply Hsub. now right.
Qed.

End Invariant.

(** When [findImportantPages] returns, it returns at most 5 URLs,
    without duplicates; each of them is the resolution of an anchor of the
    home page, parses to a URL whose serialized origin is equal, as a
    text, to that of the base URL, and has a path that, lower-cased,
    contains one of the fixed keywords.
    This holds whatever links the page carries.  The only other outcome is
    the exception of [new URL(baseUrl)] on a base URL that does not
    parse. *)
Lemma findImportantPages_bounded {Profile} (P : Platform Profile)
    (baseUrl homepageHtml : string) :
  match findImportantPages P baseUrl homepageHtml with
  | Ok pages =>
      (length pages <= 5)%nat
      /\ NoDup pages
      /\ exists parsedBase,
          URL_parse P baseUrl = Some parsedBase
          /\ Forall (selected P baseUrl (origin parsedBase) homepageHtml) pages
  | Throw _ => URL_parse P baseUrl = None
  end.
Proof.
  unfold findImportantPages.
  destruct (URL_parse P baseUrl) as [parsedBase|] eqn:Hbase; [|reflexivity].
  destruct (visit_all_keeps P baseUrl (origin parsedBase) homepageHtml
              (cheerio_hrefs P homepageHtml) []) as [Hnd Hall];
    [auto | apply NoDup_nil_2 | apply Forall_nil_2 |].
  split; [|split].
  - rewrite length_take. lia.
  - eapply sublist_NoDup; [exact Hnd | apply sublist_take].
  - exists parsedBase. split; [reflexivity|]. now apply Forall_take.
Qed.

(** The home page of the example: thirteen anchors, seven of them on the
    site with a keyword in the path, one of these twice. *)
Example findImportantPages_busy_home :
  findImportantPages (Worlds.table_world [] []) "https://shop.example" Worlds.busy_home
  = Ok [ "https://shop.example/about"; "https://shop.example/Contact-Us";
         "https://shop.example/faq"; "https://shop.example/help/";
         "https://shop.example/services" ].
Proof. reflexivity. Qed.

(** C6.  The base URL "shop.example:443" is accepted by the scraper,
    which puts https:// in front; [new URL] alone reads it as a URL of
    scheme "shop.example:" whose origin is opaque and serialized "null".
    The mail link of the home page has an opaque origin too, so the
    comparison of the two serialized origins -- "Only consider links from
    the same domain" -- finds them equal, and the function returns the
    link: a URL that is not of the site and names another host.  With the
    scheme written out the same page yields the About page of the site
    alone. *)
Theorem findImportantPages_opaque_base :
  let P := Worlds.shop_world in
  let baseUrl := "shop.example:443" in
  (exists validatedUrl,
      UrlGuard.validateUrl P baseUrl = Ok validatedUrl
      /\ hostname validatedUrl = "shop.example")
  /\ (exists homepageContent, Fetcher.scrapeWebsite P baseUrl = Ok homepageContent)
  /\ (origin <$> URL_parse P baseUrl) = Some "null"
  /\ (protocol <$> URL_parse P baseUrl) = Some "shop.example:"
  /\ (origin <$> URL_parse P "mailto:contact@other.example") = Some "null"
  /\ findImportantPages P baseUrl MoreWorlds.mail_home
     = Ok ["mailto:contact@other.example"]
  /\ findImportantPages P "https://shop.example:443" MoreWorlds.mail_home
     = Ok ["https://shop.example/about"].
Proof.
  intros P baseUrl.
  split; [eexists; split; reflexivity|].
  split; [eexists; reflexivity|].
  repeat split.
Qed.

End DiscoveryProps.

(** ** Storage *)

Module StorageProps.
Import Storage.

Lemma get_after_update id st message db :
  getWebsiteAnalysis id (updateWebsiteAnalysisStatus id st message db)
  = (fun row =>
       mkAnalysis (websiteUrl row) st (analyzedContent row) (or_null message)
         (match st with completed => Some (now db) | _ => None end) (now db))
    <$> getWebsiteAnalysis id db.
Proof. unfold getWebsiteAnalysis, updateWebsiteAnalysisStatus. simpl. apply lookup_alter_eq. Qed.

Lemma get_after_update_inv id st message db row' :
  getWebsiteAnalysis id (updateWebsiteAnalysisStatus id st message db) = Some row' ->
  status row' = st /\ errorMessage row' = or_null message
  /\ exists row, getWebsiteAnalysis id db = Some row
       /\ analyzedContent row' = analyzedContent row
       /\ websiteUrl row' = websiteUrl row.
Proof.
  rewrite get_after_update. destruct (getWebsiteAnalysis id db) as [row|]; [|discriminate].
  intros H; inversion H; subst; simpl. eauto 6.
Qed.

Lemma update_keeps_row id st message db :
  is_Some (getWebsiteAnalysis id db) ->
  is_Some (getWebsiteAnalysis id (updateWebsiteAnalysisStatus id st message db)).
Proof. rewrite get_after_update. intros [row ->]. eauto. Qed.

Lemma get_after_upsert id patch db :
  exists row,
    getWebsiteAnalysis id (upsertWebsiteAnalysis id patch db) = Some row
    /\ (forall st, patch_status patch = Some st -> status row = st)
    /\ (forall c, patch_analyzedContent patch = Some c -> analyzedContent row = Some c).
Proof.
  unfold getWebsiteAnalysis, upsertWebsiteAnalysis. cbn [website_analysis].
  rewrite lookup_insert_eq. eexists. split; [reflexivity|].
  unfold getWebsiteAnalysis.
  destruct (website_analysis db !! id); simpl; split; intros ? ->; reflexivity.
Qed.

Lemma pages_after_update id' id st message db :
  pages_of id' (updateWebsiteAnalysisStatus id st message db) = pages_of id' db.
Proof. reflexivity. Qed.

Lemma pages_after_upsert id' id patch db :
  pages_of id' (upsertWebsiteAnalysis id patch db) = pages_of id' db.
Proof. reflexivity. Qed.

Lemma pages_after_create id url db :
  pages_of id (createAnalyzedPage id url db) = (pages_of id db ++ [url])%list.
Proof.
  unfold pages_of, createAnalyzedPage. cbn [analyzed_pages].
  rewrite filter_app, fmap_app. f_equal.
  rewrite filter_cons. cbn [businessAccountId].
  destruct (decide (id = id)) as [_|]; [reflexivity | contradiction].
Qed.

Lemma get_after_create id id' url db :
  getWebsiteAnalysis id (createAnalyzedPage id' url db) = getWebsiteAnalysis id db.
Proof. reflexivity. Qed.

End StorageProps.

(** ** AnalysisOrchestrator *)

Module OrchestratorProps.
Import JS Storage Orchestrator Shapes StorageProps.

Lemma insert_page_run {Profile} (P : Platform Profile) id pageUrl db :
  try_catch (insert_page P id pageUrl) (fun _ => ret tt) db
  = (match page_insert_error P id pageUrl with
     | Some _ => db
     | None => createAnalyzedPage id pageUrl db
     end, Ok tt).
Proof. unfold insert_page, try_catch. destruct (page_insert_error P id pageUrl); reflexivity. Qed.

Lemma save_pages_run {Profile} (P : Platform Profile) id urls db :
  exists db',
    save_pages P id urls db = (db', Ok tt)
    /\ pages_of id db' = (pages_of id db ++ logged P id urls)%list
    /\ getWebsiteAnalysis id db' = getWebsiteAnalysis id db
    /\ now db' = (now db + length (logged P id urls))%nat.
Proof.
  unfold save_pages, logged. generalize (uniquePages urls) as l. intros l. revert db.
  induction l as [|u l IH]; intros db.
  - exists db. cbn. rewrite app_nil_r. auto with lia.
  - cbn [for_each]. unfold mbind, M_bind, bind. rewrite insert_page_run, filter_cons.
    destruct (decide (page_insert_error P id u = None)) as [Hnone|Hsome].
    + rewrite Hnone.
      destruct (IH (createAnalyzedPage id u db)) as (db' & Hrun & Hpages & Hget & Hnow).
      exists db'. split; [exact Hrun|]. split; [|split].
      * rewrite Hpages, pages_after_create, <- app_assoc. reflexivity.
      * rewrite Hget. apply get_after_create.
      * rewrite Hnow. cbn. lia.
    + destruct (page_insert_error P id u) as [e|]; [|contradiction]. apply IH.
Qed.

(** What the [try] block of an entry point has to deliver for the run to
    be [settled] once the [catch] has done its write. *)
Lemma settled_try_catch id db (body : M unit) :
  (is_Some (getWebsiteAnalysis id db) -> is_Some (getWebsiteAnalysis id (fst (body db)))) ->
  (snd (body db) = Ok tt ->
   exists row, getWebsiteAnalysis id (fst (body db)) = Some row /\ status row = completed) ->
  settled id db (try_catch body (record_failure id) db).
Proof.
  intros Hkeep Hdone. unfold settled. run.
  destruct (body db) as [db1 [[]|e]]; cbn [fst snd] in *.
  - destruct (Hdone eq_refl) as (row & Hrow & Hst).
    split; [eauto|]. split; [|exact Hkeep].
    intros row' Hrow'. rewrite Hrow in Hrow'. inversion Hrow'; subst. rewrite Hst. discriminate.
  - split; [|split].
    + intros row Hrow. apply get_after_update_inv in Hrow as (Hst & Hmsg & _). auto.
    + intros row Hrow. apply get_after_update_inv in Hrow as (Hst & _). rewrite Hst. discriminate.
    + intros H. apply update_keeps_row. auto.
Qed.

(** Steps 4 and 5 and the last write, after the row was marked analyzing:
    the row they leave and what they add to the log. *)
Lemma finish_row {Profile} (P : Platform Profile) id url content urls db :
  exists db',
    (write (upsertWebsiteAnalysis id (mkPatch url (Some completed) (Some content))) ;;
     save_pages P id urls ;;
     write (updateWebsiteAnalysisStatus id completed None))
      (updateWebsiteAnalysisStatus id analyzing None db) = (db', Ok tt)
    /\ getWebsiteAnalysis id db'
       = Some (completed_row (getWebsiteAnalysis id db) url content
                 (now db + 2 + length (logged P id urls))%nat)
    /\ pages_of id db' = (pages_of id db ++ logged P id urls)%list.
Proof.
  set (db1 := updateWebsiteAnalysisStatus id analyzing None db).
  set (patch := mkPatch url (Some completed) (Some content)).
  destruct (save_pages_run P id urls (upsertWebsiteAnalysis id patch db1))
    as (db2 & Hsave & Hpages & Hget & Hnow).
  eexists. run. rewrite Hsave. split; [reflexivity|]. split.
  - rewrite get_after_update, Hget, Hnow.
    unfold getWebsiteAnalysis at 1, upsertWebsiteAnalysis. cbn [website_analysis].
    rewrite lookup_insert_eq. subst db1. rewrite get_after_update. unfold completed_row.
    cbn [now updateWebsiteAnalysisStatus upsertWebsiteAnalysis].
    replace (S (S (now db)) + length (logged P id urls))%nat
      with (now db + 2 + length (logged P id urls))%nat by lia.
    destruct (getWebsiteAnalysis id db); reflexivity.
  - rewrite pages_after_update, Hpages, pages_after_upsert. subst db1.
    now rewrite pages_after_update.
Qed.

(** Every way a run of [analyzeWebsite] can go. *)
Lemma analyzeWebsite_outcome {Profile} (P : Platform Profile) websiteUrl id key db :
  let db1 := updateWebsiteAnalysisStatus id analyzing None db in
  let failure e := (updateWebsiteAnalysisStatus id failed (Some (emessage e)) db1,
                    @Throw unit e) in
  let out := analyzeWebsite P websiteUrl id key db in
  match Fetcher.scrapeWebsite P websiteUrl with
  | Throw e => out = failure e
  | Ok homepageContent =>
      match Fetcher.fetchPageHtml P websiteUrl with
      | Throw e => out = failure e
      | Ok homepageHtml =>
          match Discovery.findImportantPages P websiteUrl homepageHtml with
          | Throw e => out = failure e
          | Ok additionalPages =>
              match analyzeWithOpenAI P (site_text P homepageContent additionalPages) key with
              | Throw e => out = failure e
              | Ok profile =>
                  exists db',
                    out = (db', Ok tt)
                    /\ getWebsiteAnalysis id db'
                       = Some (completed_row (getWebsiteAnalysis id db) (Some websiteUrl)
                                 (JSON_stringify P profile)
                                 (now db + 2
                                  + length (logged P id (websiteUrl :: additionalPages)))%nat)
                    /\ pages_of id db'
                       = (pages_of id db ++ logged P id (websiteUrl :: additionalPages))%list
              end
          end
      end
  end.
Proof.
  intros db1 failure out. subst out failure. unfold analyzeWebsite, site_text.
  assert (Hfin := fun profile additionalPages =>
            finish_row P id (Some websiteUrl) (JSON_stringify P profile)
              (websiteUrl :: additionalPages) db).
  fold db1 in Hfin. revert Hfin. run. intros Hfin.
  destruct (Fetcher.scrapeWebsite P websiteUrl) as [homepageContent|e]; [|reflexivity].
  destruct (Fetcher.fetchPageHtml P websiteUrl) as [homepageHtml|e]; [|reflexivity].
  destruct (Discovery.findImportantPages P websiteUrl homepageHtml) as [additionalPages|e];
    [|reflexivity].
  cbv beta iota zeta.
  destruct (analyzeWithOpenAI P _ key) as [profile|e]; [|reflexivity].
  destruct (Hfin profile additionalPages) as (db' & Hrun & Hget & Hlog).
  exists db'. cbv beta iota. fold db1. rewrite Hrun. auto.
Qed.

(** Every way a run of [analyzeWebsitePages] can go. *)
Lemma analyzeWebsitePages_outcome {Profile} (P : Platform Profile)
    pageUrls id key appendMode db :
  let db1 := updateWebsiteAnalysisStatus id analyzing None db in
  let out := analyzeWebsitePages P pageUrls id key appendMode db in
  if String.eqb (trim (pages_text P pageUrls)) EmptyString
  then out = (updateWebsiteAnalysisStatus id failed (Some (emessage ScrapeFailed)) db1,
              Throw ScrapeFailed)
  else
    match synthesize P (existing_profile P id appendMode db1) appendMode
            (pages_text P pageUrls) key with
    | Throw e => out = (updateWebsiteAnalysisStatus id failed (Some (emessage e)) db1, Throw e)
    | Ok profile =>
        match page_texts pageUrls with
        | Throw e =>
            out = (updateWebsiteAnalysisStatus id failed (Some (emessage e))
                     (upsertWebsiteAnalysis id
                        (mkPatch (as_column <$> head pageUrls) (Some completed)
                           (Some (JSON_stringify P profile))) db1),
                   Throw e)
        | Ok texts =>
            exists db',
              out = (db', Ok tt)
              /\ getWebsiteAnalysis id db'
                 = Some (completed_row (getWebsiteAnalysis id db) (as_column <$> head pageUrls)
                           (JSON_stringify P profile)
                           (now db + 2 + length (logged P id texts))%nat)
              /\ pages_of id db' = (pages_of id db ++ logged P id texts)%list
        end
    end.
Proof.
  intros db1 out. subst out. unfold analyzeWebsitePages, pages_text.
  assert (Hfin := fun profile texts =>
            finish_row P id (as_column <$> head pageUrls) (JSON_stringify P profile) texts db).
  fold db1 in Hfin. revert Hfin. run. cbv beta zeta. intros Hfin. fold db1.
  destruct (String.eqb _ _); [reflexivity|]. cbv beta iota.
  destruct (synthesize P _ appendMode _ key) as [profile|e]; [|reflexivity].
  cbv beta iota.
  destruct (page_texts pageUrls) as [texts|e]; [|reflexivity].
  destruct (Hfin profile texts) as (db' & Hrun & Hget & Hlog).
  exists db'. cbv beta iota. rewrite Hrun. auto.
Qed.

(** C5.  The shop of the scenario: the home page is scraped, the About
    page times out and the Contact page answers 404.  The run completes,
    and the log of analyzed pages of the account then holds three rows, two
    of them for the pages that were never scraped -- not the home page
    alone. *)
Theorem analyzeWebsite_logs_failed_pages :
  let P := Worlds.shop_world in
  let url := "https://shop.example" in
  let out := analyzeWebsite P url "acct-1" "sk-test" (Worlds.pending_db "acct-1" url) in
  Fetcher.scrapeWebsite P url = Ok Worlds.shop_home
  /\ Fetcher.scrapeWebsite P "https://shop.example/about" = Throw Fetcher.TimedOut
  /\ Fetcher.scrapeWebsite P "https://shop.example/contact" = Throw Fetcher.Unreachable
  /\ snd out = Ok tt
  /\ (status <$> getWebsiteAnalysis "acct-1" (fst out)) = Some completed
  /\ pages_of "acct-1" (fst out)
     = ["https://shop.example"; "https://shop.example/about"; "https://shop.example/contact"]
  /\ pages_of "acct-1" (fst out) <> ["https://shop.example"].
Proof.
  intros P url out.
  split; [reflexivity|]. split; [reflexivity|]. split; [reflexivity|].
  split; [vm_compute; reflexivity|]. split; [vm_compute; reflexivity|].
  assert (Hlog : pages_of "acct-1" (fst out)
     = ["https://shop.example"; "https://shop.example/about"; "https://shop.example/contact"])
    by (vm_compute; reflexivity).
  split; [exact Hlog|]. rewrite Hlog. discriminate.
Qed.

Lemma existing_profile_none {Profile} (P : Platform Profile) id db :
  (getWebsiteAnalysis id db = None
   \/ exists row, getWebsiteAnalysis id db = Some row /\ or_null (analyzedContent row) = None) ->
  existing_profile P id true (updateWebsiteAnalysisStatus id analyzing None db) = None.
Proof.
  intros H. unfold existing_profile. rewrite get_after_update.
  destruct H as [-> | (row & -> & Hnull)]; [reflexivity|]. cbn.
  destruct (analyzedContent row) as [[|c s]|]; try reflexivity. discriminate.
Qed.

(** Append mode makes no difference when no stored profile is found. *)
Lemma analyzeWebsitePages_no_profile {Profile} (P : Platform Profile)
    pageUrls id key db :
  existing_profile P id true (updateWebsiteAnalysisStatus id analyzing None db) = None ->
  analyzeWebsitePages P pageUrls id key true db
  = analyzeWebsitePages P pageUrls id key false db.
Proof.
  intros Hnone. unfold analyzeWebsitePages. run. cbv beta zeta.
  destruct (String.eqb _ _); [reflexivity|]. cbv beta iota. rewrite Hnone. reflexivity.
Qed.

(** C8.  For an account with no analysis row, or with a row that holds no
    analyzed content, [analyzeWebsitePages] in append mode is the same
    computation as in replace mode -- same final database, same outcome.
    When some page is scraped and the model call succeeds, the profile
    saved is the one [analyzeWithOpenAI] returns for the scraped text:
    [mergeAnalysisData] is not called.  The run then ends normally with the
    row completed when the list holds strings, as its type says; on a list
    with an element that is not a string both runs throw in Step 5 and
    leave the row failed. *)
Theorem append_without_profile_is_replace {Profile} (P : Platform Profile)
    pageUrls id key db :
  (getWebsiteAnalysis id db = None
   \/ exists row, getWebsiteAnalysis id db = Some row /\ or_null (analyzedContent row) = None) ->
  analyzeWebsitePages P pageUrls id key true db
  = analyzeWebsitePages P pageUrls id key false db
  /\ forall profile,
      let combinedContent := fold_left (add_listed_page P) pageUrls EmptyString in
      trim combinedContent <> EmptyString ->
      analyzeWithOpenAI P combinedContent key = Ok profile ->
      snd (analyzeWebsitePages P pageUrls id key true db)
      = match page_texts pageUrls with
        | Ok _ => Ok tt
        | Throw e => Throw e
        end
      /\ exists row,
          getWebsiteAnalysis id (fst (analyzeWebsitePages P pageUrls id key true db)) = Some row
          /\ status row = match page_texts pageUrls with
                          | Ok _ => completed
                          | Throw _ => failed
                          end
          /\ analyzedContent row = Some (JSON_stringify P profile).
Proof.
  intros Hrow.
  pose proof (existing_profile_none P id db Hrow) as Hnone.
  split; [now apply analyzeWebsitePages_no_profile|].
  intros profile combinedContent Hsome Hai.
  pose proof (analyzeWebsitePages_outcome P pageUrls id key true db) as Hout.
  cbv zeta in Hout. fold (pages_text P pageUrls) in combinedContent. fold combinedContent in Hout.
  destruct (String.eqb_spec (trim combinedContent) EmptyString) as [E|_]; [contradiction|].
  rewrite Hnone in Hout. cbn [synthesize] in Hout. rewrite Hai in Hout.
  destruct (page_texts pageUrls) as [texts|e].
  - destruct Hout as (db' & -> & Hget & _). cbn [fst snd]. split; [reflexivity|].
    eexists. split; [exact Hget|]. split; reflexivity.
  - rewrite Hout. cbn [fst snd]. split; [reflexivity|].
    rewrite get_after_update.
    destruct (get_after_upsert id
                (mkPatch (as_column <$> head pageUrls) (Some completed)
                   (Some (JSON_stringify P profile)))
                (updateWebsiteAnalysisStatus id analyzing None db))
      as (row & -> & _ & Hc).
    eexists. split; [reflexivity|]. cbn. split; [reflexivity|]. now apply Hc.
Qed.

Lemma append_without_profile_is_replace_witness :
  let P := Worlds.shop_world in
  let pageUrls := [Text "https://shop.example/"] in
  getWebsiteAnalysis "acct-1" Worlds.empty_db = None
  /\ analyzeWebsitePages P pageUrls "acct-1" "sk-test" true Worlds.empty_db
     = analyzeWebsitePages P pageUrls "acct-1" "sk-test" false Worlds.empty_db.
Proof.
  intros P pageUrls.
  assert (H : getWebsiteAnalysis "acct-1" Worlds.empty_db = None) by reflexivity.
  exact (conj H (proj1 (append_without_profile_is_replace P pageUrls "acct-1" "sk-test"
                          Worlds.empty_db (or_introl H)))).
Defined.

Section RowInvariants.
Context (id : string).

Lemma keeps_bind {A B} (m : M A) (k : A -> M B) :
  keeps_row id m -> (forall a, keeps_row id (k a)) -> keeps_row id (m ≫= k).
Proof.
  intros Hm Hk db H. specialize (Hm db H). unfold mbind, M_bind, bind.
  destruct (m db) as [db1 [a|e]]; cbn [fst] in *; [now apply Hk | exact Hm].
Qed.

Lemma keeps_await {A} (r : result A) : keeps_row id (await r).
Proof. intros db H. exact H. Qed.

Lemma keeps_read {A} (f : Db -> A) : keeps_row id (read f).
Proof. intros db H. exact H. Qed.

Lemma keeps_ret {A} (a : A) : keeps_row id (ret a).
Proof. intros db H. exact H. Qed.

Lemma keeps_throw {A} e : keeps_row id (@throw A e).
Proof. intros db H. exact H. Qed.

Lemma keeps_update st message :
  keeps_row id (write (updateWebsiteAnalysisStatus id st message)).
Proof. intros db H. now apply update_keeps_row. Qed.

Lemma keeps_upsert patch : keeps_row id (write (upsertWebsiteAnalysis id patch)).
Proof.
  intros db _. destruct (get_after_upsert id patch db) as (row & Hrow & _).
  cbn [write fst]. rewrite Hrow. eauto.
Qed.

Lemma keeps_save {Profile} (P : Platform Profile) urls : keeps_row id (save_pages P id urls).
Proof.
  intros db H. destruct (save_pages_run P id urls db) as (db' & Hrun & _ & Hget & _).
  rewrite Hrun. cbn [fst]. now rewrite Hget.
Qed.

Lemma done_bind {A B} (m : M A) (k : A -> M B) :
  (forall a, ends_completed id (k a)) -> ends_completed id (m ≫= k).
Proof.
  intros Hk db. unfold mbind, M_bind, bind.
  destruct (m db) as [db1 [a|e]]; cbn [fst snd].
  - apply Hk.
  - intros [b Hb]. discriminate.
Qed.

(** Once the profile is saved, a normal end leaves the row completed,
    whatever is read in between. *)
Lemma done_finish {Profile} (P : Platform Profile) patch (texts : result (list string)) :
  ends_completed id
    (write (upsertWebsiteAnalysis id patch) ;;
     urls ← await texts;
     save_pages P id urls ;;
     write (updateWebsiteAnalysisStatus id completed None)).
Proof.
  intros db. run. destruct texts as [urls|e]; cbn [fst snd]; [|intros [a Ha]; discriminate].
  intros _.
  destruct (get_after_upsert id patch db) as (row & Hrow & _).
  destruct (save_pages_run P id urls (upsertWebsiteAnalysis id patch db))
    as (db2 & Hsave & _ & Hget & _).
  rewrite Hsave. cbn [fst].
  rewrite get_after_update, Hget, Hrow. eexists. split; reflexivity.
Qed.

End RowInvariants.

Lemma analyzeWebsite_settled {Profile} (P : Platform Profile) websiteUrl id key db :
  settled id db (analyzeWebsite P websiteUrl id key db).
Proof.
  unfold analyzeWebsite. apply settled_try_catch.
  - apply keeps_bind; [apply keeps_update | intros _].
    apply keeps_bind; [apply keeps_await | intros homepageContent].
    apply keeps_bind; [apply keeps_await | intros homepageHtml].
    apply keeps_bind; [apply keeps_await | intros additionalPages]. cbv zeta.
    apply keeps_bind; [apply keeps_await | intros analyzedContent].
    apply keeps_bind; [apply keeps_upsert | intros _].
    apply keeps_bind; [apply keeps_save | intros _].
    apply keeps_update.
  - intros Hok. eapply done_bind; [|eauto]. intros _.
    apply done_bind. intros homepageContent.
    apply done_bind. intros homepageHtml.
    apply done_bind. intros additionalPages. cbv zeta.
    apply done_bind. intros analyzedContent.
    apply (done_finish id P _ (Ok (websiteUrl :: additionalPages))).
Qed.

Lemma analyzeWebsitePages_settled {Profile} (P : Platform Profile)
    pageUrls id key appendMode db :
  settled id db (analyzeWebsitePages P pageUrls id key appendMode db).
Proof.
  unfold analyzeWebsitePages. apply settled_try_catch.
  - apply keeps_bind; [apply keeps_update | intros _]. cbv zeta.
    apply keeps_bind; [destruct (String.eqb _ _); [apply keeps_throw | apply keeps_ret] | intros _].
    apply keeps_bind; [apply keeps_read | intros existingData].
    apply keeps_bind; [apply keeps_await | intros analyzedContent].
    apply keeps_bind; [apply keeps_upsert | intros _].
    apply keeps_bind; [apply keeps_await | intros texts].
    apply keeps_bind; [apply keeps_save | intros _].
    apply keeps_update.
  - intros Hok. eapply done_bind; [|eauto]. intros _. cbv zeta.
    apply done_bind. intros _.
    apply done_bind. intros existingData.
    apply done_bind. intros analyzedContent.
    apply done_finish.
Qed.

Lemma no_page_scraped {Profile} (P : Platform Profile) pageUrls : forall combinedContent,
  Forall (fun u => exists e, scrape_item P u = Throw e) pageUrls ->
  fold_left (add_listed_page P) pageUrls combinedContent = combinedContent.
Proof.
  induction pageUrls as [|u rest IH]; intros acc Hall; [reflexivity|].
  inversion Hall as [|? ? (e & He) Hrest]; subst. cbn [fold_left].
  unfold add_listed_page at 2. rewrite He. now apply IH.
Qed.

(** C9.  Every run of [analyzeWebsite] and of [analyzeWebsitePages] leaves
    the row of the account, when there is one, completed or failed and
    never analyzing: after a normal end the row exists and is completed;
    after a throw the row is failed and its error message is the message
    of the error thrown (null for an empty message), written by the
    [catch] of the method itself before the error is passed on; a row
    present before the run -- the HTTP layer saves one before it starts
    the run -- is present after it.  A failing home page makes
    [analyzeWebsite] throw that error; when none of the listed pages can be
    scraped, [analyzeWebsitePages] throws "Failed to scrape any pages". *)
Theorem status_never_left_analyzing {Profile} (P : Platform Profile) id key db :
  (forall websiteUrl, settled id db (analyzeWebsite P websiteUrl id key db))
  /\ (forall pageUrls appendMode,
        settled id db (analyzeWebsitePages P pageUrls id key appendMode db))
  /\ (forall websiteUrl e,
        Fetcher.scrapeWebsite P websiteUrl = Throw e ->
        snd (analyzeWebsite P websiteUrl id key db) = Throw e)
  /\ (forall pageUrls appendMode,
        Forall (fun u => exists e, scrape_item P u = Throw e) pageUrls ->
        snd (analyzeWebsitePages P pageUrls id key appendMode db) = Throw ScrapeFailed).
Proof.
  split; [|split; [|split]].
  - intros websiteUrl. apply analyzeWebsite_settled.
  - intros pageUrls appendMode. apply analyzeWebsitePages_settled.
  - intros websiteUrl e He. unfold analyzeWebsite. run. rewrite He. reflexivity.
  - intros pageUrls appendMode Hall. unfold analyzeWebsitePages. run. cbv beta zeta.
    rewrite (no_page_scraped P pageUrls EmptyString Hall). reflexivity.
Qed.

Lemma status_never_left_analyzing_witness :
  let P := Worlds.shop_world in
  let pageUrls := [Text "https://shop.example/about"; Text "https://shop.example/contact"] in
  let db := Worlds.pending_db "acct-1" "https://shop.example" in
  Forall (fun u => exists e, scrape_item P u = Throw e) pageUrls
  /\ snd (analyzeWebsitePages P pageUrls "acct-1" "sk-test" false db) = Throw ScrapeFailed
  /\ settled "acct-1" db (analyzeWebsitePages P pageUrls "acct-1" "sk-test" false db).
Proof.
  intros P pageUrls db.
  assert (Hall : Forall (fun u => exists e, scrape_item P u = Throw e) pageUrls).
  { repeat constructor; eexists; reflexivity. }
  pose proof (status_never_left_analyzing P "acct-1" "sk-test" db) as (_ & Hpages & _ & Hnone).
  exact (conj Hall (conj (Hnone pageUrls false Hall) (Hpages pageUrls false))).
Defined.

(** The failed run of the example, row by row. *)
Example failed_run_is_recorded :
  let out := analyzeWebsitePages Worlds.shop_world
               [Text "https://shop.example/about"; Text "https://shop.example/contact"]
               "acct-1" "sk-test" false
               (Worlds.pending_db "acct-1" "https://shop.example") in
  (status <$> getWebsiteAnalysis "acct-1" (fst out)) = Some failed
  /\ (errorMessage <$> getWebsiteAnalysis "acct-1" (fst out))
     = Some (Some "Failed to scrape any pages")
  /\ pages_of "acct-1" (fst out) = [].
Proof. repeat split; vm_compute; reflexivity. Qed.

End OrchestratorProps.

(** ** More on HostPolicy and UrlGuard *)

Module GuardMore.
Import JS HostPolicy UrlGuard Shapes HostPolicyProps UrlGuardProps.

Lemma ipv6_special_true ip : ipv6_special ip = true <-> ipv6_form ip.
Proof.
  unfold ipv6_special, ipv6_form. cbv zeta.
  rewrite !orb_true_iff, !String.eqb_eq. tauto.
Qed.

(** [isPrivateIP] answers [true] exactly on the IPv6 special forms and on
    the dotted quads that have an octet above 255 or lie in a blocked
    range. *)
Theorem isPrivateIP_true_iff ip :
  isPrivateIP ip = true <->
  ipv6_form ip
  \/ exists sa sb sc sd,
       octet_text sa = true /\ octet_text sb = true /\
       octet_text sc = true /\ octet_text sd = true /\
       ip = dotted sa sb sc sd
       /\ (255 < Number sa \/ 255 < Number sb \/ 255 < Number sc \/ 255 < Number sd
           \/ in_blocked_range (ipv4_addr (Number sa) (Number sb) (Number sc) (Number sd))
              = true).
Proof.
  split.
  - unfold isPrivateIP.
    destruct (ipv4Match ip) as [[[[a b] c] d]|] eqn:Hm;
      [|intros H; left; now apply ipv6_special_true].
    destruct (ipv4Match_sound _ _ Hm) as (sa & sb & sc & sd & Ha & Hb & Hc & Hd & ->).
    rewrite ipv4Match_dotted in Hm by assumption. inversion Hm; subst a b c d; clear Hm.
    pose proof (Number_nonneg _ Ha). pose proof (Number_nonneg _ Hb).
    pose proof (Number_nonneg _ Hc). pose proof (Number_nonneg _ Hd).
    destruct ((255 <? Number sa) || (255 <? Number sb) || (255 <? Number sc)
              || (255 <? Number sd)) eqn:Hbig.
    + intros _. right. exists sa, sb, sc, sd. repeat (split; [assumption|]).
      split; [reflexivity|].
      rewrite !orb_true_iff, !Z.ltb_lt in Hbig. tauto.
    + rewrite !orb_false_iff, !Z.ltb_ge in Hbig.
      destruct (ipv4_private _ _ _ _) eqn:Hp.
      * intros _. right. exists sa, sb, sc, sd. repeat (split; [assumption|]).
        split; [reflexivity|]. do 4 right.
        rewrite <- ipv4_private_ranges by (unfold octets; lia). exact Hp.
      * intros Hsix. left. now apply ipv6_special_true.
  - intros [H6 | (sa & sb & sc & sd & Ha & Hb & Hc & Hd & -> & Hr)].
    + apply ipv6_special_true in H6. unfold isPrivateIP.
      destruct (ipv4Match ip) as [[[[a b] c] d]|]; [|exact H6].
      destruct (_ || _); [reflexivity|]. destruct (ipv4_private _ _ _ _); auto.
    + unfold isPrivateIP. rewrite ipv4Match_dotted by assumption.
      pose proof (Number_nonneg _ Ha). pose proof (Number_nonneg _ Hb).
      pose proof (Number_nonneg _ Hc). pose proof (Number_nonneg _ Hd).
      destruct ((255 <? Number sa) || (255 <? Number sb) || (255 <? Number sc)
                || (255 <? Number sd)) eqn:Hbig; [reflexivity|].
      rewrite !orb_false_iff, !Z.ltb_ge in Hbig.
      destruct Hr as [Hr|[Hr|[Hr|[Hr|Hr]]]]; try lia.
      rewrite ipv4_private_ranges by (unfold octets; lia). now rewrite Hr.
Qed.

Lemma check_addresses_ok_inv allAddresses :
  check_addresses allAddresses = Ok tt ->
  Forall (fun addr => isPrivateIP addr = false) allAddresses.
Proof.
  induction allAddresses as [|a rest IH]; simpl; [constructor|].
  destruct (isPrivateIP a) eqn:Ha; [discriminate|]. intros H. constructor; auto.
Qed.

Lemma check_addresses_throws allAddresses e :
  check_addresses allAddresses = Throw e -> e = DnsRebindingBlocked.
Proof.
  induction allAddresses as [|a rest IH]; simpl; [discriminate|].
  destruct (isPrivateIP a); [intros H; now inversion H | exact IH].
Qed.

Lemma resolve_and_check_ok_iff {Profile} (P : Platform Profile) host :
  resolve_and_check P host = Ok tt <->
  resolved P host <> [] /\ Forall (fun addr => isPrivateIP addr = false) (resolved P host).
Proof.
  unfold resolve_and_check, resolved.
  destruct (or_empty (dns_resolve4 P host) ++ or_empty (dns_resolve6 P host))%list
    as [|a rest] eqn:E.
  - cbn. split; [discriminate | intros [H _]; congruence].
  - change (Z.of_nat (length (a :: rest)) =? 0) with false. cbv iota. split.
    + intros H. split; [discriminate | now apply check_addresses_ok_inv].
    + intros [_ H]. now apply check_addresses_clear.
Qed.

Lemma resolve_and_check_throws {Profile} (P : Platform Profile) host e :
  resolve_and_check P host = Throw e ->
  (e = UnresolvableHost /\ resolved P host = [])
  \/ (e = DnsRebindingBlocked /\ resolved P host <> []).
Proof.
  unfold resolve_and_check, resolved.
  destruct (or_empty (dns_resolve4 P host) ++ or_empty (dns_resolve6 P host))%list
    as [|a rest] eqn:E.
  - cbn. intros H; inversion H. now left.
  - change (Z.of_nat (length (a :: rest)) =? 0) with false. cbv iota.
    intros H. apply check_addresses_throws in H. right. split; [exact H | discriminate].
Qed.

(** [validateUrl] returns a URL exactly when the text, with https:// put
    in front if it has no http scheme, parses to that URL; the scheme is
    http or https; the lower-cased host is not localhost, does not contain
    "metadata" and passes the private-address test on the host text; and
    the A and AAAA answers together are not empty and contain no address
    that [isPrivateIP] blocks. *)
Theorem validateUrl_accepts_iff {Profile} (P : Platform Profile) url u :
  validateUrl P url = Ok u <->
  URL_parse P (with_scheme url) = Some u
  /\ (protocol u = "http:" \/ protocol u = "https:")
  /\ toLowerCase (hostname u) <> "localhost"
  /\ includes (toLowerCase (hostname u)) "metadata" = false
  /\ (isPrivateIP (stripBrackets (toLowerCase (hostname u))) = false
      \/ (isPrivateIP (toLowerCase (hostname u)) = false
          /\ includes (toLowerCase (hostname u)) ":" = false))
  /\ resolved P (toLowerCase (hostname u)) <> []
  /\ Forall (fun addr => isPrivateIP addr = false) (resolved P (toLowerCase (hostname u))).
Proof.
  unfold validateUrl.
  destruct (URL_parse P (with_scheme url)) as [parsedUrl|] eqn:Hparse;
    [|split; [discriminate | intros [H _]; discriminate]].
  set (host := toLowerCase (hostname parsedUrl)).
  destruct (String.eqb_spec (protocol parsedUrl) "http:") as [Hh|Hh];
    destruct (String.eqb_spec (protocol parsedUrl) "https:") as [Hs|Hs]; cbn [negb andb];
    try (destruct (String.eqb_spec host "localhost") as [Hl|Hl];
         [split; [discriminate | intros (Hu & _ & Hn & _); inversion Hu; subst; contradiction]|];
         destruct (includes host "metadata") eqn:Hmeta;
         [split; [discriminate | intros (Hu & _ & _ & Hn & _); inversion Hu; subst;
                                   fold host in Hn; congruence]|];
         destruct ((isPrivateIP host || includes host ":") && isPrivateIP (stripBrackets host))
           eqn:Hip;
         [split; [discriminate|];
          intros (Hu & _ & _ & _ & Hn & _); inversion Hu; subst; fold host in Hn;
          apply andb_prop in Hip as [H1 H2]; apply orb_prop in H1;
          destruct Hn as [Hn|[Hn1 Hn2]]; [congruence | destruct H1; congruence]|];
         destruct (resolve_and_check P host) as [[]|e] eqn:Hdns;
         [apply resolve_and_check_ok_iff in Hdns as [Hne Hall]; split;
          [intros Hu; inversion Hu; subst; fold host; repeat split; auto;
           apply andb_false_iff in Hip as [Hip|Hip]; [right|left; exact Hip];
           apply orb_false_iff in Hip; exact Hip
          |intros (Hu & _); inversion Hu; reflexivity]
         |split; [discriminate|];
          intros (Hu & _ & _ & _ & _ & Hne & Hall); inversion Hu; subst; fold host in Hne, Hall;
          assert (Hok : resolve_and_check P host = Ok tt)
            by (apply resolve_and_check_ok_iff; auto);
          congruence]).
  split; [discriminate|]. intros (Hu & [Hp|Hp] & _); inversion Hu; subst; contradiction.
Qed.

(** Whatever [validateUrl] throws is one of its seven own errors; the
    replacement error of the [catch] around the lookups, "Unable to
    resolve hostname. Please check the URL.", is never thrown, because the
    lookups themselves cannot throw past their own [catch]. *)
Theorem validateUrl_error_set {Profile} (P : Platform Profile) url e :
  validateUrl P url = Throw e ->
  e ∈ guard_errors /\ e <> ResolutionFailed.
Proof.
  intros H.
  assert (Hin : e ∈ guard_errors).
  { revert H. unfold validateUrl, guard_errors.
    destruct (URL_parse P (with_scheme url)) as [parsedUrl|];
      [|intros H; inversion H; set_solver].
    destruct (_ && _); [intros H; inversion H; set_solver|].
    destruct (String.eqb _ "localhost"); [intros H; inversion H; set_solver|].
    destruct (includes _ "metadata"); [intros H; inversion H; set_solver|].
    destruct (_ && _); [intros H; inversion H; set_solver|].
    destruct (resolve_and_check P _) as [[]|e'] eqn:Hdns; [discriminate|].
    intros H; inversion H; subst.
    apply resolve_and_check_throws in Hdns as [[-> _]|[-> _]]; cbn; set_solver. }
  split; [exact Hin|]. intros ->. unfold guard_errors in Hin.
  repeat (apply elem_of_cons in Hin as [Hin|Hin]; [discriminate|]). inversion Hin.
Qed.

Lemma validateUrl_error_set_witness :
  validateUrl Worlds.rebinding_world "https://fd.io" = Throw BlockedPrivateIP
  /\ BlockedPrivateIP ∈ guard_errors /\ BlockedPrivateIP <> ResolutionFailed.
Proof.
  assert (H : validateUrl Worlds.rebinding_world "https://fd.io" = Throw BlockedPrivateIP)
    by reflexivity.
  exact (conj H (validateUrl_error_set Worlds.rebinding_world "https://fd.io" _ H)).
Defined.

End GuardMore.

(** ** More on the fetcher *)

Module FetcherMore.
Import JS Http UrlGuard Fetcher Shapes HostPolicyProps FetcherProps.

Lemma append_assoc (a b c : string) : (a ++ b) ++ c = a ++ b ++ c.
Proof.
  induction a as [|x a IH]; [reflexivity|].
  now rewrite !append_cons, IH.
Qed.

Lemma rev_onto_spec s : forall acc, rev_onto acc s = rev s ++ acc.
Proof.
  unfold rev. induction s as [|c s IH]; intros acc; [reflexivity|].
  cbn [rev_onto]. rewrite (IH (String c acc)), (IH (String c EmptyString)).
  now rewrite append_assoc.
Qed.

Lemma rev_app a b : rev (a ++ b) = rev b ++ rev a.
Proof.
  induction a as [|c a IH].
  - now rewrite append_nil_l, append_nil_r.
  - rewrite append_cons. unfold rev at 1 3. cbn [rev_onto].
    rewrite !rev_onto_spec, IH. now rewrite append_assoc.
Qed.

Lemma rev_involutive s : rev (rev s) = s.
Proof.
  induction s as [|c s IH]; [reflexivity|].
  unfold rev at 2. cbn [rev_onto]. rewrite rev_onto_spec, rev_app, IH. reflexivity.
Qed.

Lemma trimStart_suffix s : exists w, s = w ++ trimStart s.
Proof.
  induction s as [|c s [w IH]]; [now exists EmptyString|].
  cbn [trimStart]. destruct (is_space c).
  - exists (String c w). now rewrite append_cons, <- IH.
  - now exists EmptyString.
Qed.

(** Trimming the end keeps a prefix. *)
Lemma trimEnd_prefix t : exists w, t = rev (trimStart (rev t)) ++ w.
Proof.
  destruct (trimStart_suffix (rev t)) as [w Hw].
  exists (rev w). rewrite <- rev_app, <- Hw. now rewrite rev_involutive.
Qed.

Lemma take_prefix s : forall n, exists w, s = take n s ++ w.
Proof.
  induction s as [|c s IH]; intros n; [now exists EmptyString|].
  cbn [take]. destruct (n =? 0)%N.
  - now exists (String c s).
  - destruct (IH (N.pred n)) as [w Hw]. exists w. now rewrite append_cons, <- Hw.
Qed.

Lemma take_length s : forall n, (N.of_nat (String.length (take n s)) <= n)%N.
Proof.
  induction s as [|c s IH]; intros n; cbn [take]; [simpl; lia|].
  destruct (N.eqb_spec n 0); [simpl; lia|].
  specialize (IH (N.pred n)). simpl String.length. lia.
Qed.

Lemma single_spaced_collapse s : forall r, single_spaced r (collapse_spaces r s) = true.
Proof.
  induction s as [|c s IH]; intros r; [reflexivity|].
  cbn [collapse_spaces]. destruct (is_space c) eqn:Hc.
  - destruct r; [apply IH|].
    cbn [single_spaced]. change (is_space " ") with true. cbv iota.
    rewrite IH. reflexivity.
  - cbn [single_spaced]. rewrite Hc. apply IH.
Qed.

Lemma single_spaced_trimStart s : forall b,
  single_spaced b s = true -> single_spaced true (trimStart s) = true.
Proof.
  induction s as [|c s IH]; intros b H; [reflexivity|].
  cbn [trimStart]. cbn [single_spaced] in H. destruct (is_space c) eqn:Hc.
  - apply andb_prop in H as [_ H]. now apply (IH true).
  - cbn [single_spaced]. now rewrite Hc.
Qed.

Lemma single_spaced_prefix p : forall b q,
  single_spaced b (p ++ q) = true -> single_spaced b p = true.
Proof.
  induction p as [|c p IH]; intros b q H; [reflexivity|].
  rewrite append_cons in H. cbn [single_spaced] in *.
  destruct (is_space c).
  - apply andb_prop in H as [H1 H2]. rewrite H1. now apply (IH true q).
  - now apply (IH false q).
Qed.

(** The clean-up at the end of [scrapeWebsite]. *)
Lemma cleaned_shape fullContent :
  let cleaned := take 25000 (trim (collapse_spaces false fullContent)) in
  (N.of_nat (String.length cleaned) <= 25000)%N /\ single_spaced true cleaned = true.
Proof.
  cbv zeta. split; [apply take_length|].
  set (x := collapse_spaces false fullContent).
  assert (H1 : single_spaced true (trimStart x) = true)
    by (apply (single_spaced_trimStart x false), single_spaced_collapse).
  unfold trim.
  destruct (trimEnd_prefix (trimStart x)) as [w Hw].
  rewrite Hw in H1. apply single_spaced_prefix in H1.
  destruct (take_prefix (rev (trimStart (rev (trimStart x)))) 25000) as [w' Hw'].
  rewrite Hw' in H1. now apply single_spaced_prefix in H1.
Qed.

Lemma scrape_attempt_ok_shape {Profile} (P : Platform Profile) validatedUrl content :
  scrape_attempt P validatedUrl = Ok content ->
  exists fullContent, content = take 25000 (trim (collapse_spaces false fullContent)).
Proof.
  unfold scrape_attempt.
  destruct (fetch _ _ _ _) as [response|]; [|discriminate].
  destruct (is_redirect response); [discriminate|].
  destruct (negb (ok response)); [discriminate|].
  destruct (_ || _); [discriminate|].
  destruct (declared_over _ _); [discriminate|].
  destruct (body response) as [stream|]; [|discriminate].
  destruct (thrown (read_all stream)); [discriminate|].
  intros H; inversion H. eauto.
Qed.

(** What the two fetch paths hand over on success: [scrapeWebsite] a text
    of at most 25000 characters in which white space occurs only as single
    blanks, and not at the start; [fetchPageHtml] at most 500000
    characters. *)
Theorem fetched_text_is_bounded {Profile} (P : Platform Profile) url :
  (forall content,
      Fetcher.scrapeWebsite P url = Ok content ->
      (N.of_nat (String.length content) <= 25000)%N
      /\ single_spaced true content = true)
  /\ (forall html,
        fetchPageHtml P url = Ok html ->
        (N.of_nat (String.length html) <= 500000)%N).
Proof.
  split.
  - intros content. unfold scrapeWebsite.
    destruct (validateUrl P url) as [v|]; [|discriminate].
    destruct (scrape_attempt P v) as [c|] eqn:Ha; [|discriminate].
    intros H; inversion H; subst.
    destruct (scrape_attempt_ok_shape P v content Ha) as [full ->].
    apply cleaned_shape.
  - intros html. unfold fetchPageHtml.
    destruct (validateUrl P url) as [v|]; [|discriminate].
    destruct (fetch _ _ _ _) as [response|]; [|discriminate].
    destruct (is_redirect response); [discriminate|].
    destruct (negb (ok response)); [discriminate|].
    destruct (declared_over _ _); [discriminate|].
    intros H; inversion H. apply take_length.
Qed.

Lemma fetched_text_is_bounded_witness :
  let P := Worlds.shop_world in
  let url := "https://shop.example" in
  Fetcher.scrapeWebsite P url = Ok Worlds.shop_home
  /\ fetchPageHtml P url = Ok Worlds.shop_home
  /\ (N.of_nat (String.length Worlds.shop_home) <= 25000)%N
  /\ single_spaced true Worlds.shop_home = true
  /\ (N.of_nat (String.length Worlds.shop_home) <= 500000)%N.
Proof.
  intros P url.
  assert (H1 : Fetcher.scrapeWebsite P url = Ok Worlds.shop_home) by reflexivity.
  assert (H2 : fetchPageHtml P url = Ok Worlds.shop_home) by reflexivity.
  destruct (fetched_text_is_bounded P url) as [Hs Hf].
  destruct (Hs _ H1) as [Hlen Hsp].
  exact (conj H1 (conj H2 (conj Hlen (conj Hsp (Hf _ H2))))).
Defined.

(** For a URL that passes [validateUrl] and a response with a 2xx
    status, a content type that contains text/html, a Content-Length
    header that is absent, unreadable or declares at most 5 MiB, and a
    body: when the streamed body is within the cap -- a body of exactly
    5 MiB included -- it is read to its end: every chunk is kept, in
    order, nothing is thrown, and [scrapeWebsite] returns the cleaned text
    of the whole body.  (A header that declares more than 5 MiB makes the
    method throw before it reads, however small the body.) *)
Theorem scrapeWebsite_reads_body_within_cap {Profile} (P : Platform Profile)
    url validatedUrl response stream :
  validateUrl P url = Ok validatedUrl ->
  fetch P (href validatedUrl) manual 15000 = Ok response ->
  ok response = true ->
  truthy (content_type response) = true ->
  includes (default EmptyString (content_type response)) "text/html" = true ->
  declared_over (content_length response) MAX_SIZE = false ->
  body response = Some stream ->
  stream_bytes stream <= MAX_SIZE ->
  chunks (read_all stream) = stream
  /\ thrown (read_all stream) = None
  /\ totalSize (read_all stream) = stream_bytes stream
  /\ Fetcher.scrapeWebsite P url
     = Ok (take 25000 (trim (collapse_spaces false
             (cheerio_fullContent P (utf8_decode P stream))))).
Proof.
  intros Hv Hf Hok Ht Hhtml Hlen Hbody Hfit.
  assert (Hread : read_all stream
                  = mkRead (length stream) stream (stream_bytes stream) None).
  { unfold read_all. rewrite read_loop_within by (cbn [totalSize]; lia).
    cbn [reads chunks totalSize thrown]. f_equal; try lia. now destruct stream. }
  rewrite Hread. cbn [chunks thrown totalSize]. do 3 (split; [reflexivity|]).
  unfold scrapeWebsite, scrape_attempt.
  rewrite Hv, Hf, (ok_not_redirect _ Hok), Hok, Ht, Hhtml, Hlen, Hbody, Hread.
  reflexivity.
Qed.

Lemma scrapeWebsite_reads_body_within_cap_witness :
  let P := MoreWorlds.full_world in
  let url := "https://full.example/" in
  let validatedUrl :=
    mkURL "https://full.example/" "https:" "full.example" "https://full.example" "/" in
  let response :=
    mkResponse 200 (Some "text/html") None None (Some MoreWorlds.full_stream) in
  validateUrl P url = Ok validatedUrl
  /\ fetch P (href validatedUrl) manual 15000 = Ok response
  /\ ok response = true
  /\ truthy (content_type response) = true
  /\ includes (default EmptyString (content_type response)) "text/html" = true
  /\ declared_over (content_length response) MAX_SIZE = false
  /\ body response = Some MoreWorlds.full_stream
  /\ stream_bytes MoreWorlds.full_stream <= MAX_SIZE
  /\ stream_bytes MoreWorlds.full_stream = MAX_SIZE
  /\ chunks (read_all MoreWorlds.full_stream) = MoreWorlds.full_stream
  /\ thrown (read_all MoreWorlds.full_stream) = None.
Proof.
  intros P url validatedUrl response.
  assert (H1 : validateUrl P url = Ok validatedUrl) by reflexivity.
  assert (H2 : fetch P (href validatedUrl) manual 15000 = Ok response) by reflexivity.
  assert (H3 : ok response = true) by reflexivity.
  assert (H4 : truthy (content_type response) = true) by reflexivity.
  assert (H5 : includes (default EmptyString (content_type response)) "text/html" = true)
    by reflexivity.
  assert (H6 : declared_over (content_length response) MAX_SIZE = false) by reflexivity.
  assert (H7 : body response = Some MoreWorlds.full_stream) by reflexivity.
  assert (H8 : stream_bytes MoreWorlds.full_stream <= MAX_SIZE)
    by (vm_compute; discriminate).
  assert (H9 : stream_bytes MoreWorlds.full_stream = MAX_SIZE) by (vm_compute; reflexivity).
  destruct (scrapeWebsite_reads_body_within_cap P url validatedUrl response
              MoreWorlds.full_stream H1 H2 H3 H4 H5 H6 H7 H8) as (Hc & Ht & _).
  exact (conj H1 (conj H2 (conj H3 (conj H4 (conj H5 (conj H6 (conj H7 (conj H8 (conj H9
           (conj Hc Ht)))))))))).
Defined.

Lemma all_chars_app f (a b : string) :
  WhatwgLite.all_chars f (a ++ b) = WhatwgLite.all_chars f a && WhatwgLite.all_chars f b.
Proof.
  induction a as [|c a IH]; [reflexivity|].
  rewrite append_cons. cbn [WhatwgLite.all_chars]. now rewrite IH, andb_assoc.
Qed.

Lemma all_chars_impl (f g : ascii -> bool) s :
  (forall c, f c = true -> g c = true) ->
  WhatwgLite.all_chars f s = true -> WhatwgLite.all_chars g s = true.
Proof.
  intros Hfg. induction s as [|c s IH]; [reflexivity|].
  cbn [WhatwgLite.all_chars]. intros H. apply andb_prop in H as [Hc Hs].
  now rewrite (Hfg c Hc), IH.
Qed.

(** A text without the first character of [p] does not contain [p]. *)
Lemma includes_without_first c p s :
  WhatwgLite.all_chars (fun x => negb (Ascii.eqb x c)) s = true ->
  includes s (String c p) = false.
Proof.
  induction s as [|x s IH]; [reflexivity|].
  cbn [WhatwgLite.all_chars includes String.prefix]. intros H.
  apply andb_prop in H as [Hx Hs]. rewrite (IH Hs), orb_false_r.
  destruct (ascii_dec c x) as [->|_]; [|reflexivity].
  now rewrite Ascii.eqb_refl in Hx.
Qed.

Lemma uint_digits d :
  WhatwgLite.all_chars (fun c => is_digit c || Ascii.eqb c "-")
    (NilEmpty.string_of_uint d) = true.
Proof. induction d; cbn; auto. Qed.

(** The decimal text of an integer: digits, and a sign. *)
Lemma toString_chars n :
  WhatwgLite.all_chars (fun c => is_digit c || Ascii.eqb c "-") (toString n) = true.
Proof.
  unfold toString, NilZero.string_of_int, NilZero.string_of_uint.
  destruct (Z.to_int n) as [d|d]; destruct d eqn:E; try reflexivity;
    rewrite <- E; cbn [WhatwgLite.all_chars]; try apply uint_digits;
    change (is_digit "-" || Ascii.eqb "-" "-") with true; cbv iota; cbn [andb];
    apply uint_digits.
Qed.

Lemma digit_or_sign_other x :
  is_digit x = false -> Ascii.eqb x "-" = false ->
  forall y, is_digit y || Ascii.eqb y "-" = true -> negb (Ascii.eqb y x) = true.
Proof.
  intros Hd Hs y Hy. destruct (Ascii.eqb_spec y x) as [->|_]; [|reflexivity].
  rewrite Hd, Hs in Hy. discriminate.
Qed.

(** The error for a status outside 2xx never passes the filter of the
    [catch]: the status code does not reach the caller. *)
Lemma http_error_replaced n :
  scrape_catch (Error ("Failed to fetch website: HTTP " ++ toString n)) = Unreachable.
Proof.
  unfold scrape_catch. cbn [ename emessage Error].
  change (String.eqb "Error" "AbortError") with false. cbv iota.
  assert (H1 : includes ("Failed to fetch website: HTTP " ++ toString n) "not allowed" = false).
  { apply includes_without_first. rewrite all_chars_app. apply andb_true_intro.
    split; [reflexivity|].
    eapply all_chars_impl; [|apply toString_chars].
    apply (digit_or_sign_other "n"); reflexivity. }
  assert (H2 : includes ("Failed to fetch website: HTTP " ++ toString n) "Invalid URL" = false).
  { apply includes_without_first. rewrite all_chars_app. apply andb_true_intro.
    split; [reflexivity|].
    eapply all_chars_impl; [|apply toString_chars].
    apply (digit_or_sign_other "I"); reflexivity. }
  now rewrite H1, H2.
Qed.

Lemma read_loop_thrown stream : forall st e,
  thrown (read_loop stream st) = Some e ->
  thrown st = Some e \/ e = SizeLimitExceeded.
Proof.
  induction stream as [|value rest IH]; intros st e; cbn [read_loop]; [auto|].
  cbv zeta. destruct (_ <? _).
  - cbn [thrown]. intros H; inversion H. now right.
  - intros H. apply IH in H as [H|H]; [discriminate | now right].
Qed.

(** Whatever the [try] of [scrapeWebsite] throws on a response it has
    received is replaced by the generic error. *)
Lemma scrape_attempt_throws {Profile} (P : Platform Profile) validatedUrl e :
  scrape_attempt P validatedUrl = Throw e ->
  fetch P (href validatedUrl) manual 15000 = Throw e \/ scrape_catch e = Unreachable.
Proof.
  unfold scrape_attempt.
  destruct (fetch _ _ _ _) as [response|e']; [|intros H; left; now inversion H]. right.
  revert H.
  destruct (is_redirect response); [intros H; now inversion H|].
  destruct (negb (ok response)); [intros H; inversion H; apply http_error_replaced|].
  destruct (_ || _); [intros H; now inversion H|].
  destruct (declared_over _ _); [intros H; now inversion H|].
  destruct (body response) as [stream|]; [|intros H; now inversion H].
  destruct (thrown (read_all stream)) as [e'|] eqn:Hth; [|discriminate].
  intros H; inversion H; subst.
  apply read_loop_thrown in Hth as [Hth| ->]; [discriminate | reflexivity].
Qed.

(** What [scrapeWebsite] lets out: an error of [validateUrl]; "Website
    request timed out"; "Unable to access the website..."; or an error of
    the transport itself whose message contains "not allowed" or "Invalid
    URL".  The messages about redirects, the HTTP status, the content
    type, the declared or the streamed size and a missing body never
    reach the caller. *)
Theorem scrapeWebsite_error_set {Profile} (P : Platform Profile) url e :
  Fetcher.scrapeWebsite P url = Throw e ->
  validateUrl P url = Throw e
  \/ e = TimedOut
  \/ e = Unreachable
  \/ exists validatedUrl,
       validateUrl P url = Ok validatedUrl
       /\ fetch P (href validatedUrl) manual 15000 = Throw e
       /\ includes (emessage e) "not allowed" || includes (emessage e) "Invalid URL" = true.
Proof.
  unfold scrapeWebsite.
  destruct (validateUrl P url) as [v|e0] eqn:Hv; [|intros H; left; now inversion H].
  destruct (scrape_attempt P v) as [c|e'] eqn:Ha; [discriminate|].
  intros H; inversion H; subst. right.
  apply scrape_attempt_throws in Ha as [Hf|Hu]; [|right; now left].
  unfold scrape_catch.
  destruct (String.eqb (ename e') "AbortError"); [now left|].
  destruct (includes (emessage e') "not allowed" || includes (emessage e') "Invalid URL")
    eqn:Hpass; [|right; now left].
  do 2 right. exists v. auto.
Qed.

Lemma scrapeWebsite_error_set_witness :
  let P := Worlds.shop_world in
  Fetcher.scrapeWebsite P "https://shop.example/contact" = Throw Unreachable
  /\ (exists validatedUrl,
         validateUrl P "https://shop.example/contact" = Ok validatedUrl
         /\ scrape_attempt P validatedUrl
            = Throw (Error "Failed to fetch website: HTTP 404"))
  /\ (validateUrl P "https://shop.example/contact" = Throw Unreachable
      \/ Unreachable = TimedOut
      \/ Unreachable = Unreachable
      \/ exists validatedUrl,
           validateUrl P "https://shop.example/contact" = Ok validatedUrl
           /\ fetch P (href validatedUrl) manual 15000 = Throw Unreachable
           /\ includes (emessage Unreachable) "not allowed"
              || includes (emessage Unreachable) "Invalid URL" = true).
Proof.
  intros P.
  assert (H : Fetcher.scrapeWebsite P "https://shop.example/contact" = Throw Unreachable)
    by reflexivity.
  split; [exact H|]. split; [eexists; split; reflexivity|].
  exact (scrapeWebsite_error_set P "https://shop.example/contact" Unreachable H).
Defined.

End FetcherMore.

(** ** More on page discovery *)

Module DiscoveryMore.
Import JS Discovery Shapes DiscoveryProps.

Lemma visit_link_candidate {Profile} (P : Platform Profile) baseUrl baseOrigin acc h :
  visit_link P baseUrl baseOrigin acc h
  = match candidate P baseUrl baseOrigin h with
    | Some u => if (length acc <? 10)%nat then set_add u acc else acc
    | None => acc
    end.
Proof.
  unfold visit_link, candidate.
  destruct (String.eqb h ""); [reflexivity|].
  destruct (URL_resolve P h baseUrl) as [resolved|]; [|reflexivity].
  destruct (URL_parse P (href resolved)) as [parsedUrl|]; [|reflexivity].
  destruct (String.eqb (origin parsedUrl) baseOrigin); cbn [negb andb]; [|reflexivity].
  destruct (hasKeyword _); cbn [andb]; reflexivity.
Qed.

(** The guard on the size of the set keeps its first ten members. *)
Lemma guarded_add_take (u : string) (U : list string) :
  (if (length (firstn 10 U) <? 10)%nat then set_add u (firstn 10 U) else firstn 10 U)
  = firstn 10 (set_add u U).
Proof.
  destruct (Nat.ltb_spec (length (firstn 10 U)) 10) as [Hlt|Hge].
  - rewrite length_take in Hlt.
    assert (Hall : firstn 10 U = U) by (apply take_ge; lia).
    rewrite Hall. symmetry. apply take_ge.
    unfold set_add. case_bool_decide; [lia|]. rewrite length_app. simpl. lia.
  - rewrite length_take in Hge. unfold set_add. case_bool_decide; [reflexivity|].
    rewrite take_app_le by lia. reflexivity.
Qed.

Lemma visit_all_take {Profile} (P : Platform Profile) baseUrl baseOrigin hrefs :
  forall U,
    fold_left (visit_link P baseUrl baseOrigin) hrefs (firstn 10 U)
    = firstn 10 (fold_left (fun s x => set_add x s)
                   (candidates P baseUrl baseOrigin hrefs) U).
Proof.
  induction hrefs as [|h hrefs IH]; intros U; [reflexivity|].
  cbn [fold_left]. rewrite visit_link_candidate. unfold candidates. cbn [omap list_omap].
  fold (candidates P baseUrl baseOrigin hrefs).
  destruct (candidate P baseUrl baseOrigin h) as [u|].
  - rewrite guarded_add_take. cbn [fold_left]. apply IH.
  - apply IH.
Qed.

(** [findImportantPages] returns the first five distinct qualifying links
    of the page, each in the place of its first occurrence in the
    document; the limit of ten on the set never changes the answer.  On a
    base URL that does not parse it throws the [TypeError] of [new URL]. *)
Theorem findImportantPages_first_five {Profile} (P : Platform Profile)
    (baseUrl homepageHtml : string) :
  findImportantPages P baseUrl homepageHtml
  = match URL_parse P baseUrl with
    | Some parsedBase =>
        Ok (firstn 5 (set_from
                        (candidates P baseUrl (origin parsedBase)
                           (cheerio_hrefs P homepageHtml))))
    | None => Throw (TypeError "Invalid URL")
    end.
Proof.
  unfold findImportantPages. destruct (URL_parse P baseUrl) as [parsedBase|]; [|reflexivity].
  cbv zeta. f_equal.
  change (@nil string) with (firstn 10 (@nil string)) at 1.
  rewrite visit_all_take. unfold set_from.
  rewrite take_take. reflexivity.
Qed.

End DiscoveryMore.

(** ** More on the runs of the orchestrator *)

Module OrchestratorMore.
Import JS Storage Orchestrator Shapes StorageProps OrchestratorProps.

Lemma get_other_after_update id other st message db :
  id <> other ->
  getWebsiteAnalysis other (updateWebsiteAnalysisStatus id st message db)
  = getWebsiteAnalysis other db.
Proof. intros Hne. unfold getWebsiteAnalysis. cbn. now apply lookup_alter_ne. Qed.

Lemma get_other_after_upsert id other patch db :
  id <> other ->
  getWebsiteAnalysis other (upsertWebsiteAnalysis id patch db) = getWebsiteAnalysis other db.
Proof. intros Hne. unfold getWebsiteAnalysis. cbn. now apply lookup_insert_ne. Qed.

Lemma pages_other_after_create id other url db :
  id <> other -> pages_of other (createAnalyzedPage id url db) = pages_of other db.
Proof.
  intros Hne. unfold pages_of, createAnalyzedPage. cbn [analyzed_pages].
  rewrite filter_app, filter_cons. cbn [businessAccountId].
  destruct (decide (id = other)); [contradiction|]. now rewrite filter_nil, app_nil_r.
Qed.

Section Isolation.
Context (id other : string) (Hne : id <> other).

Lemma alone_bind {A B} (m : M A) (k : A -> M B) :
  leaves_alone other m -> (forall a, leaves_alone other (k a)) ->
  leaves_alone other (m ≫= k).
Proof.
  intros Hm Hk db. specialize (Hm db). unfold mbind, M_bind, bind.
  destruct (m db) as [db1 [a|e]]; cbn [fst] in *; [|exact Hm].
  destruct (Hk a db1) as [H1 H2]. destruct Hm as [H3 H4]. split; congruence.
Qed.

Lemma alone_try {A} (m : M A) (h : JsError -> M A) :
  leaves_alone other m -> (forall e, leaves_alone other (h e)) ->
  leaves_alone other (try_catch m h).
Proof.
  intros Hm Hh db. specialize (Hm db). unfold try_catch.
  destruct (m db) as [db1 [a|e]]; cbn [fst] in *; [exact Hm|].
  destruct (Hh e db1) as [H1 H2]. destruct Hm as [H3 H4]. split; congruence.
Qed.

Lemma alone_pure {A} (r : result A) : leaves_alone other (await r).
Proof. intros db. split; reflexivity. Qed.

Lemma alone_read {A} (f : Db -> A) : leaves_alone other (read f).
Proof. intros db. split; reflexivity. Qed.

Lemma alone_update st message :
  leaves_alone other (write (updateWebsiteAnalysisStatus id st message)).
Proof. intros db. split; [now apply get_other_after_update | reflexivity]. Qed.

Lemma alone_upsert patch : leaves_alone other (write (upsertWebsiteAnalysis id patch)).
Proof. intros db. split; [now apply get_other_after_upsert | reflexivity]. Qed.

Lemma alone_create url : leaves_alone other (write (createAnalyzedPage id url)).
Proof. intros db. split; [reflexivity | now apply pages_other_after_create]. Qed.

Lemma alone_insert {Profile} (P : Platform Profile) url :
  leaves_alone other (try_catch (insert_page P id url) (fun _ => ret tt)).
Proof.
  apply alone_try; [|intros e; apply (alone_pure (Ok tt))].
  unfold insert_page. destruct (page_insert_error P id url) as [e|].
  - apply (alone_pure (Throw e)).
  - apply alone_create.
Qed.

Lemma alone_save {Profile} (P : Platform Profile) urls :
  leaves_alone other (save_pages P id urls).
Proof.
  unfold save_pages. induction (uniquePages urls) as [|u l IH].
  - apply (alone_pure (Ok tt)).
  - cbn [for_each]. apply alone_bind; [apply alone_insert | intros _; exact IH].
Qed.

Lemma alone_failure {A} e : leaves_alone other (@record_failure A id e).
Proof.
  unfold record_failure. apply alone_bind; [apply alone_update | intros _].
  apply (alone_pure (Throw e)).
Qed.

Lemma alone_analyzeWebsite {Profile} (P : Platform Profile) websiteUrl key :
  leaves_alone other (analyzeWebsite P websiteUrl id key).
Proof.
  unfold analyzeWebsite. apply alone_try; [|intros e; apply alone_failure].
  apply alone_bind; [apply alone_update | intros _].
  apply alone_bind; [apply alone_pure | intros homepageContent].
  apply alone_bind; [apply alone_pure | intros homepageHtml].
  apply alone_bind; [apply alone_pure | intros additionalPages]. cbv zeta.
  apply alone_bind; [apply alone_pure | intros analyzedContent].
  apply alone_bind; [apply alone_upsert | intros _].
  apply alone_bind; [apply alone_save | intros _].
  apply alone_update.
Qed.

Lemma alone_analyzeWebsitePages {Profile} (P : Platform Profile) pageUrls key appendMode :
  leaves_alone other (analyzeWebsitePages P pageUrls id key appendMode).
Proof.
  unfold analyzeWebsitePages. apply alone_try; [|intros e; apply alone_failure].
  apply alone_bind; [apply alone_update | intros _]. cbv zeta.
  apply alone_bind;
    [destruct (String.eqb _ _);
       [apply (alone_pure (Throw ScrapeFailed)) | apply (alone_pure (Ok tt))]
    | intros _].
  apply alone_bind; [apply alone_read | intros existingData].
  apply alone_bind; [apply alone_pure | intros analyzedContent].
  apply alone_bind; [apply alone_upsert | intros _].
  apply alone_bind; [apply alone_pure | intros texts].
  apply alone_bind; [apply alone_save | intros _].
  apply alone_update.
Qed.

End Isolation.

(** A run for one account, however it ends, leaves the row and the page
    log of every other account as they were. *)
Theorem run_leaves_other_accounts_alone {Profile} (P : Platform Profile)
    (id other key : string) :
  id <> other ->
  (forall websiteUrl, leaves_alone other (analyzeWebsite P websiteUrl id key))
  /\ (forall pageUrls appendMode,
        leaves_alone other (analyzeWebsitePages P pageUrls id key appendMode)).
Proof.
  intros Hne. split.
  - intros websiteUrl. now apply alone_analyzeWebsite.
  - intros pageUrls appendMode. now apply alone_analyzeWebsitePages.
Qed.

Lemma run_leaves_other_accounts_alone_witness :
  let P := Worlds.shop_world in
  let db := MoreWorlds.two_accounts_db in
  let out := analyzeWebsite P "https://shop.example" "acct-1" "sk-test" db in
  "acct-1" <> "acct-2"
  /\ getWebsiteAnalysis "acct-2" (fst out) = getWebsiteAnalysis "acct-2" db
  /\ pages_of "acct-2" (fst out) = pages_of "acct-2" db.
Proof.
  intros P db out.
  assert (Hne : "acct-1" <> "acct-2") by discriminate.
  exact (conj Hne
           (proj1 (run_leaves_other_accounts_alone P "acct-1" "acct-2" "sk-test" Hne)
              "https://shop.example" db)).
Defined.

Lemma marked_failed_db id e db :
  marked_failed id e db
    (updateWebsiteAnalysisStatus id failed (Some (emessage e))
       (updateWebsiteAnalysisStatus id analyzing None db)).
Proof.
  split; [|reflexivity]. rewrite !get_after_update.
  destruct (getWebsiteAnalysis id db); reflexivity.
Qed.

Lemma saved_then_failed_db id e url content db :
  saved_then_failed id e url content db
    (updateWebsiteAnalysisStatus id failed (Some (emessage e))
       (upsertWebsiteAnalysis id (mkPatch url (Some completed) (Some content))
          (updateWebsiteAnalysisStatus id analyzing None db))).
Proof.
  split; [|reflexivity]. rewrite get_after_update.
  unfold getWebsiteAnalysis at 1, upsertWebsiteAnalysis. cbn [website_analysis].
  rewrite lookup_insert_eq, get_after_update.
  destruct (getWebsiteAnalysis id db); reflexivity.
Qed.

Lemma page_texts_throws pageUrls e :
  page_texts pageUrls = Throw e -> e = NotAFunction "toLowerCase".
Proof.
  induction pageUrls as [|[s|text column] rest IH]; cbn [page_texts].
  - discriminate.
  - destruct (page_texts rest); [discriminate|]. intros H; inversion H; subst. now apply IH.
  - intros H; now inversion H.
Qed.

Lemma analyzeWebsite_failure {Profile} (P : Platform Profile) websiteUrl id key db e :
  snd (analyzeWebsite P websiteUrl id key db) = Throw e ->
  marked_failed id e db (fst (analyzeWebsite P websiteUrl id key db)).
Proof.
  pose proof (analyzeWebsite_outcome P websiteUrl id key db) as Hout. cbv zeta in Hout.
  destruct (Fetcher.scrapeWebsite P websiteUrl) as [homepageContent|e1];
    [|rewrite Hout; intros H; inversion H; apply marked_failed_db].
  destruct (Fetcher.fetchPageHtml P websiteUrl) as [homepageHtml|e1];
    [|rewrite Hout; intros H; inversion H; apply marked_failed_db].
  destruct (Discovery.findImportantPages P websiteUrl homepageHtml) as [additionalPages|e1];
    [|rewrite Hout; intros H; inversion H; apply marked_failed_db].
  destruct (analyzeWithOpenAI P _ key) as [profile|e1];
    [|rewrite Hout; intros H; inversion H; apply marked_failed_db].
  destruct Hout as (db' & -> & _). discriminate.
Qed.

(** The two ways in which a run of [analyzeWebsitePages] throws: before
    Step 4, or in Step 5 on an element that is not a string. *)
Lemma analyzeWebsitePages_failure {Profile} (P : Platform Profile)
    pageUrls id key appendMode db e :
  let out := analyzeWebsitePages P pageUrls id key appendMode db in
  snd out = Throw e ->
  marked_failed id e db (fst out)
  \/ (page_texts pageUrls = Throw e
      /\ trim (pages_text P pageUrls) <> EmptyString
      /\ exists profile,
           synthesize P
             (existing_profile P id appendMode
                (updateWebsiteAnalysisStatus id analyzing None db))
             appendMode (pages_text P pageUrls) key = Ok profile
           /\ saved_then_failed id e (as_column <$> head pageUrls)
                (JSON_stringify P profile) db (fst out)).
Proof.
  intros out. subst out.
  pose proof (analyzeWebsitePages_outcome P pageUrls id key appendMode db) as Hout.
  cbv zeta in Hout.
  destruct (String.eqb_spec (trim (pages_text P pageUrls)) EmptyString) as [Hempty|Hsome].
  - rewrite Hout. intros H; inversion H. left. apply marked_failed_db.
  - destruct (synthesize P _ appendMode _ key) as [profile|e1].
    + destruct (page_texts pageUrls) as [texts|e1].
      * destruct Hout as (db' & -> & _). discriminate.
      * rewrite Hout. intros H; inversion H; subst e1. right.
        split; [reflexivity|]. split; [exact Hsome|]. exists profile.
        split; [reflexivity | apply saved_then_failed_db].
    + rewrite Hout. intros H; inversion H; subst e1. left. apply marked_failed_db.
Qed.

(** What a run that throws has written.  [analyzeWebsite], and
    [analyzeWebsitePages] on a list of strings, have written nothing but
    the status: the row of the account, if there was one, is marked failed
    with the message of the error and a cleared analysis date, and keeps
    its URL and the profile of the last successful run; no row is created
    when there was none; no page is logged.  On a list with an element
    that is not a string, [analyzeWebsitePages] can also throw in Step 5,
    after Step 4: then the error is the TypeError of [url.toLowerCase],
    and the row holds the new profile and the URL of the run and is marked
    failed; no page is logged.  (The upsert and the status updates of the
    store are taken to succeed, as everywhere in this model.) *)
Theorem what_a_failed_run_leaves {Profile} (P : Platform Profile)
    (id key : string) (db : Db) (e : JsError) :
  (forall websiteUrl,
     snd (analyzeWebsite P websiteUrl id key db) = Throw e ->
     marked_failed id e db (fst (analyzeWebsite P websiteUrl id key db)))
  /\ (forall pageUrls appendMode,
        let out := analyzeWebsitePages P pageUrls id key appendMode db in
        snd out = Throw e ->
        (forall texts, page_texts pageUrls = Ok texts -> marked_failed id e db (fst out))
        /\ (marked_failed id e db (fst out)
            \/ (e = NotAFunction "toLowerCase"
                /\ page_texts pageUrls = Throw e
                /\ exists profile,
                     synthesize P
                       (existing_profile P id appendMode
                          (updateWebsiteAnalysisStatus id analyzing None db))
                       appendMode (pages_text P pageUrls) key = Ok profile
                     /\ saved_then_failed id e (as_column <$> head pageUrls)
                          (JSON_stringify P profile) db (fst out)))).
Proof.
  split.
  - intros websiteUrl. apply analyzeWebsite_failure.
  - intros pageUrls appendMode out Hthrow.
    destruct (analyzeWebsitePages_failure P pageUrls id key appendMode db e Hthrow)
      as [Hmark|(Htexts & _ & profile & Hsyn & Hsaved)].
    + split; [intros _ _; exact Hmark | left; exact Hmark].
    + split; [intros texts Hok; rewrite Hok in Htexts; discriminate|].
      right. split; [now apply (page_texts_throws pageUrls)|]. eauto.
Qed.

Lemma what_a_failed_run_leaves_witness :
  let P := Worlds.shop_world in
  let pageUrls := [Text "https://shop.example/";
                   NonText "https://shop.example/faq" "{https://shop.example/faq}"] in
  let db := MoreWorlds.analysed_db in
  let e := NotAFunction "toLowerCase" in
  let out := analyzeWebsitePages P pageUrls "acct-1" "sk-test" true db in
  snd out = Throw e
  /\ (analyzedContent <$> getWebsiteAnalysis "acct-1" db) = Some (Some "earlier profile")
  /\ (marked_failed "acct-1" e db (fst out)
      \/ (e = NotAFunction "toLowerCase"
          /\ page_texts pageUrls = Throw e
          /\ exists profile,
               synthesize P
                 (existing_profile P "acct-1" true
                    (updateWebsiteAnalysisStatus "acct-1" analyzing None db))
                 true (pages_text P pageUrls) "sk-test" = Ok profile
               /\ saved_then_failed "acct-1" e (as_column <$> head pageUrls)
                    (JSON_stringify P profile) db (fst out))).
Proof.
  intros P pageUrls db e out.
  assert (H : snd out = Throw e) by reflexivity.
  assert (H0 : (analyzedContent <$> getWebsiteAnalysis "acct-1" db)
               = Some (Some "earlier profile")) by reflexivity.
  exact (conj H (conj H0
           (proj2 (proj2 (what_a_failed_run_leaves P "acct-1" "sk-test" db e)
                     pageUrls true H)))).
Defined.

(** The run of the example in which a nested array follows the site URL:
    the merged profile is saved, then Step 5 throws. *)
Example failed_run_with_new_profile :
  let pageUrls := [Text "https://shop.example/";
                   NonText "https://shop.example/faq" "{https://shop.example/faq}"] in
  let out := analyzeWebsitePages Worlds.shop_world pageUrls "acct-1" "sk-test" true
               MoreWorlds.analysed_db in
  snd out = Throw (TypeError "url.toLowerCase is not a function")
  /\ (status <$> getWebsiteAnalysis "acct-1" (fst out)) = Some failed
  /\ (analyzedContent <$> getWebsiteAnalysis "acct-1" (fst out))
     <> (analyzedContent <$> getWebsiteAnalysis "acct-1" MoreWorlds.analysed_db)
  /\ pages_of "acct-1" (fst out) = [].
Proof.
  intros pageUrls out.
  split; [reflexivity|]. split; [reflexivity|]. split; [|reflexivity].
  vm_compute. discriminate.
Qed.

(** [analyzeWebsite] needs an absolute URL although the scraper does not:
    for a URL that the scraper completes with [https://] and fetches, but
    that [new URL] alone rejects, the page discovery throws, the run ends
    with that TypeError and the row is marked failed. *)
Theorem analyzeWebsite_rejects_schemeless_url {Profile} (P : Platform Profile)
    (websiteUrl id key : string) (db : Db) (homepageContent homepageHtml : string) :
  Fetcher.scrapeWebsite P websiteUrl = Ok homepageContent ->
  Fetcher.fetchPageHtml P websiteUrl = Ok homepageHtml ->
  URL_parse P websiteUrl = None ->
  let out := analyzeWebsite P websiteUrl id key db in
  snd out = Throw (TypeError "Invalid URL")
  /\ marked_failed id (TypeError "Invalid URL") db (fst out).
Proof.
  intros Hscrape Hhtml Hparse out.
  assert (Hthrow : snd out = Throw (TypeError "Invalid URL")).
  { subst out. unfold analyzeWebsite. run. rewrite Hscrape, Hhtml.
    unfold Discovery.findImportantPages. rewrite Hparse. reflexivity. }
  split; [exact Hthrow | now apply analyzeWebsite_failure].
Qed.

Lemma analyzeWebsite_rejects_schemeless_url_witness :
  let P := Worlds.shop_world in
  let db := Worlds.pending_db "acct-1" "shop.example" in
  Fetcher.scrapeWebsite P "shop.example" = Ok Worlds.shop_home
  /\ Fetcher.fetchPageHtml P "shop.example" = Ok Worlds.shop_home
  /\ URL_parse P "shop.example" = None
  /\ snd (analyzeWebsite P "shop.example" "acct-1" "sk-test" db)
     = Throw (TypeError "Invalid URL").
Proof.
  intros P db.
  assert (H1 : Fetcher.scrapeWebsite P "shop.example" = Ok Worlds.shop_home) by reflexivity.
  assert (H2 : Fetcher.fetchPageHtml P "shop.example" = Ok Worlds.shop_home) by reflexivity.
  assert (H3 : URL_parse P "shop.example" = None) by reflexivity.
  exact (conj H1 (conj H2 (conj H3
           (proj1 (analyzeWebsite_rejects_schemeless_url P "shop.example" "acct-1" "sk-test"
                     db _ _ H1 H2 H3))))).
Defined.

Lemma existing_profile_some {Profile} (P : Platform Profile) id db row c s existing :
  getWebsiteAnalysis id db = Some row ->
  analyzedContent row = Some (String c s) ->
  JSON_parse P (String c s) = Some existing ->
  existing_profile P id true (updateWebsiteAnalysisStatus id analyzing None db) = Some existing.
Proof.
  intros Hrow Hc Hparse. unfold existing_profile.
  rewrite get_after_update, Hrow. cbn. now rewrite Hc.
Qed.

(** In append mode, for an account whose row holds a profile that parses,
    the profile saved is the one [mergeAnalysisData] returns for the stored
    profile and the text scraped in this run -- [analyzeWithOpenAI] is not
    asked -- and the website URL of the row becomes the first element of
    the list, when there is one.  On a list of strings the run ends
    normally, the row is completed, and the distinct normalized URLs are
    added to the log (but for those whose insert the store rejects). *)
Theorem append_merges_into_stored_profile {Profile} (P : Platform Profile)
    (pageUrls : list PageItem) (id key : string) (db : Db)
    (row : WebsiteAnalysis) (c : ascii) (s : string) (existing merged : Profile) :
  getWebsiteAnalysis id db = Some row ->
  analyzedContent row = Some (String c s) ->
  JSON_parse P (String c s) = Some existing ->
  let combinedContent := fold_left (add_listed_page P) pageUrls EmptyString in
  trim combinedContent <> EmptyString ->
  mergeAnalysisData P existing combinedContent key = Ok merged ->
  let out := analyzeWebsitePages P pageUrls id key true db in
  (analyzedContent <$> getWebsiteAnalysis id (fst out)) = Some (Some (JSON_stringify P merged))
  /\ (websiteUrl <$> getWebsiteAnalysis id (fst out))
     = Some (default (websiteUrl row) (as_column <$> head pageUrls))
  /\ forall texts,
       page_texts pageUrls = Ok texts ->
       snd out = Ok tt
       /\ (exists t,
             getWebsiteAnalysis id (fst out)
             = Some (mkAnalysis (default (websiteUrl row) (as_column <$> head pageUrls))
                       completed (Some (JSON_stringify P merged)) None (Some t) t))
       /\ pages_of id (fst out) = (pages_of id db ++ logged P id texts)%list.
Proof.
  intros Hrow Hc Hparse combinedContent Hsome Hmerge out.
  pose proof (existing_profile_some P id db row c s existing Hrow Hc Hparse) as Hex.
  pose proof (analyzeWebsitePages_outcome P pageUrls id key true db) as Hout.
  cbv zeta in Hout. fold (pages_text P pageUrls) in combinedContent.
  fold combinedContent in Hout. fold out in Hout.
  destruct (String.eqb_spec (trim combinedContent) EmptyString) as [E|_]; [contradiction|].
  rewrite Hex in Hout. cbn [synthesize] in Hout. rewrite Hmerge in Hout.
  destruct (page_texts pageUrls) as [texts|e].
  - destruct Hout as (db' & -> & Hget & Hlog). cbn [fst snd].
    rewrite Hget, Hrow. unfold completed_row. cbn.
    split; [reflexivity|]. split; [reflexivity|].
    intros texts' Htexts. inversion Htexts; subst texts'.
    split; [reflexivity|]. split; [eauto | exact Hlog].
  - rewrite Hout. cbn [fst snd].
    destruct (saved_then_failed_db id e (as_column <$> head pageUrls)
                (JSON_stringify P merged) db) as [Hget _].
    rewrite Hget, Hrow. cbn. split; [reflexivity|]. split; [reflexivity|]. discriminate.
Qed.

Lemma append_merges_into_stored_profile_witness :
  let P := Worlds.shop_world in
  let pageUrls := [Text "https://shop.example/"] in
  let db := MoreWorlds.analysed_db in
  let combinedContent := fold_left (add_listed_page P) pageUrls EmptyString in
  let out := analyzeWebsitePages P pageUrls "acct-1" "sk-test" true db in
  (analyzedContent <$> getWebsiteAnalysis "acct-1" db) = Some (Some "earlier profile")
  /\ trim combinedContent <> EmptyString
  /\ (analyzedContent <$> getWebsiteAnalysis "acct-1" (fst out))
     = Some (Some ("earlier profile" ++ " merged with " ++ combinedContent))
  /\ snd out = Ok tt.
Proof.
  intros P pageUrls db combinedContent out.
  assert (H0 : (analyzedContent <$> getWebsiteAnalysis "acct-1" db)
               = Some (Some "earlier profile")) by reflexivity.
  assert (H1 : getWebsiteAnalysis "acct-1" db
               = Some (mkAnalysis "https://shop.example" completed (Some "earlier profile")
                         None (Some 1%nat) 1%nat)) by reflexivity.
  assert (H2 : trim combinedContent <> EmptyString) by (vm_compute; discriminate).
  destruct (append_merges_into_stored_profile P pageUrls "acct-1" "sk-test" db _
              "e"%char "arlier profile" "earlier profile"
              ("earlier profile" ++ " merged with " ++ combinedContent)
              H1 eq_refl eq_refl H2 eq_refl) as (Hcontent & _ & Htyped).
  exact (conj H0 (conj H2 (conj Hcontent
           (proj1 (Htyped ["https://shop.example/"] eq_refl))))).
Defined.

Lemma analyzeWebsitePages_ok_row {Profile} (P : Platform Profile)
    pageUrls id key appendMode db :
  let out := analyzeWebsitePages P pageUrls id key appendMode db in
  snd out = Ok tt ->
  exists texts profile,
    page_texts pageUrls = Ok texts
    /\ trim (pages_text P pageUrls) <> EmptyString
    /\ synthesize P
         (existing_profile P id appendMode (updateWebsiteAnalysisStatus id analyzing None db))
         appendMode (pages_text P pageUrls) key = Ok profile
    /\ getWebsiteAnalysis id (fst out)
       = Some (completed_row (getWebsiteAnalysis id db) (as_column <$> head pageUrls)
                 (JSON_stringify P profile) (now db + 2 + length (logged P id texts))%nat)
    /\ pages_of id (fst out) = (pages_of id db ++ logged P id texts)%list.
Proof.
  intros out. subst out.
  pose proof (analyzeWebsitePages_outcome P pageUrls id key appendMode db) as Hout.
  cbv zeta in Hout.
  destruct (String.eqb_spec (trim (pages_text P pageUrls)) EmptyString) as [Hempty|Hsome];
    [rewrite Hout; discriminate|].
  destruct (synthesize P _ appendMode _ key) as [profile|e]; [|rewrite Hout; discriminate].
  destruct (page_texts pageUrls) as [texts|e]; [|rewrite Hout; discriminate].
  destruct Hout as (db' & -> & Hget & Hlog). intros _. cbn [fst].
  exists texts, profile. auto.
Qed.

Lemma analyzeWebsite_ok_row {Profile} (P : Platform Profile) websiteUrl id key db :
  let out := analyzeWebsite P websiteUrl id key db in
  snd out = Ok tt ->
  exists homepageContent homepageHtml additionalPages profile,
    Fetcher.scrapeWebsite P websiteUrl = Ok homepageContent
    /\ Fetcher.fetchPageHtml P websiteUrl = Ok homepageHtml
    /\ Discovery.findImportantPages P websiteUrl homepageHtml = Ok additionalPages
    /\ analyzeWithOpenAI P (site_text P homepageContent additionalPages) key = Ok profile
    /\ getWebsiteAnalysis id (fst out)
       = Some (completed_row (getWebsiteAnalysis id db) (Some websiteUrl)
                 (JSON_stringify P profile)
                 (now db + 2 + length (logged P id (websiteUrl :: additionalPages)))%nat)
    /\ pages_of id (fst out)
       = (pages_of id db ++ logged P id (websiteUrl :: additionalPages))%list.
Proof.
  intros out. subst out.
  pose proof (analyzeWebsite_outcome P websiteUrl id key db) as Hout. cbv zeta in Hout.
  destruct (Fetcher.scrapeWebsite P websiteUrl) as [homepageContent|e];
    [|rewrite Hout; discriminate].
  destruct (Fetcher.fetchPageHtml P websiteUrl) as [homepageHtml|e];
    [|rewrite Hout; discriminate].
  destruct (Discovery.findImportantPages P websiteUrl homepageHtml) as [additionalPages|e]
    eqn:Hfind; [|rewrite Hout; discriminate].
  destruct (analyzeWithOpenAI P _ key) as [profile|e] eqn:Hai; [|rewrite Hout; discriminate].
  destruct Hout as (db' & -> & Hget & Hlog). intros _. cbn [fst].
  exists homepageContent, homepageHtml, additionalPages, profile. auto 10.
Qed.

Lemma analyzeWebsite_succeeds {Profile} (P : Platform Profile) websiteUrl id key db
    homepageContent homepageHtml additionalPages profile :
  Fetcher.scrapeWebsite P websiteUrl = Ok homepageContent ->
  Fetcher.fetchPageHtml P websiteUrl = Ok homepageHtml ->
  Discovery.findImportantPages P websiteUrl homepageHtml = Ok additionalPages ->
  analyzeWithOpenAI P (site_text P homepageContent additionalPages) key = Ok profile ->
  snd (analyzeWebsite P websiteUrl id key db) = Ok tt.
Proof.
  intros Hscrape Hhtml Hfind Hai.
  pose proof (analyzeWebsite_outcome P websiteUrl id key db) as Hout. cbv zeta in Hout.
  rewrite Hscrape, Hhtml, Hfind, Hai in Hout. now destruct Hout as (db' & -> & _).
Qed.

Lemma analyzeWebsitePages_succeeds {Profile} (P : Platform Profile)
    pageUrls id key appendMode db texts profile :
  page_texts pageUrls = Ok texts ->
  trim (pages_text P pageUrls) <> EmptyString ->
  synthesize P
    (existing_profile P id appendMode (updateWebsiteAnalysisStatus id analyzing None db))
    appendMode (pages_text P pageUrls) key = Ok profile ->
  snd (analyzeWebsitePages P pageUrls id key appendMode db) = Ok tt.
Proof.
  intros Htexts Hsome Hsyn.
  pose proof (analyzeWebsitePages_outcome P pageUrls id key appendMode db) as Hout.
  cbv zeta in Hout.
  destruct (String.eqb_spec (trim (pages_text P pageUrls)) EmptyString) as [E|_];
    [contradiction|].
  rewrite Hsyn, Htexts in Hout. now destruct Hout as (db' & -> & _).
Qed.

(** A run ends normally exactly when each of its steps has succeeded, and
    then the row of the account is determined: completed, no error
    message, the time of the last write as analysis date, as profile the
    JSON text of what the model returned for the scraped text, as URL the
    site URL ([analyzeWebsite]) or the first element of the list
    ([analyzeWebsitePages]).  The run has added to the page log the
    distinct normalized URLs of the site URL and all discovered pages
    ([analyzeWebsite]) or of the whole list ([analyzeWebsitePages]), in
    order, but for those whose insert the store rejected, and nothing
    else. *)
Theorem successful_run_row {Profile} (P : Platform Profile) (id key : string) (db : Db) :
  (forall websiteUrl,
     let out := analyzeWebsite P websiteUrl id key db in
     snd out = Ok tt ->
     exists homepageContent homepageHtml additionalPages profile,
       Fetcher.scrapeWebsite P websiteUrl = Ok homepageContent
       /\ Fetcher.fetchPageHtml P websiteUrl = Ok homepageHtml
       /\ Discovery.findImportantPages P websiteUrl homepageHtml = Ok additionalPages
       /\ analyzeWithOpenAI P (site_text P homepageContent additionalPages) key = Ok profile
       /\ getWebsiteAnalysis id (fst out)
          = Some (completed_row (getWebsiteAnalysis id db) (Some websiteUrl)
                    (JSON_stringify P profile)
                    (now db + 2 + length (logged P id (websiteUrl :: additionalPages)))%nat)
       /\ pages_of id (fst out)
          = (pages_of id db ++ logged P id (websiteUrl :: additionalPages))%list)
  /\ (forall websiteUrl homepageContent homepageHtml additionalPages profile,
        Fetcher.scrapeWebsite P websiteUrl = Ok homepageContent ->
        Fetcher.fetchPageHtml P websiteUrl = Ok homepageHtml ->
        Discovery.findImportantPages P websiteUrl homepageHtml = Ok additionalPages ->
        analyzeWithOpenAI P (site_text P homepageContent additionalPages) key = Ok profile ->
        snd (analyzeWebsite P websiteUrl id key db) = Ok tt)
  /\ (forall pageUrls appendMode texts profile,
        page_texts pageUrls = Ok texts ->
        trim (pages_text P pageUrls) <> EmptyString ->
        synthesize P
          (existing_profile P id appendMode
             (updateWebsiteAnalysisStatus id analyzing None db))
          appendMode (pages_text P pageUrls) key = Ok profile ->
        snd (analyzeWebsitePages P pageUrls id key appendMode db) = Ok tt)
  /\ (forall pageUrls appendMode,
        let out := analyzeWebsitePages P pageUrls id key appendMode db in
        snd out = Ok tt ->
        exists texts profile,
          page_texts pageUrls = Ok texts
          /\ trim (pages_text P pageUrls) <> EmptyString
          /\ synthesize P
               (existing_profile P id appendMode
                  (updateWebsiteAnalysisStatus id analyzing None db))
               appendMode (pages_text P pageUrls) key = Ok profile
          /\ getWebsiteAnalysis id (fst out)
             = Some (completed_row (getWebsiteAnalysis id db) (as_column <$> head pageUrls)
                       (JSON_stringify P profile)
                       (now db + 2 + length (logged P id texts))%nat)
          /\ pages_of id (fst out) = (pages_of id db ++ logged P id texts)%list).
Proof.
  split; [|split; [|split]].
  - intros websiteUrl. apply analyzeWebsite_ok_row.
  - intros websiteUrl homepageContent homepageHtml additionalPages profile.
    apply analyzeWebsite_succeeds.
  - intros pageUrls appendMode texts profile. apply analyzeWebsitePages_succeeds.
  - intros pageUrls appendMode. apply analyzeWebsitePages_ok_row.
Qed.

Lemma successful_run_row_witness :
  let P := MoreWorlds.full_log_world in
  let url := "https://shop.example" in
  let pages := ["https://shop.example/about"; "https://shop.example/contact"] in
  let db := Worlds.pending_db "acct-1" url in
  let out := analyzeWebsite P url "acct-1" "sk-test" db in
  let pageUrls := [Text "https://shop.example/"; Text "https://shop.example/about"] in
  let out' := analyzeWebsitePages P pageUrls "acct-1" "sk-test" false db in
  snd out = Ok tt
  /\ snd out' = Ok tt
  /\ logged P "acct-1" (url :: pages) = [url; "https://shop.example/contact"]
  /\ pages_of "acct-1" (fst out') = ["https://shop.example"]
  /\ (exists homepageContent homepageHtml additionalPages profile,
        Fetcher.scrapeWebsite P url = Ok homepageContent
        /\ Fetcher.fetchPageHtml P url = Ok homepageHtml
        /\ Discovery.findImportantPages P url homepageHtml = Ok additionalPages
        /\ analyzeWithOpenAI P (site_text P homepageContent additionalPages) "sk-test"
           = Ok profile
        /\ getWebsiteAnalysis "acct-1" (fst out)
           = Some (completed_row (getWebsiteAnalysis "acct-1" db) (Some url)
                     (JSON_stringify P profile)
                     (now db + 2 + length (logged P "acct-1" (url :: additionalPages)))%nat)
        /\ pages_of "acct-1" (fst out)
           = (pages_of "acct-1" db ++ logged P "acct-1" (url :: additionalPages))%list)
  /\ (exists texts profile,
        page_texts pageUrls = Ok texts
        /\ trim (pages_text P pageUrls) <> EmptyString
        /\ synthesize P
             (existing_profile P "acct-1" false
                (updateWebsiteAnalysisStatus "acct-1" analyzing None db))
             false (pages_text P pageUrls) "sk-test" = Ok profile
        /\ getWebsiteAnalysis "acct-1" (fst out')
           = Some (completed_row (getWebsiteAnalysis "acct-1" db)
                     (as_column <$> head pageUrls) (JSON_stringify P profile)
                     (now db + 2 + length (logged P "acct-1" texts))%nat)
        /\ pages_of "acct-1" (fst out')
           = (pages_of "acct-1" db ++ logged P "acct-1" texts)%list).
Proof.
  intros P url pages db out pageUrls out'.
  assert (H : snd out = Ok tt) by reflexivity.
  assert (H' : snd out' = Ok tt) by reflexivity.
  assert (H0 : logged P "acct-1" (url :: pages) = [url; "https://shop.example/contact"])
    by reflexivity.
  assert (H1 : pages_of "acct-1" (fst out') = ["https://shop.example"]) by reflexivity.
  destruct (successful_run_row P "acct-1" "sk-test" db) as (Hsite & _ & _ & Hpages).
  exact (conj H (conj H' (conj H0 (conj H1
           (conj (Hsite url H) (Hpages pageUrls false H')))))).
Defined.

End OrchestratorMore.

(** ** The reader, the deletes and the page history *)

Module ServiceMore.
Import JS Storage StorageMore Orchestrator Service Routes Shapes.
Import StorageProps OrchestratorProps OrchestratorMore.

Lemma reader_after_marked_failed {Profile} (P : Platform Profile) id e before after :
  marked_failed id e before after ->
  getAnalyzedContent P id after = getAnalyzedContent P id before.
Proof.
  intros [Hget _]. unfold getAnalyzedContent. rewrite Hget.
  destruct (getWebsiteAnalysis id before); reflexivity.
Qed.

(** A run of [analyzeWebsite] that throws, and a run of
    [analyzeWebsitePages] on a list of strings that throws, do not change
    what [getAnalyzedContent] answers for the account: the profile of the
    last successful run is still served (and an account without one still
    has none).  A run of [analyzeWebsitePages] that throws on a list with
    an element that is not a string either leaves the answer as it was or
    has saved a new profile, which is then what the row holds. *)
Theorem reader_unchanged_by_failed_run {Profile} (P : Platform Profile)
    (id key : string) (db : Db) (e : JsError) :
  (forall websiteUrl,
     snd (analyzeWebsite P websiteUrl id key db) = Throw e ->
     getAnalyzedContent P id (fst (analyzeWebsite P websiteUrl id key db))
     = getAnalyzedContent P id db)
  /\ (forall pageUrls appendMode,
        let out := analyzeWebsitePages P pageUrls id key appendMode db in
        snd out = Throw e ->
        (forall texts, page_texts pageUrls = Ok texts ->
           getAnalyzedContent P id (fst out) = getAnalyzedContent P id db)
        /\ (getAnalyzedContent P id (fst out) = getAnalyzedContent P id db
            \/ exists profile,
                 (analyzedContent <$> getWebsiteAnalysis id (fst out))
                 = Some (Some (JSON_stringify P profile)))).
Proof.
  split.
  - intros websiteUrl H. apply (reader_after_marked_failed P id e).
    apply analyzeWebsite_failure. exact H.
  - intros pageUrls appendMode out Hthrow.
    destruct (analyzeWebsitePages_failure P pageUrls id key appendMode db e Hthrow)
      as [Hmark|(Htexts & _ & profile & _ & Hsaved & _)].
    + pose proof (reader_after_marked_failed P id e db _ Hmark) as Hsame.
      split; [intros _ _; exact Hsame | left; exact Hsame].
    + split; [intros texts Hok; rewrite Hok in Htexts; discriminate|].
      right. exists profile. fold out in Hsaved. now rewrite Hsaved.
Qed.

Lemma reader_unchanged_by_failed_run_witness :
  let P := Worlds.shop_world in
  let pageUrls := [Text "https://shop.example/about"; Text "https://shop.example/contact"] in
  let db := MoreWorlds.analysed_db in
  let out := analyzeWebsitePages P pageUrls "acct-1" "sk-test" false db in
  snd out = Throw ScrapeFailed
  /\ page_texts pageUrls = Ok ["https://shop.example/about"; "https://shop.example/contact"]
  /\ getAnalyzedContent P "acct-1" db = Ok (Some "earlier profile")
  /\ getAnalyzedContent P "acct-1" (fst out) = getAnalyzedContent P "acct-1" db.
Proof.
  intros P pageUrls db out.
  assert (H : snd out = Throw ScrapeFailed) by reflexivity.
  assert (H1 : page_texts pageUrls
               = Ok ["https://shop.example/about"; "https://shop.example/contact"])
    by reflexivity.
  assert (H0 : getAnalyzedContent P "acct-1" db = Ok (Some "earlier profile"))
    by reflexivity.
  exact (conj H (conj H1 (conj H0
           (proj1 (proj2 (reader_unchanged_by_failed_run P "acct-1" "sk-test" db ScrapeFailed)
                     pageUrls false H) _ H1)))).
Defined.

Lemma reader_of_completed_row {Profile} (P : Platform Profile) id db old url profile t :
  JSON_stringify P profile <> EmptyString ->
  JSON_parse P (JSON_stringify P profile) = Some profile ->
  getWebsiteAnalysis id db = Some (completed_row old url (JSON_stringify P profile) t) ->
  getAnalyzedContent P id db = Ok (Some profile).
Proof.
  intros Hne Hparse Hget. unfold getAnalyzedContent. rewrite Hget. cbn.
  destruct (JSON_stringify P profile) as [|c s]; [contradiction|]. now rewrite Hparse.
Qed.

(** When [JSON.parse] undoes [JSON.stringify] (which never gives the empty
    text), then after a run that ends normally [getAnalyzedContent] answers
    with a profile -- not null, not an exception: the one whose JSON text
    the row holds. *)
Theorem reader_returns_saved_profile {Profile} (P : Platform Profile)
    (id key : string) (db : Db) :
  (forall p, JSON_stringify P p <> EmptyString
             /\ JSON_parse P (JSON_stringify P p) = Some p) ->
  (forall websiteUrl,
     let out := analyzeWebsite P websiteUrl id key db in
     snd out = Ok tt ->
     exists profile,
       getAnalyzedContent P id (fst out) = Ok (Some profile)
       /\ (analyzedContent <$> getWebsiteAnalysis id (fst out))
          = Some (Some (JSON_stringify P profile)))
  /\ (forall pageUrls appendMode,
        let out := analyzeWebsitePages P pageUrls id key appendMode db in
        snd out = Ok tt ->
        exists profile,
          getAnalyzedContent P id (fst out) = Ok (Some profile)
          /\ (analyzedContent <$> getWebsiteAnalysis id (fst out))
             = Some (Some (JSON_stringify P profile))).
Proof.
  intros Hjson. split.
  - intros websiteUrl out Hok.
    destruct (analyzeWebsite_ok_row P websiteUrl id key db Hok)
      as (homepageContent & homepageHtml & pages & profile & _ & _ & _ & _ & Hget & _).
    destruct (Hjson profile) as [Hne Hparse]. exists profile. split.
    + eapply reader_of_completed_row; eauto.
    + subst out. now rewrite Hget.
  - intros pageUrls appendMode out Hok.
    destruct (analyzeWebsitePages_ok_row P pageUrls id key appendMode db Hok)
      as (texts & profile & _ & _ & _ & Hget & _).
    destruct (Hjson profile) as [Hne Hparse]. exists profile. split.
    + eapply reader_of_completed_row; eauto.
    + subst out. now rewrite Hget.
Qed.

Lemma open_close_brace p : MoreWorlds.open_brace (MoreWorlds.close_brace p) = Some p.
Proof.
  induction p as [|c rest IH]; [reflexivity|].
  cbn [MoreWorlds.close_brace MoreWorlds.open_brace]. rewrite IH.
  destruct rest; reflexivity.
Qed.

Lemma reader_returns_saved_profile_witness :
  let P := MoreWorlds.braces_world in
  let db := Worlds.pending_db "acct-1" "https://shop.example" in
  let out := analyzeWebsitePages P [Text "https://shop.example/faq"] "acct-1" "sk-test"
               false db in
  snd out = Ok tt
  /\ exists profile,
       getAnalyzedContent P "acct-1" (fst out) = Ok (Some profile)
       /\ (analyzedContent <$> getWebsiteAnalysis "acct-1" (fst out))
          = Some (Some (JSON_stringify P profile)).
Proof.
  intros P db out.
  assert (Hjson : forall p : string,
             JSON_stringify P p <> EmptyString /\ JSON_parse P (JSON_stringify P p) = Some p).
  { intros p. split; [discriminate | apply open_close_brace]. }
  assert (H : snd out = Ok tt) by reflexivity.
  exact (conj H
           (proj2 (reader_returns_saved_profile P "acct-1" "sk-test" db Hjson)
              [Text "https://shop.example/faq"] false H)).
Defined.

End ServiceMore.

(** ** The page history and the reset *)

Module HistoryProps.
Import JS Storage StorageMore Orchestrator Service Routes Shapes.

Lemma filter_other_account (id other : string) (rows : list AnalyzedPage) :
  other <> id ->
  filter (fun row => businessAccountId row = other)
    (filter (fun row => businessAccountId row <> id) rows)
  = filter (fun row => businessAccountId row = other) rows.
Proof.
  intros Hne. induction rows as [|row rows IH]; [reflexivity|].
  rewrite (filter_cons (fun row => businessAccountId row <> id)).
  destruct (decide (businessAccountId row <> id)) as [Hkeep|Hdrop].
  - rewrite !filter_cons, IH. reflexivity.
  - rewrite IH, filter_cons.
    destruct (decide (businessAccountId row = other)) as [Heq|]; [|reflexivity].
    exfalso. apply Hdrop. congruence.
Qed.

Lemma filter_same_account (id : string) (rows : list AnalyzedPage) :
  filter (fun row => businessAccountId row = id)
    (filter (fun row => businessAccountId row <> id) rows) = [].
Proof.
  induction rows as [|row rows IH]; [reflexivity|].
  rewrite (filter_cons (fun row => businessAccountId row <> id)).
  destruct (decide (businessAccountId row <> id)) as [Hkeep|Hdrop]; [|exact IH].
  rewrite filter_cons, IH.
  destruct (decide (businessAccountId row = id)); [contradiction | reflexivity].
Qed.

(** The reset of the DELETE route: afterwards the account has no row, the
    status reported for it is [not_started], there is no profile to read and
    no page in its history; the rows and the histories of the other accounts
    are as before. *)
Theorem reset_forgets_the_account {Profile} (P : Platform Profile) (id : string) (db : Db) :
  let out := delete_website_analysis id db in
  snd out = Ok tt
  /\ getWebsiteAnalysis id (fst out) = None
  /\ reported_status id (fst out) = not_started
  /\ getAnalyzedContent P id (fst out) = Ok None
  /\ getAnalyzedPages id (fst out) = []
  /\ pages_of id (fst out) = []
  /\ forall other, other <> id ->
       getWebsiteAnalysis other (fst out) = getWebsiteAnalysis other db
       /\ getAnalyzedPages other (fst out) = getAnalyzedPages other db
       /\ pages_of other (fst out) = pages_of other db.
Proof.
  intros out. subst out. unfold delete_website_analysis. run. cbn [fst snd].
  assert (Hget : getWebsiteAnalysis id
                   (deleteAnalyzedPages id (deleteWebsiteAnalysis id db)) = None).
  { unfold getWebsiteAnalysis. cbn. apply lookup_delete_eq. }
  assert (Hrows : filter (fun row => businessAccountId row = id)
                    (analyzed_pages (deleteAnalyzedPages id (deleteWebsiteAnalysis id db)))
                  = []).
  { cbn. apply filter_same_account. }
  split; [reflexivity|]. split; [exact Hget|].
  split; [unfold reported_status; now rewrite Hget|].
  split; [unfold getAnalyzedContent; now rewrite Hget|].
  split; [unfold getAnalyzedPages; now rewrite Hrows|].
  split; [unfold pages_of; now rewrite Hrows|].
  intros other Hne.
  assert (Hother : filter (fun row => businessAccountId row = other)
                     (analyzed_pages (deleteAnalyzedPages id (deleteWebsiteAnalysis id db)))
                   = filter (fun row => businessAccountId row = other) (analyzed_pages db)).
  { cbn. now apply filter_other_account. }
  split; [|split].
  - unfold getWebsiteAnalysis. cbn. apply lookup_delete_ne. congruence.
  - unfold getAnalyzedPages. now rewrite Hother.
  - unfold pages_of. now rewrite Hother.
Qed.

Lemma reset_forgets_the_account_witness :
  let P := Worlds.shop_world in
  let db := MoreWorlds.two_accounts_db in
  let out := delete_website_analysis "acct-2" db in
  "acct-1" <> "acct-2"
  /\ pages_of "acct-2" db = ["https://other.example"]
  /\ pages_of "acct-2" (fst out) = []
  /\ getWebsiteAnalysis "acct-1" (fst out) = getWebsiteAnalysis "acct-1" db.
Proof.
  intros P db out.
  assert (Hne : "acct-1" <> "acct-2") by discriminate.
  assert (H0 : pages_of "acct-2" db = ["https://other.example"]) by reflexivity.
  destruct (reset_forgets_the_account P "acct-2" db) as (_ & _ & _ & _ & _ & Hlog & Hother).
  exact (conj Hne (conj H0 (conj Hlog (proj1 (Hother "acct-1" Hne))))).
Defined.

End HistoryProps.

(** ** The POST route *)

Module RoutesProps.
Import JS Storage StorageMore Orchestrator Service Routes Shapes.
Import StorageProps OrchestratorProps OrchestratorMore.

Lemma check_pages_same {Profile} (P : Platform Profile) baseHost pages :
  check_pages P baseHost pages = SameDomain ->
  Forall (fun page => exists u, URL_parse P (as_text page) = Some u /\ hostname u = baseHost)
    pages.
Proof.
  induction pages as [|page rest IH]; intros H; [constructor|].
  cbn [check_pages] in H.
  destruct (URL_parse P (as_text page)) as [u|] eqn:Hparse; [|discriminate].
  destruct (String.eqb_spec (hostname u) baseHost) as [Heq|Hne]; cbn [negb] in H;
    [|discriminate].
  constructor; [eauto | now apply IH].
Qed.

Lemma or_null_some x y : or_null x = Some y -> x = Some y /\ y <> EmptyString.
Proof.
  destruct x as [[|c s]|]; cbn; intros H; inversion H; subst. split; [reflexivity|discriminate].
Qed.

(** The pages of a request, as the route collects them. *)
Lemma plan_pages_of {Profile} (P : Platform Profile) keys req plan :
  plan_analysis P keys req = inr plan ->
  plan_pages plan
  = (if analyzeOnlyAdditional req then items_of (additionalPages_field req)
     else Text (plan_websiteUrl plan) :: items_of (additionalPages_field req))
  /\ plan_pages plan <> []
  /\ plan_append plan = analyzeOnlyAdditional req || has_length (additionalPages_field req)
  /\ check_domain P (plan_websiteUrl plan) (plan_pages plan) = SameDomain
  /\ or_null (session_account req) = Some (plan_account plan)
  /\ or_null (keys (plan_account plan)) = Some (plan_key plan)
  /\ websiteUrl_field req = Str (plan_websiteUrl plan).
Proof.
  unfold plan_analysis.
  destruct (or_null (session_account req)) as [id|] eqn:Hid; [|discriminate].
  destruct (websiteUrl_field req) as [|[|c s]| |] eqn:Hurl; try discriminate.
  cbv zeta.
  destruct (analyzeOnlyAdditional req) eqn:Honly.
  - destruct (additionalPages_field req) as [| |[|page rest]|] eqn:Hadd; try discriminate.
    destruct (check_domain P (String c s) (page :: rest)) eqn:Hdom; try discriminate.
    destruct (or_null (keys id)) as [key|] eqn:Hkey; [|discriminate].
    intros H; inversion H; subst plan; cbn. auto 10.
  - destruct (additionalPages_field req) as [|x|items|n] eqn:Hadd.
    all: match goal with
         | |- context [check_domain ?p ?u ?l] =>
             destruct (check_domain p u l) eqn:Hdom; try discriminate
         end.
    all: destruct (or_null (keys id)) as [key|] eqn:Hkey; [|discriminate].
    all: intros H; inversion H; subst plan; cbn.
    all: split; [reflexivity|]; split; [discriminate|]; auto 10.
Qed.

(** A request that the POST route accepts: the account of the session and
    its stored key are there and not empty, and the website URL is a string
    that parses.  The list handed to the run is the array of additional
    pages alone when only these are asked for, and the website URL
    followed by the elements of that array (by nothing, when the field is
    no array) otherwise; it is not empty, and the text of each element --
    a string, or what [String(v)] makes of another value, such as a nested
    array -- parses and has the host name of the website URL.  The run is
    started in append mode when only additional pages are asked for or the
    field of additional pages has a positive length. *)
Theorem accepted_request_is_same_host {Profile} (P : Platform Profile)
    (keys : string -> option string) (req : AnalysisRequest) (plan : Plan) :
  plan_analysis P keys req = inr plan ->
  session_account req = Some (plan_account plan)
  /\ plan_account plan <> EmptyString
  /\ keys (plan_account plan) = Some (plan_key plan)
  /\ plan_key plan <> EmptyString
  /\ websiteUrl_field req = Str (plan_websiteUrl plan)
  /\ plan_pages plan
     = (if analyzeOnlyAdditional req then items_of (additionalPages_field req)
        else Text (plan_websiteUrl plan) :: items_of (additionalPages_field req))
  /\ plan_pages plan <> []
  /\ plan_append plan = analyzeOnlyAdditional req || has_length (additionalPages_field req)
  /\ exists base,
       URL_parse P (plan_websiteUrl plan) = Some base
       /\ Forall (fun page => exists u, URL_parse P (as_text page) = Some u
                                        /\ hostname u = hostname base)
            (plan_pages plan).
Proof.
  intros Hplan.
  destruct (plan_pages_of P keys req plan Hplan)
    as (Hpages & Hsome & Happend & Hdom & Hid & Hkey & Hurl).
  apply or_null_some in Hid as [Hid Hid']. apply or_null_some in Hkey as [Hkey Hkey'].
  do 8 (split; [assumption|]).
  unfold check_domain in Hdom.
  destruct (URL_parse P (plan_websiteUrl plan)) as [base|]; [|discriminate].
  exists base. split; [reflexivity | now apply check_pages_same].
Qed.

Lemma accepted_request_is_same_host_witness :
  let P := Worlds.shop_world in
  let nested := NonText "https://shop.example/faq" "{https://shop.example/faq}" in
  let plan := mkPlan "acct-1" "https://shop.example/" [Text "https://shop.example/"; nested]
                "sk-test" true in
  plan_analysis P MoreWorlds.shop_keys MoreWorlds.nested_request = inr plan
  /\ plan_pages plan
     = Text "https://shop.example/"
         :: items_of (additionalPages_field MoreWorlds.nested_request)
  /\ exists base,
       URL_parse P (plan_websiteUrl plan) = Some base
       /\ Forall (fun page => exists u, URL_parse P (as_text page) = Some u
                                        /\ hostname u = hostname base)
            (plan_pages plan).
Proof.
  intros P nested plan.
  assert (H : plan_analysis P MoreWorlds.shop_keys MoreWorlds.nested_request = inr plan)
    by reflexivity.
  destruct (accepted_request_is_same_host P MoreWorlds.shop_keys MoreWorlds.nested_request
              plan H) as (_ & _ & _ & _ & _ & Hpages & _ & _ & Hhost).
  exact (conj H (conj Hpages Hhost)).
Defined.

(** The row of the account once the run that an accepted POST starts has
    ended. *)
Lemma post_unfolds {Profile} (P : Platform Profile) keys req plan db :
  plan_analysis P keys req = inr plan ->
  let id := plan_account plan in
  let db1 := upsertWebsiteAnalysis id
               (mkPatch (Some (plan_websiteUrl plan)) (Some pending) None) db in
  let run := analyzeWebsitePages P (plan_pages plan) id (plan_key plan) (plan_append plan)
               db1 in
  post_website_analysis P keys req db
  = (fst run,
     Ok (Pending (started_message (analyzeOnlyAdditional req) (length (plan_pages plan))))).
Proof.
  intros Hplan id db1 run0. unfold post_website_analysis. rewrite Hplan. run.
  fold id. fold db1. fold run0. destruct run0 as [db2 [[]|e]]; reflexivity.
Qed.

(** An accepted POST answers [pending] whatever becomes of the run it
    starts; once that run has ended, the row of the account exists and is
    completed or failed -- the [pending] written by the route does not
    stay. *)
Theorem post_run_ends_completed_or_failed {Profile} (P : Platform Profile)
    (keys : string -> option string) (req : AnalysisRequest) (plan : Plan) (db : Db) :
  plan_analysis P keys req = inr plan ->
  let out := post_website_analysis P keys req db in
  snd out
  = Ok (Pending (started_message (analyzeOnlyAdditional req) (length (plan_pages plan))))
  /\ exists row,
       getWebsiteAnalysis (plan_account plan) (fst out) = Some row
       /\ (status row = completed \/ status row = failed).
Proof.
  intros Hplan out. subst out. rewrite (post_unfolds P keys req plan db Hplan). cbn [fst snd].
  split; [reflexivity|].
  set (db1 := upsertWebsiteAnalysis _ _ db).
  pose proof (analyzeWebsitePages_settled P (plan_pages plan) (plan_account plan)
                (plan_key plan) (plan_append plan) db1) as (Hend & _ & Hkeep).
  destruct (get_after_upsert (plan_account plan)
              (mkPatch (Some (plan_websiteUrl plan)) (Some pending) None) db)
    as (row0 & Hrow0 & _).
  destruct Hkeep as [row Hrow]; [subst db1; rewrite Hrow0; eauto|].
  exists row. split; [exact Hrow|].
  destruct (snd (analyzeWebsitePages P (plan_pages plan) (plan_account plan)
                   (plan_key plan) (plan_append plan) db1)) as [[]|e].
  - destruct Hend as (row' & Hrow' & Hst). rewrite Hrow in Hrow'.
    inversion Hrow'; subst. now left.
  - right. now apply Hend.
Qed.

Lemma post_run_ends_completed_or_failed_witness :
  let P := MoreWorlds.faq_world in
  let plan := mkPlan "acct-1" "https://shop.example" [Text "https://shop.example/faq"]
                "sk-test" true in
  let out := post_website_analysis P MoreWorlds.shop_keys MoreWorlds.faq_request
               Worlds.empty_db in
  plan_analysis P MoreWorlds.shop_keys MoreWorlds.faq_request = inr plan
  /\ exists row,
       getWebsiteAnalysis "acct-1" (fst out) = Some row
       /\ (status row = completed \/ status row = failed).
Proof.
  intros P plan out.
  assert (H : plan_analysis P MoreWorlds.shop_keys MoreWorlds.faq_request = inr plan)
    by reflexivity.
  exact (conj H
           (proj2 (post_run_ends_completed_or_failed P MoreWorlds.shop_keys
                     MoreWorlds.faq_request plan Worlds.empty_db H))).
Defined.

Lemma page_texts_head pageUrls texts :
  page_texts pageUrls = Ok texts -> head texts = as_column <$> head pageUrls.
Proof.
  destruct pageUrls as [|[s|text column] rest]; cbn [page_texts].
  - intros H; now inversion H.
  - destruct (page_texts rest); [|discriminate]. intros H; now inversion H.
  - discriminate.
Qed.

(** When the run of an accepted POST has completed, every element of the
    list was a string and the website URL of the row is the first of them:
    the website URL of the request in a full analysis, but the first
    additional page -- not the website URL the route has just saved --
    when only additional pages were asked for. *)
Theorem completed_post_stores_first_page {Profile} (P : Platform Profile)
    (keys : string -> option string) (req : AnalysisRequest) (plan : Plan) (db : Db) :
  plan_analysis P keys req = inr plan ->
  let out := post_website_analysis P keys req db in
  (status <$> getWebsiteAnalysis (plan_account plan) (fst out)) = Some completed ->
  exists texts,
    page_texts (plan_pages plan) = Ok texts
    /\ (websiteUrl <$> getWebsiteAnalysis (plan_account plan) (fst out)) = head texts
    /\ (analyzeOnlyAdditional req = false -> head texts = Some (plan_websiteUrl plan))
    /\ (analyzeOnlyAdditional req = true ->
        exists page rest,
          additionalPages_field req = Arr (Text page :: rest)
          /\ head texts = Some page).
Proof.
  intros Hplan out. subst out. rewrite (post_unfolds P keys req plan db Hplan). cbn [fst].
  set (db1 := upsertWebsiteAnalysis _ _ db). intros Hdone.
  destruct (plan_pages_of P keys req plan Hplan) as (Hpages & Hsome & _).
  pose proof (analyzeWebsitePages_settled P (plan_pages plan) (plan_account plan)
                (plan_key plan) (plan_append plan) db1) as (Hend & _).
  pose proof (analyzeWebsitePages_ok_row P (plan_pages plan) (plan_account plan)
                (plan_key plan) (plan_append plan) db1) as Hok. cbv zeta in Hok.
  destruct (snd (analyzeWebsitePages P (plan_pages plan) (plan_account plan)
                   (plan_key plan) (plan_append plan) db1)) as [[]|e].
  - destruct (Hok eq_refl) as (texts & profile & Htexts & _ & _ & Hget & _).
    pose proof (page_texts_head _ _ Htexts) as Hhead.
    exists texts. split; [exact Htexts|]. split; [|split].
    + rewrite Hget.
      destruct (get_after_upsert (plan_account plan)
                  (mkPatch (Some (plan_websiteUrl plan)) (Some pending) None) db)
        as (row0 & Hrow0 & _).
      fold db1 in Hrow0. rewrite Hrow0, Hhead. cbn.
      destruct (plan_pages plan); [contradiction | reflexivity].
    + intros Honly. rewrite Honly in Hpages. rewrite Hhead, Hpages. reflexivity.
    + intros Honly. rewrite Honly in Hpages. rewrite Hhead, Hpages.
      rewrite Hpages in Htexts, Hsome.
      destruct (additionalPages_field req) as [| |[|[page|text column] rest]|];
        cbn in Htexts, Hsome |- *; try contradiction; try discriminate.
      exists page, rest. split; reflexivity.
  - destruct (getWebsiteAnalysis (plan_account plan) _) as [row|] eqn:Hrow;
      [|discriminate].
    destruct (Hend row eq_refl) as [Hst _]. cbn in Hdone. rewrite Hst in Hdone.
    discriminate.
Qed.

Lemma completed_post_stores_first_page_witness :
  let P := MoreWorlds.faq_world in
  let plan := mkPlan "acct-1" "https://shop.example" [Text "https://shop.example/faq"]
                "sk-test" true in
  let out := post_website_analysis P MoreWorlds.shop_keys MoreWorlds.faq_request
               Worlds.empty_db in
  plan_analysis P MoreWorlds.shop_keys MoreWorlds.faq_request = inr plan
  /\ (status <$> getWebsiteAnalysis "acct-1" (fst out)) = Some completed
  /\ exists texts,
       page_texts (plan_pages plan) = Ok texts
       /\ (websiteUrl <$> getWebsiteAnalysis "acct-1" (fst out)) = head texts
       /\ (true = false -> head texts = Some (plan_websiteUrl plan))
       /\ (true = true ->
           exists page rest,
             additionalPages_field MoreWorlds.faq_request = Arr (Text page :: rest)
             /\ head texts = Some page).
Proof.
  intros P plan out.
  assert (H : plan_analysis P MoreWorlds.shop_keys MoreWorlds.faq_request = inr plan)
    by reflexivity.
  assert (H0 : (status <$> getWebsiteAnalysis "acct-1" (fst out)) = Some completed)
    by reflexivity.
  exact (conj H (conj H0
           (completed_post_stores_first_page P MoreWorlds.shop_keys
              MoreWorlds.faq_request plan Worlds.empty_db H H0))).
Defined.

End RoutesProps.
